(** * Prompt assembly of the world-model browsing agent

    A shallow embedding of [agenthub/world_model_agent/prompt.py]: the
    prompt elements with their visibility flag, the truncating elements
    ([Trunkater], [HTML], [AXTree]) and their [shrink] method, the
    action-space element and its answer parser, and the constructor of
    [MyMainPrompt] with its mode dispatch on the lengths of the four
    histories.

    Conventions of the embedding.
    - A Python [str] is a [string]; every character stands for one code
      point below 256 (so U+0085 is the character 133, and U+2028, U+2029
      are outside the model).
    - A Python [int] is a [Z]; a Python [float] is a binary64 primitive
      float, with the kernel's IEEE 754 operations.
    - A raised exception is the [Raise] result of the error monad
      [result]. *)

From Stdlib Require Import ZArith QArith Qround Qabs Floats String Ascii DecimalString List Lia.
From stdpp Require Import base option list gmap strings.

Open Scope Z_scope.

(** ** Exceptions and the error monad *)

Inductive exn : Type :=
| AssertionError
| IndexError (msg : string)
| KeyError (key : string)
| ValueError (msg : string)
| OverflowError (msg : string)
| AttributeError (msg : string)
| ParseError (msg : string)
| Exception (cls msg : string).

Inductive result (A : Type) : Type :=
| Ok (a : A)
| Raise (e : exn).

Arguments Ok {A} a.
Arguments Raise {A} e.

Definition bind {A B : Type} (m : result A) (k : A -> result B) : result B :=
  match m with
  | Ok a => k a
  | Raise e => Raise e
  end.

Notation "'let*' x ':=' m 'in' k" := (bind m (fun x => k))
  (at level 10, x name, m at level 100, k at level 200).

Definition is_ok {A : Type} (m : result A) : bool :=
  match m with Ok _ => true | Raise _ => false end.

(** ** Python strings *)

Module PyStr.

Definition chr (n : nat) : string := String (ascii_of_nat n) EmptyString.

(** The one-character strings ["\n"] and ["\r"]. *)
Definition LF : string := chr 10.
Definition CR : string := chr 13.

(** The line boundaries of [str.splitlines] below code point 256:
    LF, VT, FF, CR, FS, GS, RS and NEL. *)
Definition is_linebreak (c : ascii) : bool :=
  match nat_of_ascii c with
  | 10%nat | 11%nat | 12%nat | 13%nat | 28%nat | 29%nat | 30%nat | 133%nat => true
  | _ => false
  end.

Definition is_CR (c : ascii) : bool := Ascii.eqb c (ascii_of_nat 13).
Definition is_LF (c : ascii) : bool := Ascii.eqb c (ascii_of_nat 10).

(** [cons_char c ls] puts [c] in front of the line that [ls] starts with. *)
Definition cons_char (c : ascii) (ls : list string) : list string :=
  match ls with
  | [] => [String c EmptyString]
  | l :: ls' => String c l :: ls'
  end.

(** [s.splitlines()]: the lines of [s] without their line boundary; CR LF
    is one boundary, and no empty line follows a final boundary. *)
Fixpoint splitlines (s : string) : list string :=
  match s with
  | EmptyString => []
  | String c r =>
      if is_linebreak c then
        if is_CR c then
          match r with
          | String c' r' =>
              if is_LF c' then EmptyString :: splitlines r'
              else EmptyString :: splitlines r
          | EmptyString => [EmptyString]
          end
        else EmptyString :: splitlines r
      else cons_char c (splitlines r)
  end.

(** [sep.join(parts)] *)
Definition join (sep : string) (parts : list string) : string :=
  String.concat sep parts.

(** [str(n)] for an [int] *)
Definition of_int (n : Z) : string := NilZero.string_of_int (Z.to_int n).

(** How an f-string renders a value that is a [str] or [None]. *)
Definition of_option (o : option string) : string :=
  match o with
  | Some s => s
  | None => "None"
  end.

(** [str(e)] for an exception. *)
Definition of_exn (e : exn) : string :=
  match e with
  | AssertionError => ""
  | KeyError k => "'" +:+ k +:+ "'"
  | IndexError m | ValueError m | OverflowError m | AttributeError m
  | ParseError m | Exception _ m => m
  end.

(** The truth value of a [str]. *)
Definition nonempty (s : string) : bool :=
  match s with
  | EmptyString => false
  | String _ _ => true
  end.

(** No character of [s] is a line boundary. *)
Fixpoint no_linebreak (s : string) : bool :=
  match s with
  | EmptyString => true
  | String c r => negb (is_linebreak c) && no_linebreak r
  end.

End PyStr.

(** ** Python sequences: length, ranges, indexing and slicing *)

Module PySeq.

(** [len(l)] *)
Definition len {A : Type} (l : list A) : Z := Z.of_nat (length l).

(** [range(a, b)] *)
Definition range (a b : Z) : list Z :=
  map (fun k => a + Z.of_nat k) (seq 0 (Z.to_nat (b - a))).

(** [enumerate(l)] *)
Definition enumerate {A : Type} (l : list A) : list (Z * A) :=
  combine (range 0 (len l)) l.

(** [l[i]], a negative [i] counting from the end. *)
Definition index {A : Type} (l : list A) (i : Z) : result A :=
  let j := if i <? 0 then len l + i else i in
  if j <? 0 then Raise (IndexError "list index out of range")
  else match l !! Z.to_nat j with
       | Some x => Ok x
       | None => Raise (IndexError "list index out of range")
       end.

(** [l[:k]] *)
Definition slice_to {A : Type} (l : list A) (k : Z) : list A :=
  if k <? 0 then take (Z.to_nat (len l + k)) l
  else take (Z.to_nat k) l.

(** [l[k:]] *)
Definition slice_from {A : Type} (l : list A) (k : Z) : list A :=
  if k <? 0 then drop (Z.to_nat (len l + k)) l
  else drop (Z.to_nat k) l.

End PySeq.

(** ** Python floats: the conversions around binary64 arithmetic *)

Module PyFloat.

(** [float(n)] for an [int], as the mixed product [n * x] converts it:
    rounded to nearest even, [OverflowError] beyond the binary64 range. *)
Definition of_int (n : Z) : result float :=
  let f := SF2Prim (binary_normalize prec emax n 0 false) in
  if PrimFloat.is_infinity f
  then Raise (OverflowError "int too large to convert to float")
  else Ok f.

(** [int(x)] for a [float]: truncation towards zero. *)
Definition to_int (x : float) : result Z :=
  match Prim2SF x with
  | S754_nan => Raise (ValueError "cannot convert float NaN to integer")
  | S754_infinity _ =>
      Raise (OverflowError "cannot convert float infinity to integer")
  | S754_zero _ => Ok 0
  | S754_finite s m e =>
      let a := if 0 <=? e then Z.pos m * 2 ^ e else Z.pos m / 2 ^ (- e) in
      Ok (if s then - a else a)
  end.

(** [n * x] for an [int] [n] and a [float] [x] *)
Definition int_mul (n : Z) (x : float) : result float :=
  let* f := of_int n in Ok (PrimFloat.mul f x).

(** [1 - x] for a [float] [x] *)
Definition one_minus (x : float) : float := PrimFloat.sub 1%float x.

(** [x] is neither an infinity nor a NaN. *)
Definition is_finite (x : float) : bool :=
  match Prim2SF x with
  | S754_zero _ | S754_finite _ _ _ => true
  | S754_infinity _ | S754_nan => false
  end.

(** The rational number a finite float stands for. *)
Definition to_Q (x : float) : option Q :=
  match Prim2SF x with
  | S754_zero _ => Some 0%Q
  | S754_finite s m e =>
      let a := if 0 <=? e then inject_Z (Z.pos m * 2 ^ e)
               else Qmake (Z.pos m) (Z.to_pos (2 ^ (- e))) in
      Some (if s then Qopp a else a)
  | _ => None
  end.

(** [math.floor(n * (1 - x))] in exact arithmetic, no rounding anywhere. *)
Definition exact_floor_scale (n : Z) (x : float) : option Z :=
  match to_Q x with
  | Some q => Some (Qfloor (Qmult (inject_Z n) (Qminus 1%Q q)))
  | None => None
  end.

End PyFloat.

(** ** [PromptElement]: a piece of prompt text that can be hidden *)

Module PromptElement.
Section Defs.

(** [Env] is the state of the program that a callable visibility flag reads
    when it is called. *)
Context {Env : Type}.

(** The values a visibility flag holds in this file: a [bool], or a [str]
    (the error banner passes the error text itself). *)
Inductive flag : Type :=
| FBool (b : bool)
| FStr (s : string).

(** The truth value [if v:] tests. *)
Definition truthy (v : flag) : bool :=
  match v with
  | FBool b => b
  | FStr s => PyStr.nonempty s
  end.

(** [visible] is a value, or a callable without argument that returns one. *)
Inductive visibility : Type :=
| Static (v : flag)
| Callable (f : Env -> flag).

Record t : Type := {
  _visible : visibility;
  _prompt : string;
  _abstract_ex : string;
  _concrete_ex : string
}.

(** The class attributes are empty strings; [__init__] stores the flag. *)
Definition __init__ (visible : visibility) : t :=
  {| _visible := visible; _prompt := ""; _abstract_ex := ""; _concrete_ex := "" |}.

Definition set_prompt (self : t) (p : string) : t :=
  {| _visible := _visible self; _prompt := p;
     _abstract_ex := _abstract_ex self; _concrete_ex := _concrete_ex self |}.

Definition set_examples (self : t) (a c : string) : t :=
  {| _visible := _visible self; _prompt := _prompt self;
     _abstract_ex := a; _concrete_ex := c |}.

Definition is_visible (env : Env) (self : t) : flag :=
  match _visible self with
  | Callable f => f env
  | Static v => v
  end.

Definition _hide (env : Env) (self : t) (value : string) : string :=
  if truthy (is_visible env self) then value else "".

Definition prompt (env : Env) (self : t) : string :=
  _hide env self (_prompt self).

Definition abstract_ex (env : Env) (self : t) : string :=
  _hide env self (_abstract_ex self).

Definition concrete_ex (env : Env) (self : t) : string :=
  _hide env self (_concrete_ex self).

(** [_parse_answer] of the base class calls itself while the element is
    visible. [depth] is the number of nested calls the interpreter still
    allows; past it the interpreter raises [RecursionError]. The answer of a
    hidden element is the empty [dict]. *)
Fixpoint _parse_answer (depth : nat) (env : Env) (self : t) (text_answer : string)
  : result (gmap string string) :=
  if truthy (is_visible env self) then
    match depth with
    | O => Raise (Exception "RecursionError" "maximum recursion depth exceeded")
    | S depth' => _parse_answer depth' env self text_answer
    end
  else Ok ∅.

End Defs.
End PromptElement.

(** ** [Trunkater]: a prompt element that drops trailing lines on [shrink] *)

Module Trunkater.
Section Defs.
Context {Env : Type}.

Record t : Type := {
  base : @PromptElement.t Env;
  shrink_speed : float;
  start_trunkate_iteration : Z;
  shrink_calls : Z;
  deleted_lines : Z
}.

(** The default [shrink_speed=0.3]: the float nearest to 0.3, written in
    hexadecimal (the lemma [default_shrink_speed_value] gives its value). *)
Definition default_shrink_speed : float := 0x1.3333333333333p-2%float.

Definition __init__ (visible : PromptElement.visibility)
  (shrink_speed : float) (start_trunkate_iteration : Z) : t :=
  {| base := PromptElement.__init__ visible;
     shrink_speed := shrink_speed;
     start_trunkate_iteration := start_trunkate_iteration;
     shrink_calls := 0;
     deleted_lines := 0 |}.

Definition set_prompt (self : t) (p : string) : t :=
  {| base := PromptElement.set_prompt (base self) p;
     shrink_speed := shrink_speed self;
     start_trunkate_iteration := start_trunkate_iteration self;
     shrink_calls := shrink_calls self;
     deleted_lines := deleted_lines self |}.

Definition set_deleted_lines (self : t) (d : Z) : t :=
  {| base := base self;
     shrink_speed := shrink_speed self;
     start_trunkate_iteration := start_trunkate_iteration self;
     shrink_calls := shrink_calls self;
     deleted_lines := d |}.

Definition set_shrink_calls (self : t) (c : Z) : t :=
  {| base := base self;
     shrink_speed := shrink_speed self;
     start_trunkate_iteration := start_trunkate_iteration self;
     shrink_calls := c;
     deleted_lines := deleted_lines self |}.

(** [int(n * (1 - speed))], where [n] is [len(lines)] *)
Definition new_line_count (speed : float) (n : Z) : result Z :=
  let* x := PyFloat.int_mul n (PyFloat.one_minus speed) in
  PyFloat.to_int x.

(** The line [shrink] appends, without the newline before it. *)
Definition deleted_note (deleted : Z) : string :=
  "... Deleted " +:+ PyStr.of_int deleted +:+ " lines to reduce prompt size.".

(** The condition of the [if] in [shrink]. *)
Definition truncates (env : Env) (self : t) : bool :=
  PromptElement.truthy (PromptElement.is_visible env (base self))
  && (start_trunkate_iteration self <=? shrink_calls self).

Definition shrink (env : Env) (self : t) : result t :=
  let* self :=
    if truncates env self then
      let lines := PyStr.splitlines (PromptElement._prompt (base self)) in
      let* new_line_count := new_line_count (shrink_speed self) (PySeq.len lines) in
      let self :=
        set_deleted_lines self
          (deleted_lines self + (PySeq.len lines - new_line_count)) in
      let self :=
        set_prompt self (PyStr.join PyStr.LF (PySeq.slice_to lines new_line_count)) in
      Ok (set_prompt self
            (PromptElement._prompt (base self) +:+ PyStr.LF
             +:+ deleted_note (deleted_lines self)))
    else Ok self in
  Ok (set_shrink_calls self (shrink_calls self + 1)).

(** A caller's shrink loop: one [shrink] call per entry of [envs], each made
    in the program state of that entry. *)
Fixpoint shrinks (envs : list Env) (self : t) : result t :=
  match envs with
  | [] => Ok self
  | env :: envs' => let* self := shrink env self in shrinks envs' self
  end.

(** The lines of the element's text, and their number. *)
Definition lines (self : t) : list string :=
  PyStr.splitlines (PromptElement._prompt (base self)).

Definition line_count (self : t) : nat := length (lines self).

(** [speed_shrinks speed n0]: for every line count [n] from 2 to [n0], the
    count [int(n * (1 - speed))] that [shrink] keeps is at least 1 and less
    than [n]. *)
Definition speed_shrinks (speed : float) (n0 : nat) : bool :=
  forallb
    (fun n =>
       match new_line_count speed (Z.of_nat n) with
       | Ok m => (1 <=? m) && (m <? Z.of_nat n)
       | Raise _ => false
       end)
    (seq 2 (n0 - 1)).

(** The state that repeated truncating calls keep, from the element [first]
    to the element [self] after [j + 1] of them: the lines are [m] lines of
    the first text and the note, and the counter has counted the lines
    dropped from the first text and [j] more. *)
Definition cut_state (first self : t) (j : Z) : Prop :=
  exists m : nat,
    (1 <= m < line_count first)%nat
    /\ lines self = take m (lines first) ++ [deleted_note (deleted_lines self)]
    /\ deleted_lines self
       = deleted_lines first + (Z.of_nat (line_count first) - Z.of_nat m) + j
    /\ shrink_speed self = shrink_speed first
    /\ start_trunkate_iteration self = start_trunkate_iteration first
    /\ PromptElement._visible (base self) = PromptElement._visible (base first)
    /\ shrink_calls first <= shrink_calls self.

End Defs.
End Trunkater.

Module HTML.
Section Defs.
Context {Env : Type}.

Definition __init__ (html : string) (visible : PromptElement.visibility)
  (prefix : string) : @Trunkater.t Env :=
  let self := Trunkater.__init__ visible Trunkater.default_shrink_speed 5 in
  Trunkater.set_prompt self
    (PyStr.LF +:+ prefix +:+ "HTML:" +:+ PyStr.LF +:+ html +:+ PyStr.LF).

End Defs.
End HTML.

Module AXTree.
Section Defs.
Context {Env : Type}.

(** [coord_type] is compared with two strings only; [None] stands for every
    other value ([None] and [False] in this file). *)
Definition coord_note (coord_type : option string) : string :=
  match coord_type with
  | Some "center" =>
      "Note: center coordinates are provided in parenthesis and are" +:+ PyStr.LF
      +:+ "  relative to the top left corner of the page." +:+ PyStr.LF +:+ PyStr.LF
  | Some "box" =>
      "Note: bounding box of each object are provided in parenthesis and are" +:+ PyStr.LF
      +:+ "  relative to the top left corner of the page." +:+ PyStr.LF +:+ PyStr.LF
  | _ => ""
  end.

Definition __init__ (ax_tree : string) (visible : PromptElement.visibility)
  (coord_type : option string) (prefix : string) : @Trunkater.t Env :=
  let self := Trunkater.__init__ visible Trunkater.default_shrink_speed 10 in
  Trunkater.set_prompt self
    (PyStr.LF +:+ prefix
     +:+ "AXTree (you may only interact with elements in this tree):" +:+ PyStr.LF
     +:+ coord_note coord_type +:+ ax_tree +:+ PyStr.LF).

End Defs.
End AXTree.

Module Error.
Section Defs.
Context {Env : Type}.

Definition __init__ (error : string) (visible : PromptElement.visibility)
  (prefix : string) : @PromptElement.t Env :=
  PromptElement.set_prompt (PromptElement.__init__ visible)
    (PyStr.LF +:+ prefix +:+ "Error from previous action:" +:+ PyStr.LF
     +:+ error +:+ PyStr.LF).

End Defs.
End Error.

(** ** The state and error monad of a method that assigns attributes *)

Definition StateM (S A : Type) : Type := S -> result (A * S).

Definition ret {S A : Type} (a : A) : StateM S A := fun s => Ok (a, s).

Definition bindM {S A B : Type} (m : StateM S A) (k : A -> StateM S B) : StateM S B :=
  fun s => let* r := m s in k (fst r) (snd r).

Definition modify {S : Type} (f : S -> S) : StateM S unit := fun s => Ok (tt, f s).

Definition gets {S A : Type} (f : S -> A) : StateM S A := fun s => Ok (f s, s).

Definition lift {S A : Type} (r : result A) : StateM S A :=
  fun s => let* a := r in Ok (a, s).

Notation "'let!' x ':=' m 'in' k" := (bindM m (fun x => k))
  (at level 10, x name, m at level 100, k at level 200).

(** [for x in xs: body(x)] *)
Fixpoint for_each {S A : Type} (xs : list A) (body : A -> StateM S unit) : StateM S unit :=
  match xs with
  | [] => ret tt
  | x :: xs' => let! _ := body x in for_each xs' body
  end.

(** ** The action space, a collaborator from outside the repository *)

Module ActionSpace.

Record t : Type := {
  describe : bool -> bool -> string;
  example_action : bool -> string;
  to_python_code : string -> result string
}.

End ActionSpace.

(** The answer of the tag parser: a [dict] from tag name to text. *)
Abbreviation dict := (gmap string string).

(** [d[k]] *)
Definition dict_get (d : dict) (k : string) : result string :=
  match d !! k with
  | Some v => Ok v
  | None => Raise (KeyError k)
  end.

(** [try: body except Exception as e: raise handler(e)] *)
Definition try_except {A : Type} (body : result A) (handler : exn -> exn) : result A :=
  match body with
  | Ok a => Ok a
  | Raise e => Raise (handler e)
  end.

(** The [ParseError] both action parsers raise when the action does not
    compile. *)
Definition action_parse_error (e : exn) : exn :=
  ParseError
    ("Error while parsing action" +:+ PyStr.LF +:+ ": " +:+ PyStr.of_exn e +:+ PyStr.LF
     +:+ "Make sure your answer is restricted to the allowed actions.").

Module MyActionSpace.
Section Defs.
Context {Env : Type}.

(** [HighLevelActionSet(subsets, multiaction, strict, demo_mode)] of the
    browser library. *)
Variable HighLevelActionSet : list string -> bool -> bool -> bool -> ActionSpace.t.

(** [parse_html_tags_raise(text, keys, optional_keys, merge_multiple)] of the
    module [utils]; [None] is an argument the call leaves out. *)
Variable parse_html_tags_raise :
  string -> option (list string) -> option (list string) -> bool -> result dict.

Definition _get_my_action_space : ActionSpace.t :=
  let action_subsets := ["chat"; "nav"; "bid"] in
  HighLevelActionSet action_subsets false false true.

Record t : Type := {
  base : @PromptElement.t Env;
  action_space : ActionSpace.t
}.

Definition __init__ : t :=
  let self := PromptElement.__init__ (PromptElement.Static (PromptElement.FBool true)) in
  let action_space := _get_my_action_space in
  let self :=
    PromptElement.set_prompt self
      ("# Action space:" +:+ PyStr.LF
       +:+ ActionSpace.describe action_space false true +:+ PyStr.LF) in
  let self :=
    PromptElement.set_examples self
      (PyStr.LF +:+ "<action>" +:+ PyStr.LF
       +:+ ActionSpace.example_action action_space true +:+ PyStr.LF
       +:+ "</action>" +:+ PyStr.LF)
      (PyStr.LF +:+ "<action>" +:+ PyStr.LF
       +:+ ActionSpace.example_action action_space false +:+ PyStr.LF
       +:+ "</action>" +:+ PyStr.LF) in
  {| base := self; action_space := action_space |}.

Definition _parse_answer (self : t) (text_answer : string) : result dict :=
  let* ans_dict := parse_html_tags_raise text_answer (Some ["action"]) None true in
  let* _ :=
    try_except
      (let* a := dict_get ans_dict "action" in
       ActionSpace.to_python_code (action_space self) a)
      action_parse_error in
  Ok ans_dict.

End Defs.
End MyActionSpace.

(** ** Observations and the main prompt *)

Module Obs.

(** The two entries of an observation that the prompt reads. *)
Record t : Type := {
  axtree_txt : string;
  last_action_error : string
}.

End Obs.

Module MyMainPrompt.
Section Defs.
Context {Env : Type}.

Variable parse_html_tags_raise :
  string -> option (list string) -> option (list string) -> bool -> result dict.

(** An attribute assigned after construction is [None] until it is set. *)
Record t : Type := {
  base : @PromptElement.t Env;
  obs_history : list Obs.t;
  states : list string;
  strategies : list string;
  actions : list string;
  active_strategy : option string;
  action_space : option ActionSpace.t;
  history : option string;
  history_steps : option (list string);
  obs : option string;
  ax_tree : option (@Trunkater.t Env);
  error : option (@PromptElement.t Env);
  observation : option string;
  state : option string;
  strategy : option (option string);
  action : option (option string)
}.

(** [self.x = v] for each attribute assigned after construction. *)
Definition set_history (v : string) (self : t) : t :=
  {| base := base self; obs_history := obs_history self;
     states := states self; strategies := strategies self;
     actions := actions self; active_strategy := active_strategy self;
     action_space := action_space self; history := Some v;
     history_steps := history_steps self; obs := obs self;
     ax_tree := ax_tree self; error := error self;
     observation := observation self; state := state self;
     strategy := strategy self; action := action self |}.

Definition set_history_steps (v : list string) (self : t) : t :=
  {| base := base self; obs_history := obs_history self;
     states := states self; strategies := strategies self;
     actions := actions self; active_strategy := active_strategy self;
     action_space := action_space self; history := history self;
     history_steps := Some v; obs := obs self; ax_tree := ax_tree self;
     error := error self; observation := observation self;
     state := state self; strategy := strategy self; action := action self |}.

Definition set_obs (v : string) (self : t) : t :=
  {| base := base self; obs_history := obs_history self;
     states := states self; strategies := strategies self;
     actions := actions self; active_strategy := active_strategy self;
     action_space := action_space self; history := history self;
     history_steps := history_steps self; obs := Some v;
     ax_tree := ax_tree self; error := error self;
     observation := observation self; state := state self;
     strategy := strategy self; action := action self |}.

Definition set_ax_tree (v : @Trunkater.t Env) (self : t) : t :=
  {| base := base self; obs_history := obs_history self;
     states := states self; strategies := strategies self;
     actions := actions self; active_strategy := active_strategy self;
     action_space := action_space self; history := history self;
     history_steps := history_steps self; obs := obs self; ax_tree := Some v;
     error := error self; observation := observation self;
     state := state self; strategy := strategy self; action := action self |}.

Definition set_error (v : @PromptElement.t Env) (self : t) : t :=
  {| base := base self; obs_history := obs_history self;
     states := states self; strategies := strategies self;
     actions := actions self; active_strategy := active_strategy self;
     action_space := action_space self; history := history self;
     history_steps := history_steps self; obs := obs self;
     ax_tree := ax_tree self; error := Some v;
     observation := observation self; state := state self;
     strategy := strategy self; action := action self |}.

Definition set_observation (v : string) (self : t) : t :=
  {| base := base self; obs_history := obs_history self;
     states := states self; strategies := strategies self;
     actions := actions self; active_strategy := active_strategy self;
     action_space := action_space self; history := history self;
     history_steps := history_steps self; obs := obs self;
     ax_tree := ax_tree self; error := error self; observation := Some v;
     state := state self; strategy := strategy self; action := action self |}.

Definition set_state (v : string) (self : t) : t :=
  {| base := base self; obs_history := obs_history self;
     states := states self; strategies := strategies self;
     actions := actions self; active_strategy := active_strategy self;
     action_space := action_space self; history := history self;
     history_steps := history_steps self; obs := obs self;
     ax_tree := ax_tree self; error := error self;
     observation := observation self; state := Some v;
     strategy := strategy self; action := action self |}.

Definition set_strategy (v : option string) (self : t) : t :=
  {| base := base self; obs_history := obs_history self;
     states := states self; strategies := strategies self;
     actions := actions self; active_strategy := active_strategy self;
     action_space := action_space self; history := history self;
     history_steps := history_steps self; obs := obs self;
     ax_tree := ax_tree self; error := error self;
     observation := observation self; state := state self; strategy := Some v;
     action := action self |}.

Definition set_action (v : option string) (self : t) : t :=
  {| base := base self; obs_history := obs_history self;
     states := states self; strategies := strategies self;
     actions := actions self; active_strategy := active_strategy self;
     action_space := action_space self; history := history self;
     history_steps := history_steps self; obs := obs self;
     ax_tree := ax_tree self; error := error self;
     observation := observation self; state := state self;
     strategy := strategy self; action := Some v |}.

Definition M (A : Type) : Type := StateM t A.

Definition get_history_step (env : Env) (current_obs : option Obs.t)
  (state : string) (strategy action : option string) : M string :=
  let! observation :=
    match current_obs with
    | Some o =>
        let ax_tree :=
          AXTree.__init__ (Obs.axtree_txt o)
            (PromptElement.Static (PromptElement.FBool true)) None
            (PyStr.LF +:+ "#### Accessibility tree:" +:+ PyStr.LF) in
        let! _ := modify (set_ax_tree ax_tree) in
        let error :=
          Error.__init__ (Obs.last_action_error o)
            (PromptElement.Static (PromptElement.FStr (Obs.last_action_error o)))
            "#### " in
        let! _ := modify (set_error error) in
        let observation :=
          PromptElement.prompt env error
          +:+ PromptElement.prompt env (Trunkater.base ax_tree) in
        let! _ := modify (set_observation observation) in
        ret observation
    | None => ret ""
    end in
  let! _ := modify (set_state state) in
  let! _ := modify (set_strategy strategy) in
  let! _ := modify (set_action action) in
  let prompt := "" in
  let prompt :=
    match current_obs with
    | Some _ =>
        prompt +:+ PyStr.LF +:+ "### Observation:" +:+ PyStr.LF +:+ observation
        +:+ PyStr.LF +:+ PyStr.LF
    | None => prompt +:+ PyStr.LF +:+ "### State:" +:+ PyStr.LF +:+ state +:+ PyStr.LF
    end in
  let prompt :=
    match strategy with
    | Some s => prompt +:+ PyStr.LF +:+ "### Strategy:" +:+ PyStr.LF +:+ s +:+ PyStr.LF
    | None => prompt
    end in
  let prompt :=
    match action with
    | Some a => prompt +:+ PyStr.LF +:+ "### Action:" +:+ PyStr.LF +:+ a +:+ PyStr.LF
    | None => prompt
    end in
  ret prompt.

(** The lines of the history block: the title, then a header and the text
    of each step. *)
Definition history_prompts (steps : list string) : list string :=
  (PyStr.LF +:+ "# History of interaction with the task:" +:+ PyStr.LF)
  :: flat_map (fun p => ["## Step " +:+ PyStr.of_int (fst p); snd p])
       (PySeq.enumerate steps).

(** The body of the [for] loop of [get_history], at the index [i]. *)
Definition history_loop_body (env : Env) (states strategies actions : list string)
  (i : Z) : M unit :=
  let! state := lift (PySeq.index states (i - 1)) in
  let! strategy := lift (PySeq.index strategies (i - 1)) in
  let! action :=
    if i <=? PySeq.len actions
    then let! a := lift (PySeq.index actions (i - 1)) in ret (Some a)
    else ret None in
  let! history_step := get_history_step env None state (Some strategy) action in
  modify (fun self =>
            set_history_steps (default [] (history_steps self) ++ [history_step]) self).

Definition get_history (env : Env) (obs_history : list Obs.t)
  (states strategies actions : list string) : M string :=
  if negb ((PySeq.len states =? PySeq.len strategies)
           || (PySeq.len states =? PySeq.len strategies + 1))
  then lift (Raise AssertionError)
  else
    let! _ := modify (set_history_steps []) in
    let! _ :=
      for_each (PySeq.range 1 (PySeq.len states))
        (history_loop_body env states strategies actions) in
    let! steps := gets (fun self => default [] (history_steps self)) in
    ret (PyStr.join PyStr.LF (history_prompts steps) +:+ PyStr.LF).

Definition get_obs (env : Env) (obs : Obs.t) : M string :=
  let ax_tree :=
    AXTree.__init__ (Obs.axtree_txt obs)
      (PromptElement.Static (PromptElement.FBool true)) None "## " in
  let! _ := modify (set_ax_tree ax_tree) in
  let error :=
    Error.__init__ (Obs.last_action_error obs)
      (PromptElement.Static (PromptElement.FStr (Obs.last_action_error obs))) "## " in
  let! _ := modify (set_error error) in
  ret (PyStr.LF +:+ "# Observation of current step:" +:+ PyStr.LF +:+ "AXSTART"
       +:+ PromptElement.prompt env (Trunkater.base ax_tree) +:+ "AXEND"
       +:+ PromptElement.prompt env error +:+ PyStr.LF +:+ PyStr.LF).

Definition get_obs_state (env : Env) (obs : Obs.t) (state : string) : M string :=
  let! o := get_obs env obs in
  ret (o +:+ PyStr.LF +:+ "## Current State:" +:+ PyStr.LF +:+ state +:+ PyStr.LF).

Definition get_obs_state_strat (env : Env) (obs : Obs.t) (state : string)
  (strategy : option string) : M string :=
  let! o := get_obs_state env obs state in
  ret (o +:+ PyStr.LF +:+ "## Current Strategy:" +:+ PyStr.LF
       +:+ PyStr.of_option strategy +:+ PyStr.LF).

Definition get_state (state : string) : M string :=
  ret (PyStr.LF +:+ "## Current State:" +:+ PyStr.LF +:+ state +:+ PyStr.LF +:+ PyStr.LF).

Definition get_state_strat (state strategy : string) : M string :=
  let! s := get_state state in
  ret (s +:+ PyStr.LF +:+ "## Current Strategy:" +:+ PyStr.LF +:+ strategy +:+ PyStr.LF).

(** What the methods above return, as functions of their arguments alone
    (the lemmas [get_obs_returns], [get_history_step_returns] and
    [get_history_returns] prove it). *)

(** The text of [get_obs]: the accessibility tree between its two marks,
    then the error banner when the error text is not empty. *)
Definition observation_text (o : Obs.t) : string :=
  PyStr.LF +:+ "# Observation of current step:" +:+ PyStr.LF +:+ "AXSTART"
  +:+ (PyStr.LF +:+ "## " +:+ "AXTree (you may only interact with elements in this tree):"
       +:+ PyStr.LF +:+ "" +:+ Obs.axtree_txt o +:+ PyStr.LF)
  +:+ "AXEND"
  +:+ (if PyStr.nonempty (Obs.last_action_error o)
       then PyStr.LF +:+ "## " +:+ "Error from previous action:" +:+ PyStr.LF
            +:+ Obs.last_action_error o +:+ PyStr.LF
       else "")
  +:+ PyStr.LF +:+ PyStr.LF.

(** The text of [get_history_step] without observation. *)
Definition history_step_text (state strategy : string) (action : option string) : string :=
  let prompt := "" +:+ PyStr.LF +:+ "### State:" +:+ PyStr.LF +:+ state +:+ PyStr.LF in
  let prompt := prompt +:+ PyStr.LF +:+ "### Strategy:" +:+ PyStr.LF +:+ strategy +:+ PyStr.LF in
  match action with
  | Some a => prompt +:+ PyStr.LF +:+ "### Action:" +:+ PyStr.LF +:+ a +:+ PyStr.LF
  | None => prompt
  end.

(** The steps of [get_history]: one for each state but the last. *)
Definition history_steps_text (states strategies actions : list string) : list string :=
  map (fun k =>
         history_step_text (default "" (states !! k)) (default "" (strategies !! k))
           (actions !! k))
      (seq 0 (length states - 1)).

(** The text of [get_history]. *)
Definition history_text (states strategies actions : list string) : string :=
  PyStr.join PyStr.LF (history_prompts (history_steps_text states strategies actions))
  +:+ PyStr.LF.

(** The state block and the strategy block of a current-step text. *)
Definition state_block (s : string) : string :=
  PyStr.LF +:+ "## Current State:" +:+ PyStr.LF +:+ s +:+ PyStr.LF.

(** The state block of [get_state], which ends with one more newline. *)
Definition lone_state_block (s : string) : string :=
  PyStr.LF +:+ "## Current State:" +:+ PyStr.LF +:+ s +:+ PyStr.LF +:+ PyStr.LF.

Definition strategy_block (g : string) : string :=
  PyStr.LF +:+ "## Current Strategy:" +:+ PyStr.LF +:+ g +:+ PyStr.LF.

(** The five conditions of the [if] cascade in [__init__], on the lengths
    [O], [S], [T], [A] of the observations, states, strategies and actions. *)
Definition mode_encoding (O S T A : Z) : bool := (O =? S + 1) && (S =? T).
Definition mode_strategy (O S T A : Z) : bool := (O =? S) && (S =? T + 1) && (T =? A).
Definition mode_policy (O S T A : Z) : bool := (O =? S) && (S =? T) && (T =? A + 1).
Definition mode_dynamics (O S T A : Z) : bool := (O <=? S) && (S =? T) && (A + 1 <=? T).
Definition mode_rollout (O S T A : Z) : bool := (O <? S) && (S =? T + 1).

Definition __init__ (env : Env) (obs_history : list Obs.t)
  (states strategies actions : list string) (active_strategy : option string)
  (action_space : option ActionSpace.t) : result t :=
  let self :=
    {| base := PromptElement.__init__ (PromptElement.Static (PromptElement.FBool true));
       obs_history := obs_history; states := states; strategies := strategies;
       actions := actions; active_strategy := active_strategy;
       action_space := action_space;
       history := None; history_steps := None; obs := None; ax_tree := None;
       error := None; observation := None; state := None; strategy := None;
       action := None |} in
  let O := PySeq.len obs_history in
  let S := PySeq.len states in
  let T := PySeq.len strategies in
  let A := PySeq.len actions in
  let body : M unit :=
    let! h := get_history env obs_history states strategies actions in
    let! _ := modify (set_history h) in
    if mode_encoding O S T A then
      let! o := lift (PySeq.index obs_history (-1)) in
      let! x := get_obs env o in
      let! _ := modify (set_obs x) in
      let window := 3 in
      let! h :=
        get_history env obs_history (PySeq.slice_from states (- window))
          (PySeq.slice_from strategies (- window))
          (PySeq.slice_from actions (- window)) in
      modify (set_history h)
    else if mode_strategy O S T A then
      let! o := lift (PySeq.index obs_history (-1)) in
      let! s := lift (PySeq.index states (-1)) in
      let! x := get_obs_state env o s in
      modify (set_obs x)
    else if mode_policy O S T A then
      let! o := lift (PySeq.index obs_history (-1)) in
      let! s := lift (PySeq.index states (-1)) in
      let! x := get_obs_state_strat env o s active_strategy in
      modify (set_obs x)
    else if mode_dynamics O S T A then
      let! s := lift (PySeq.index states (-1)) in
      let! g := lift (PySeq.index strategies (-1)) in
      let! x := get_state_strat s g in
      modify (set_obs x)
    else if mode_rollout O S T A then
      let! s := lift (PySeq.index states (-1)) in
      let! x := get_state s in
      modify (set_obs x)
    else ret tt in
  let* r := body self in
  Ok (snd r).

Definition _parse_effectuator_answer (self : t) (text_answer : string) : result dict :=
  let ans_dict : dict := ∅ in
  let* parsed :=
    parse_html_tags_raise text_answer (Some ["action"; "explanation"]) None true in
  let ans_dict := parsed ∪ ans_dict in
  let* _ :=
    try_except
      (let* space :=
         match action_space self with
         | Some space => Ok space
         | None =>
             Raise (AttributeError "'NoneType' object has no attribute 'to_python_code'")
         end in
       let* a := dict_get ans_dict "action" in
       ActionSpace.to_python_code space a)
      action_parse_error in
  Ok ans_dict.

(** [self'] has the constructor arguments of [self]. *)
Definition same_arguments (self self' : t) : Prop :=
  base self' = base self
  /\ obs_history self' = obs_history self
  /\ states self' = states self
  /\ strategies self' = strategies self
  /\ actions self' = actions self
  /\ active_strategy self' = active_strategy self
  /\ action_space self' = action_space self.

(** The method [m] leaves the constructor arguments as they are. *)
Definition keeps_arguments {A : Type} (m : M A) : Prop :=
  forall self a self', m self = Ok (a, self') -> same_arguments self self'.

(** [self.name] for an attribute that may not have been assigned. *)
Definition attribute {A : Type} (name : string) (value : option A) : result A :=
  match value with
  | Some v => Ok v
  | None =>
      Raise (AttributeError
               ("'MyMainPrompt' object has no attribute '" +:+ name +:+ "'"))
  end.

(** [PROMPTS_DIR], the directory [prompts] beside the source file, and
    [open(path).read()], which raises when the file cannot be read. *)
Variable PROMPTS_DIR : string.
Variable read_file : string -> result string.

Definition get_effectuator_prompt (self : t) : result string :=
  let* h := attribute "history" (history self) in
  let* o := attribute "obs" (obs self) in
  let prompt := h +:+ o in
  let* abs := read_file (PROMPTS_DIR +:+ "/effectuator-abs.txt") in
  let prompt := prompt +:+ abs in
  let* con := read_file (PROMPTS_DIR +:+ "/effectuator-con.txt") in
  let prompt := prompt +:+ con in
  Ok prompt.

Definition get_encoder_prompt (self : t) : result string :=
  let* h := attribute "history" (history self) in
  let* o := attribute "obs" (obs self) in
  let prompt :=
    h +:+ o +:+ "## Active Strategy:" +:+ PyStr.LF
    +:+ PyStr.of_option (active_strategy self) +:+ PyStr.LF in
  let* abs := read_file (PROMPTS_DIR +:+ "/encoder-abs.txt") in
  let prompt := prompt +:+ abs in
  let* con := read_file (PROMPTS_DIR +:+ "/encoder-con.txt") in
  let prompt := prompt +:+ con in
  Ok prompt.

Definition get_policy_prompt (self : t) : result string :=
  let* h := attribute "history" (history self) in
  let* o := attribute "obs" (obs self) in
  let prompt := h +:+ o in
  let* abs := read_file (PROMPTS_DIR +:+ "/policy-abs.txt") in
  let prompt := prompt +:+ abs in
  let* con := read_file (PROMPTS_DIR +:+ "/policy-con.txt") in
  let prompt := prompt +:+ con in
  Ok prompt.

Definition _parse_encoder_answer (self : t) (text_answer : string) : result dict :=
  let ans_dict : dict := ∅ in
  let* parsed := parse_html_tags_raise text_answer None (Some ["think"]) true in
  let ans_dict := parsed ∪ ans_dict in
  let* parsed :=
    parse_html_tags_raise text_answer (Some ["state"; "progress"]) None true in
  let ans_dict := parsed ∪ ans_dict in
  Ok ans_dict.

Definition _parse_policy_answer (self : t) (text_answer : string) : result dict :=
  let ans_dict : dict := ∅ in
  let* parsed := parse_html_tags_raise text_answer (Some ["strategy"]) None true in
  let ans_dict := parsed ∪ ans_dict in
  Ok ans_dict.

End Defs.
End MyMainPrompt.

(** ** [ChatInstructions]: the instructions with the chat messages *)

Module ChatInstructions.
Section Defs.
Context {Env : Type}.

Definition header : string :=
  "# Instructions" +:+ PyStr.LF +:+ PyStr.LF
  +:+ "You are a UI Assistant, your goal is to help the user perform tasks using a web browser. You can communicate with the user via a chat, in which the user gives you instructions and in which you can send back messages. You have access to a web browser that both you and the user can see, and with which only you can interact via specific commands."
  +:+ PyStr.LF +:+ PyStr.LF
  +:+ "Review the instructions from the user, the current state of the page and all other information to find the best possible next action to accomplish your goal. Your answer will be interpreted and executed by a program, make sure to follow the formatting instructions."
  +:+ PyStr.LF +:+ PyStr.LF
  +:+ "## Chat messages:" +:+ PyStr.LF +:+ PyStr.LF.

(** The line of one message, a [dict] read at ['role'] and then at
    ['message']. *)
Definition message_line (msg : dict) : result string :=
  let* role := dict_get msg "role" in
  let* message := dict_get msg "message" in
  Ok (" - [" +:+ role +:+ "] " +:+ message).

(** The list comprehension over the messages. *)
Fixpoint message_lines (chat_messages : list dict) : result (list string) :=
  match chat_messages with
  | [] => Ok []
  | msg :: rest =>
      let* line := message_line msg in
      let* lines := message_lines rest in
      Ok (line :: lines)
  end.

(** The line of a message that has a role and a text. *)
Definition bullet (msg : dict) : string :=
  " - [" +:+ default "" (msg !! "role") +:+ "] " +:+ default "" (msg !! "message").

Definition __init__ (chat_messages : list dict) (visible : PromptElement.visibility)
  : result (@PromptElement.t Env) :=
  let self := PromptElement.__init__ visible in
  let self := PromptElement.set_prompt self header in
  let* lines := message_lines chat_messages in
  Ok (PromptElement.set_prompt self
        (PromptElement._prompt self +:+ PyStr.join PyStr.LF lines)).

End Defs.
End ChatInstructions.

(** ** The tag parser of the module [utils] *)

Module Utils.

(** Modelled from the spec: part of the tag parser of the module [utils],
    which is not among the sources. The text of [s] from position [i] on. *)
Definition from (i : nat) (s : string) : string :=
  String.substring i (String.length s - i) s.

(** Modelled from the spec: part of the tag parser of the module [utils],
    which is not among the sources. The contents of the [<key>...</key>]
    tags of [text], from left to right; [fuel] bounds the number of tags
    read. *)
Fixpoint extract_tag (fuel : nat) (key text : string) : list string :=
  match fuel with
  | O => []
  | S fuel' =>
      let opening := "<" +:+ key +:+ ">" in
      let closing := "</" +:+ key +:+ ">" in
      match String.index 0 opening text with
      | None => []
      | Some i =>
          let rest := from (i + String.length opening) text in
          match String.index 0 closing rest with
          | None => []
          | Some j =>
              String.substring 0 j rest
              :: extract_tag fuel' key (from (j + String.length closing) rest)
          end
      end
  end.

(** Modelled from the spec: part of the tag parser of the module [utils],
    which is not among the sources. Reads the tags [keys] into [d]; a tag
    without occurrence is an error when [required]; the occurrences of a tag
    are concatenated. *)
Fixpoint read_tags (required : bool) (text : string) (keys : list string) (d : dict)
  : result dict :=
  match keys with
  | [] => Ok d
  | key :: keys' =>
      match extract_tag (String.length text) key text with
      | [] =>
          if required
          then Raise (ParseError ("Missing the key <" +:+ key +:+ "> in the answer."))
          else read_tags required text keys' d
      | occurrences =>
          read_tags required text keys' (<[key := String.concat "" occurrences]> d)
      end
  end.

(** Modelled from the spec: [parse_html_tags_raise] of the module [utils],
    which is not among the sources, for calls with [merge_multiple=True]
    (every call of this file). Following section 4.6 of the specification it
    requires every name of the required keys to appear at least once, and
    fails with a parse error naming the missing tag; it tolerates the
    absence of optional keys; and it concatenates all the occurrences of a
    tag into one value. The wording of the error message is the model's.
    The claims are proved for every parser; this one serves as a concrete
    instance. *)
Definition parse_html_tags_raise (text : string) (keys optional_keys : option (list string))
  (merge_multiple : bool) : result dict :=
  let* d := read_tags true text (default [] keys) ∅ in
  read_tags false text (default [] optional_keys) d.

End Utils.

(** ** Concrete inputs *)

Module Examples.

(** Elements with a fixed flag need no program state: [Env] is [unit]. *)
Definition shown : @PromptElement.visibility unit :=
  PromptElement.Static (PromptElement.FBool true).

(** An accessibility tree of [n] lines, ["[1] item"] to ["[n] item"]. *)
Definition tree (n : nat) : string :=
  PyStr.join PyStr.LF
    (map (fun k => "[" +:+ PyStr.of_int (Z.of_nat k) +:+ "] item") (seq 1 n)).

(** [self] after the calls [shrinks envs self], when they all return. *)
Definition after {Env : Type} (envs : list Env) (self : @Trunkater.t Env) : @Trunkater.t Env :=
  match Trunkater.shrinks envs self with
  | Ok self' => self'
  | Raise _ => self
  end.

(** The tree of five lines as [get_obs] wraps it: seven lines of text. *)
Definition ax7 : @Trunkater.t unit := AXTree.__init__ (tree 5) shown None "## ".

(** A tree of 88 lines: 90 lines of text. *)
Definition ax90 : @Trunkater.t unit := AXTree.__init__ (tree 88) shown None "## ".

(** [Trunkater(visible=True)]: the text is the empty class attribute. *)
Definition bare : @Trunkater.t unit :=
  Trunkater.__init__ shown Trunkater.default_shrink_speed 10.




(** The error banner of an observation without error: its flag is the
    empty error text. *)
Definition no_error : @PromptElement.t unit :=
  Error.__init__ "" (PromptElement.Static (PromptElement.FStr "")) "## ".

(** An observation with the accessibility tree [tree] and the error text
    [error]. *)
Definition ob (tree error : string) : Obs.t :=
  {| Obs.axtree_txt := tree; Obs.last_action_error := error |}.

(** An action space that compiles the action [click(...)] and no other. *)
Definition click_space : ActionSpace.t :=
  {| ActionSpace.describe := fun _ _ => "click(bid: str)";
     ActionSpace.example_action := fun _ => "click('a51')";
     ActionSpace.to_python_code := fun action =>
       if String.prefix "click(" action
       then Ok ("page." +:+ action)
       else Raise (Exception "NameError" "Invalid action type") |}.


(** Three observations without error, and the same with an error in the
    latest one. *)
Definition history3 : list Obs.t := [ob "t1" ""; ob "t2" ""; ob "t3" ""].
Definition history3_error : list Obs.t := [ob "t1" ""; ob "t2" ""; ob "t3" "boom"].


(** A main prompt without anything, to stand for a failed construction. *)
Definition blank : @MyMainPrompt.t unit :=
  {| MyMainPrompt.base := PromptElement.__init__ shown;
     MyMainPrompt.obs_history := []; MyMainPrompt.states := [];
     MyMainPrompt.strategies := []; MyMainPrompt.actions := [];
     MyMainPrompt.active_strategy := None; MyMainPrompt.action_space := None;
     MyMainPrompt.history := None; MyMainPrompt.history_steps := None;
     MyMainPrompt.obs := None; MyMainPrompt.ax_tree := None;
     MyMainPrompt.error := None; MyMainPrompt.observation := None;
     MyMainPrompt.state := None; MyMainPrompt.strategy := None;
     MyMainPrompt.action := None |}.

(** The prompt that the constructor returns, [blank] when it raises. *)
Definition constructed (r : result (@MyMainPrompt.t unit)) : @MyMainPrompt.t unit :=
  match r with
  | Ok p => p
  | Raise _ => blank
  end.

(** Four states, four strategies and three actions after four observations:
    policy mode. *)
Definition policy_prompt : @MyMainPrompt.t unit :=
  constructed
    (MyMainPrompt.__init__ tt [ob "t1" ""; ob "t2" ""; ob "t3" ""; ob "t4" ""]
       ["s1"; "s2"; "s3"; "s4"] ["g1"; "g2"; "g3"; "g4"] ["a1"; "a2"; "a3"]
       (Some "go on") (Some click_space)).

(** One observation, state, strategy and action: no mode. *)
Definition unmatched_prompt : @MyMainPrompt.t unit :=
  constructed (MyMainPrompt.__init__ tt [ob "t1" ""] ["s1"] ["g1"] ["a1"] None None).

(** A directory with the two templates of the effectuator, of the encoder
    and of the policy, and the reading of a file of it. *)
Definition templates : gmap string string :=
  list_to_map
    [("/app/prompts/effectuator-abs.txt", "EA"); ("/app/prompts/effectuator-con.txt", "EC");
     ("/app/prompts/encoder-abs.txt", "NA"); ("/app/prompts/encoder-con.txt", "NC");
     ("/app/prompts/policy-abs.txt", "PA"); ("/app/prompts/policy-con.txt", "PC")].

(** [Trunkater(visible=True, shrink_speed=1.5, start_trunkate_iteration=0)]
    with a text of seven lines. *)
Definition overspeed : @Trunkater.t unit :=
  Trunkater.set_prompt (Trunkater.__init__ shown 1.5%float 0) (tree 7).

(** The same with [shrink_speed=-0.5]. *)
Definition underspeed : @Trunkater.t unit :=
  Trunkater.set_prompt (Trunkater.__init__ shown (-0.5)%float 0) (tree 7).

(** The same with [shrink_speed=float('nan')]. *)
Definition nan_speed : @Trunkater.t unit :=
  Trunkater.set_prompt (Trunkater.__init__ shown PrimFloat.nan 0) (tree 7).

Definition read_template (path : string) : result string :=
  match templates !! path with
  | Some content => Ok content
  | None => Raise (Exception "FileNotFoundError" ("No such file or directory: " +:+ path))
  end.

End Examples.

(** * Properties *)

(** ** Lines of a text *)

Module PyStrFacts.
Import PyStr.

Lemma app_cons (c : ascii) (a b : string) : String c a +:+ b = String c (a +:+ b).
Proof. reflexivity. Qed.

Lemma app_assoc (a b c : string) : (a +:+ b) +:+ c = a +:+ b +:+ c.
Proof.
  induction a as [|x a IH]; [reflexivity|].
  rewrite !app_cons. f_equal. exact IH.
Qed.

Lemma no_linebreak_app (a b : string) :
  no_linebreak (a +:+ b) = no_linebreak a && no_linebreak b.
Proof.
  induction a as [|c a IH]; [reflexivity|].
  rewrite app_cons. simpl. rewrite IH. now rewrite andb_assoc.
Qed.

(** Every line [splitlines] returns is free of line boundaries. *)
Lemma splitlines_no_linebreak (s : string) :
  Forall (fun l => no_linebreak l = true) (splitlines s).
Proof.
  enough (H : Forall (fun l => no_linebreak l = true) (splitlines s)
              /\ forall c, Forall (fun l => no_linebreak l = true) (splitlines (String c s)))
    by apply H.
  induction s as [|d s [IH1 IH2]].
  - split; [constructor|].
    intros c. simpl. destruct (is_linebreak c) eqn:Hc.
    + destruct (is_CR c); repeat constructor.
    + repeat constructor. simpl. now rewrite Hc.
  - split; [apply IH2|].
    intros c. specialize (IH2 d).
    change (splitlines (String c (String d s))) with
      (if is_linebreak c then
         if is_CR c then
           if is_LF d then EmptyString :: splitlines s
           else EmptyString :: splitlines (String d s)
         else EmptyString :: splitlines (String d s)
       else cons_char c (splitlines (String d s))).
    destruct (is_linebreak c) eqn:Hc.
    + destruct (is_CR c); [destruct (is_LF d)|]; constructor; auto.
    + destruct (splitlines (String d s)) as [|l ls] eqn:E; simpl.
      * repeat constructor. simpl. now rewrite Hc.
      * inversion IH2; subst. constructor; [|assumption].
        simpl. rewrite Hc. simpl. assumption.
Qed.

(** A line without boundary, followed by LF, is the first line. *)
Lemma splitlines_line (x r : string) :
  no_linebreak x = true -> splitlines (x +:+ LF +:+ r) = x :: splitlines r.
Proof.
  induction x as [|c x IH]; intros Hx.
  - reflexivity.
  - simpl in Hx. apply andb_prop in Hx as [Hc Hx].
    apply negb_true_iff in Hc.
    rewrite app_cons. simpl. rewrite Hc. rewrite (IH Hx). reflexivity.
Qed.

(** A non-empty text without boundary is its only line. *)
Lemma splitlines_single (x : string) :
  no_linebreak x = true -> nonempty x = true -> splitlines x = [x].
Proof.
  induction x as [|c x IH]; intros Hx Hne; [discriminate|].
  simpl in Hx. apply andb_prop in Hx as [Hc Hx].
  apply negb_true_iff in Hc.
  simpl. rewrite Hc. destruct x as [|d x].
  - reflexivity.
  - rewrite (IH Hx eq_refl). reflexivity.
Qed.

Lemma join_cons (sep x y : string) (l : list string) :
  join sep (x :: y :: l) = x +:+ sep +:+ join sep (y :: l).
Proof. reflexivity. Qed.

(** Splitting undoes joining, when the last part is not empty. *)
Lemma splitlines_join (l : list string) (m : string) :
  Forall (fun x => no_linebreak x = true) l ->
  no_linebreak m = true -> nonempty m = true ->
  splitlines (join LF (l ++ [m])) = l ++ [m].
Proof.
  intros Hl Hm Hne. induction Hl as [|x l Hx Hl IH].
  - simpl. rewrite splitlines_single; auto.
  - change ((x :: l) ++ [m]) with (x :: (l ++ [m])).
    destruct (l ++ [m]) as [|y l'] eqn:E.
    + destruct l; discriminate.
    + rewrite join_cons, splitlines_line by assumption.
      now rewrite IH.
Qed.

(** [join LF l + LF + m] is the join of [l] and [m], where an empty [l]
    counts as one empty line. *)
Lemma join_snoc (l : list string) (m : string) :
  join LF l +:+ LF +:+ m = join LF (match l with [] => [""] | _ => l end ++ [m]).
Proof.
  destruct l as [|x l]; [reflexivity|].
  revert x. induction l as [|y l IH]; intros x.
  - reflexivity.
  - change ((x :: y :: l) ++ [m]) with (x :: y :: (l ++ [m])).
    rewrite !join_cons, !app_assoc. f_equal. f_equal. apply (IH y).
Qed.

Lemma string_of_uint_no_linebreak (d : Decimal.uint) :
  no_linebreak (NilEmpty.string_of_uint d) = true.
Proof. induction d; simpl; auto. Qed.

Lemma of_int_no_linebreak (n : Z) : no_linebreak (of_int n) = true.
Proof.
  unfold of_int, NilZero.string_of_int.
  destruct (Z.to_int n) as [d|d]; [destruct d|]; simpl;
    try reflexivity; try apply string_of_uint_no_linebreak.
  destruct d; simpl; try reflexivity; apply string_of_uint_no_linebreak.
Qed.

End PyStrFacts.

(** ** The truncating element *)

Section TrunkaterFacts.
Context {Env : Type}.
Implicit Types (env : Env) (t : @Trunkater.t Env) (envs : list Env).

Import Trunkater.

(** A call that does not truncate only counts. *)
Lemma shrink_skip env t :
  truncates env t = false ->
  shrink env t = Ok (set_shrink_calls t (shrink_calls t + 1)).
Proof. intros H. unfold shrink. rewrite H. reflexivity. Qed.

(** A call that truncates, in full. *)
Lemma shrink_cut env t n :
  truncates env t = true ->
  new_line_count (shrink_speed t) (PySeq.len (lines t)) = Ok n ->
  let d := deleted_lines t + (PySeq.len (lines t) - n) in
  shrink env t =
    Ok (set_shrink_calls
          (set_prompt (set_deleted_lines t d)
             (PyStr.join PyStr.LF (PySeq.slice_to (lines t) n) +:+ PyStr.LF
              +:+ deleted_note d))
          (shrink_calls t + 1)).
Proof.
  intros H Hn d. unfold shrink. rewrite H.
  unfold lines in Hn. rewrite Hn. reflexivity.
Qed.

(** A call raises only from the conversion [int(...)] of a truncating call. *)
Lemma shrink_raises env t e :
  shrink env t = Raise e ->
  truncates env t = true
  /\ new_line_count (shrink_speed t) (PySeq.len (lines t)) = Raise e.
Proof.
  unfold shrink, lines. destruct (truncates env t); [|discriminate].
  destruct (new_line_count _ _); [discriminate|].
  simpl. intros [= ->]. auto.
Qed.

Lemma truncates_spec env t :
  truncates env t = true <->
  PromptElement.truthy (PromptElement.is_visible env (base t)) = true
  /\ start_trunkate_iteration t <= shrink_calls t.
Proof. unfold truncates. rewrite andb_true_iff, Z.leb_le. reflexivity. Qed.

Lemma truncates_false env t :
  truncates env t = false <->
  PromptElement.truthy (PromptElement.is_visible env (base t)) = false
  \/ shrink_calls t < start_trunkate_iteration t.
Proof. unfold truncates. rewrite andb_false_iff, Z.leb_gt. reflexivity. Qed.

Lemma deleted_note_line (d : Z) :
  PyStr.no_linebreak (deleted_note d) = true /\ PyStr.nonempty (deleted_note d) = true.
Proof.
  unfold deleted_note. split; [|reflexivity].
  rewrite !PyStrFacts.no_linebreak_app, PyStrFacts.of_int_no_linebreak. reflexivity.
Qed.

Lemma slice_to_take {A : Type} (l : list A) (n : Z) :
  0 <= n -> PySeq.slice_to l n = take (Z.to_nat n) l.
Proof. intros H. unfold PySeq.slice_to. destruct (Z.ltb_spec n 0); [lia | reflexivity]. Qed.

(** The lines of the text a truncating call leaves: the lines kept (one
    empty line when none is kept), then the note. *)
Lemma cut_lines (ls : list string) (n d : Z) :
  Forall (fun x => PyStr.no_linebreak x = true) ls ->
  0 <= n <= PySeq.len ls ->
  PyStr.splitlines
    (PyStr.join PyStr.LF (PySeq.slice_to ls n) +:+ PyStr.LF +:+ deleted_note d)
  = (if n =? 0 then [""] else take (Z.to_nat n) ls) ++ [deleted_note d].
Proof.
  intros Hls [Hn0 Hn]. unfold PySeq.len in Hn.
  destruct (deleted_note_line d) as [Hnl Hne].
  rewrite slice_to_take, PyStrFacts.join_snoc by assumption.
  destruct (Z.eqb_spec n 0) as [->|Hnz].
  - replace (take (Z.to_nat 0) ls) with (@nil string) by reflexivity.
    apply (PyStrFacts.splitlines_join [""]); auto.
  - destruct (take (Z.to_nat n) ls) as [|x l] eqn:E.
    + exfalso. apply (f_equal length) in E. rewrite length_take in E.
      simpl in E. lia.
    + rewrite <- E. apply PyStrFacts.splitlines_join; auto.
      now apply Forall_take.
Qed.

End TrunkaterFacts.

Section ShrinkFacts.
Context {Env : Type}.
Implicit Types (env : Env) (t : @Trunkater.t Env) (envs : list Env).

Import Trunkater.

(** The product [0 * (1 - speed)] converts to [0] whenever [1 - speed] is
    finite. *)
Lemma new_line_count_zero (speed : float) :
  PyFloat.is_finite (PyFloat.one_minus speed) = true ->
  new_line_count speed 0 = Ok 0.
Proof.
  intros Hfin. unfold new_line_count, PyFloat.int_mul.
  replace (PyFloat.of_int 0) with (Ok 0%float) by (vm_compute; reflexivity).
  unfold bind, PyFloat.to_int. rewrite mul_spec.
  change (Prim2SF 0) with (S754_zero false).
  unfold PyFloat.is_finite in Hfin.
  destruct (Prim2SF (PyFloat.one_minus speed)); try discriminate; reflexivity.
Qed.

Lemma speed_shrinks_bound (speed : float) (n0 N : nat) :
  speed_shrinks speed n0 = true -> (2 <= N <= n0)%nat ->
  exists m, new_line_count speed (Z.of_nat N) = Ok m /\ 1 <= m < Z.of_nat N.
Proof.
  unfold speed_shrinks. rewrite forallb_forall. intros H HN.
  specialize (H N). rewrite in_seq in H.
  assert (HN' : (2 <= N < 2 + (n0 - 1))%nat) by lia.
  specialize (H HN').
  destruct (new_line_count speed (Z.of_nat N)) as [m|]; [|discriminate].
  exists m. apply andb_prop in H as [H1 H2].
  apply Z.leb_le in H1. apply Z.ltb_lt in H2. auto.
Qed.

Lemma lines_no_linebreak t :
  Forall (fun x => PyStr.no_linebreak x = true) (lines t).
Proof. apply PyStrFacts.splitlines_no_linebreak. Qed.

(** The lines of the element after a truncating call that keeps [n] lines. *)
Lemma lines_after_cut t (n d c : Z) :
  0 <= n <= PySeq.len (lines t) ->
  lines
    (set_shrink_calls
       (set_prompt (set_deleted_lines t d)
          (PyStr.join PyStr.LF (PySeq.slice_to (lines t) n) +:+ PyStr.LF
           +:+ deleted_note d)) c)
  = (if n =? 0 then [""] else take (Z.to_nat n) (lines t)) ++ [deleted_note d].
Proof.
  intros Hn. unfold lines at 1.
  cbn [base set_shrink_calls set_prompt PromptElement.set_prompt PromptElement._prompt].
  apply cut_lines; [apply lines_no_linebreak | exact Hn].
Qed.

(** One call on a text of at least two lines, with a speed that shrinks:
    the call returns, and neither regrows the text nor leaves fewer than
    two lines. *)
Lemma shrink_step_bounds env t (n0 : nat) :
  (2 <= line_count t <= n0)%nat ->
  speed_shrinks (shrink_speed t) n0 = true ->
  exists t', shrink env t = Ok t'
    /\ (2 <= line_count t' <= line_count t)%nat
    /\ shrink_speed t' = shrink_speed t.
Proof.
  intros HN Hok. destruct (truncates env t) eqn:Htr.
  - destruct (speed_shrinks_bound _ _ _ Hok HN) as (m & Hm & Hm1).
    pose proof (shrink_cut env t m Htr) as Hcut. unfold line_count in *.
    unfold PySeq.len in Hcut. specialize (Hcut Hm). cbv zeta in Hcut.
    eexists. split; [exact Hcut|]. split; [|reflexivity].
    rewrite lines_after_cut by (unfold PySeq.len; lia).
    destruct (Z.eqb_spec m 0); [lia|].
    rewrite length_app, length_take. simpl. lia.
  - rewrite (shrink_skip env t Htr). eexists. split; [reflexivity|].
    split; [|reflexivity].
    change (line_count (set_shrink_calls t (shrink_calls t + 1))) with (line_count t).
    lia.
Qed.

Lemma shrinks_bounds envs t (n0 : nat) :
  (2 <= line_count t <= n0)%nat ->
  speed_shrinks (shrink_speed t) n0 = true ->
  exists t', shrinks envs t = Ok t'
    /\ (2 <= line_count t' <= line_count t)%nat
    /\ shrink_speed t' = shrink_speed t.
Proof.
  revert t. induction envs as [|env envs IH]; intros t HN Hok.
  - exists t. simpl. repeat split; lia.
  - destruct (shrink_step_bounds env t n0 HN Hok) as (t1 & H1 & HN1 & Hs1).
    destruct (IH t1) as (t2 & H2 & HN2 & Hs2); [lia | now rewrite Hs1 |].
    exists t2. simpl. rewrite H1. simpl. split; [exact H2|].
    split; [lia | congruence].
Qed.

(** Calls made before the threshold, whatever the visibility, leave
    everything but the call counter as it was. *)
Lemma shrinks_before_threshold envs t :
  shrink_calls t + PySeq.len envs <= start_trunkate_iteration t ->
  shrinks envs t = Ok (set_shrink_calls t (shrink_calls t + PySeq.len envs)).
Proof.
  revert t. induction envs as [|env envs IH]; intros t H.
  - simpl. unfold PySeq.len. simpl. rewrite Z.add_0_r. now destruct t.
  - unfold PySeq.len in *. cbn [length] in *.
    simpl. rewrite shrink_skip.
    + simpl. rewrite IH; simpl; [|lia]. f_equal. unfold set_shrink_calls. simpl.
      f_equal. lia.
    + apply truncates_false. right. lia.
Qed.


End ShrinkFacts.

(** ** Claims on prompt elements and truncation *)

Section ElementClaims.
Context {Env : Type}.
Implicit Types (env : Env) (t : @Trunkater.t Env) (envs : list Env).

Import Trunkater.

Lemma shrink_keeps_flag env t t' :
  shrink env t = Ok t' ->
  PromptElement._visible (base t') = PromptElement._visible (base t).
Proof.
  unfold shrink. destruct (truncates env t).
  - destruct (new_line_count _ _); simpl; [|discriminate]. now intros [= <-].
  - simpl. now intros [= <-].
Qed.

Lemma shrinks_keeps_flag envs t t' :
  shrinks envs t = Ok t' ->
  PromptElement._visible (base t') = PromptElement._visible (base t).
Proof.
  revert t. induction envs as [|env envs IH]; intros t; simpl.
  - now intros [= <-].
  - destruct (shrink env t) as [t1|] eqn:E; simpl; [|discriminate].
    intros H. rewrite (IH _ H). now apply (shrink_keeps_flag env).
Qed.

(** C8. An element whose visibility flag, a value or a callable evaluated
    when the text is rendered, is false renders its prompt text, its
    abstract example and its concrete example as the empty string, whatever
    its text is, and for a truncating element after any number of shrink
    calls. *)
Theorem invisible_element_renders_empty env (e : @PromptElement.t Env) :
  PromptElement.truthy (PromptElement.is_visible env e) = false ->
  PromptElement.prompt env e = ""
  /\ PromptElement.abstract_ex env e = ""
  /\ PromptElement.concrete_ex env e = ""
  /\ forall t envs t',
       base t = e -> shrinks envs t = Ok t' ->
       PromptElement.prompt env (base t') = "".
Proof.
  intros H. unfold PromptElement.prompt, PromptElement.abstract_ex,
    PromptElement.concrete_ex, PromptElement._hide.
  rewrite H. repeat split.
  intros t envs t' <- Hs.
  unfold PromptElement.is_visible in *.
  rewrite (shrinks_keeps_flag _ _ _ Hs). now rewrite H.
Qed.

(** C7. A shrink call made while the element is invisible, or before shrink
    has been called as many times as the threshold of the element, returns
    and leaves the text unchanged; so a call that changes the text is made
    on a visible element at or past the threshold. The threshold is 5 for a
    page-markup (HTML) dump and 10 for an accessibility-tree dump: their
    first 5, respectively 10, calls leave the text as constructed. *)
Theorem shrink_changes_text_only_past_threshold :
  (forall env t,
      PromptElement.truthy (PromptElement.is_visible env (base t)) = false
      \/ shrink_calls t < start_trunkate_iteration t ->
      exists t', shrink env t = Ok t'
        /\ PromptElement._prompt (base t') = PromptElement._prompt (base t))
  /\ (forall env t t',
        shrink env t = Ok t' ->
        PromptElement._prompt (base t') <> PromptElement._prompt (base t) ->
        PromptElement.truthy (PromptElement.is_visible env (base t)) = true
        /\ start_trunkate_iteration t <= shrink_calls t)
  /\ (forall html visible prefix envs,
        let t := @HTML.__init__ Env html visible prefix in
        start_trunkate_iteration t = 5 /\ shrink_calls t = 0
        /\ (PySeq.len envs <= 5 ->
            exists t', shrinks envs t = Ok t'
              /\ PromptElement._prompt (base t') = PromptElement._prompt (base t)
              /\ shrink_calls t' = PySeq.len envs))
  /\ (forall ax_tree visible coord_type prefix envs,
        let t := @AXTree.__init__ Env ax_tree visible coord_type prefix in
        start_trunkate_iteration t = 10 /\ shrink_calls t = 0
        /\ (PySeq.len envs <= 10 ->
            exists t', shrinks envs t = Ok t'
              /\ PromptElement._prompt (base t') = PromptElement._prompt (base t)
              /\ shrink_calls t' = PySeq.len envs)).
Proof.
  split; [|split; [|split]].
  - intros env t H. apply truncates_false in H.
    rewrite (shrink_skip env t H). eexists. split; reflexivity.
  - intros env t t' Hs Hne. apply truncates_spec.
    destruct (truncates env t) eqn:Htr; [reflexivity|].
    rewrite (shrink_skip env t Htr) in Hs. injection Hs as <-.
    now contradiction Hne.
  - intros html visible prefix envs t. repeat split.
    intros Hlen. rewrite shrinks_before_threshold by (subst t; simpl; lia).
    eexists. repeat split.
  - intros ax_tree visible coord_type prefix envs t. repeat split.
    intros Hlen. rewrite shrinks_before_threshold by (subst t; simpl; lia).
    eexists. repeat split.
Qed.


End ElementClaims.

Section TruncationClaims.
Context {Env : Type}.
Implicit Types (env : Env) (t : @Trunkater.t Env) (envs : list Env).

Import Trunkater.

(** C2, as amended. One shrink call on a visible element at or past its
    threshold, on a text of [N] lines: with [n] the value of
    [int(N * (1 - shrink_speed))] in binary64 arithmetic, between 0 and [N],
    the call keeps exactly the first [n] lines of the text (an empty line
    stands for them when [n] is 0) and appends one line, the note, which
    reports the deleted-line counter: [N - n] more than before, so [N - n]
    after a first such call. *)
Theorem shrink_keeps_scaled_prefix env t (n : Z) :
  PromptElement.truthy (PromptElement.is_visible env (base t)) = true ->
  start_trunkate_iteration t <= shrink_calls t ->
  new_line_count (shrink_speed t) (PySeq.len (lines t)) = Ok n ->
  0 <= n <= PySeq.len (lines t) ->
  exists t', shrink env t = Ok t'
    /\ lines t'
       = (if n =? 0 then [""] else take (Z.to_nat n) (lines t))
         ++ [deleted_note (deleted_lines t')]
    /\ length (take (Z.to_nat n) (lines t)) = Z.to_nat n
    /\ deleted_lines t' = deleted_lines t + (PySeq.len (lines t) - n)
    /\ (deleted_lines t = 0 -> deleted_lines t' = PySeq.len (lines t) - n).
Proof.
  intros Hvis Hth Hn Hb.
  assert (Htr : truncates env t = true) by (apply truncates_spec; auto).
  pose proof (shrink_cut env t n Htr Hn) as Hcut. cbv zeta in Hcut.
  eexists. split; [exact Hcut|].
  split; [apply lines_after_cut; exact Hb|].
  split; [rewrite length_take; unfold PySeq.len in Hb; lia|].
  split; [reflexivity|].
  intros H0. simpl. rewrite H0. reflexivity.
Qed.

(** C4, as amended. A shrink call on an element whose text is the empty
    string deletes no line: the deleted-line counter stays as it is. While
    the element is invisible or before its threshold the text stays empty;
    on a visible element at or past its threshold (with [1 - shrink_speed]
    finite) the text becomes a newline followed by the note. *)
Theorem shrink_of_empty_text env t :
  PromptElement._prompt (base t) = "" ->
  (PromptElement.truthy (PromptElement.is_visible env (base t)) = false
   \/ shrink_calls t < start_trunkate_iteration t ->
   exists t', shrink env t = Ok t'
     /\ deleted_lines t' = deleted_lines t
     /\ PromptElement._prompt (base t') = "")
  /\ (PromptElement.truthy (PromptElement.is_visible env (base t)) = true ->
      start_trunkate_iteration t <= shrink_calls t ->
      PyFloat.is_finite (PyFloat.one_minus (shrink_speed t)) = true ->
      exists t', shrink env t = Ok t'
        /\ deleted_lines t' = deleted_lines t
        /\ PromptElement._prompt (base t')
           = PyStr.LF +:+ deleted_note (deleted_lines t)).
Proof.
  intros Hempty. split.
  - intros H. apply truncates_false in H. rewrite (shrink_skip env t H).
    eexists. split; [reflexivity|]. split; [reflexivity | exact Hempty].
  - intros Hvis Hth Hfin.
    assert (Htr : truncates env t = true) by (apply truncates_spec; auto).
    assert (Hl : lines t = []) by (unfold lines; now rewrite Hempty).
    pose proof (shrink_cut env t 0 Htr) as Hcut.
    rewrite Hl in Hcut. specialize (Hcut (new_line_count_zero _ Hfin)).
    cbv zeta in Hcut.
    replace (deleted_lines t + (PySeq.len [] - 0)) with (deleted_lines t) in Hcut
      by (unfold PySeq.len; simpl; lia).
    eexists. split; [exact Hcut|]. split; reflexivity.
Qed.


End TruncationClaims.

(** The speed 0.3 of every [HTML] and [AXTree] element shrinks texts of up to
    5000 lines. *)
Lemma default_speed_shrinks :
  Trunkater.speed_shrinks Trunkater.default_shrink_speed 5000 = true.
Proof. vm_compute. reflexivity. Qed.

(** The float [default_shrink_speed] is 5404319552844595 / 2^54, the
    binary64 value nearest to 0.3: it lies within 2^-55 of 3/10. *)
Lemma default_shrink_speed_value :
  Prim2SF Trunkater.default_shrink_speed = S754_finite false 5404319552844595 (-54)
  /\ PyFloat.to_Q Trunkater.default_shrink_speed
     = Some (Qmake 5404319552844595 18014398509481984)
  /\ (Qabs (Qmake 5404319552844595 18014398509481984 - Qmake 3 10)
      <= Qmake 1 36028797018963968)%Q.
Proof.
  split; [vm_compute; reflexivity|]. split; [vm_compute; reflexivity|].
  vm_compute. discriminate.
Qed.

(** C2, the claim as stated fails. The accessibility-tree element [ax90] has
    90 lines; its eleventh shrink call is the first past the threshold. In
    exact arithmetic [floor(90 * (1 - f))] is 63, for [f] the float 0.3 as
    for [f] the fraction 3/10, yet the call keeps 62 lines and its note
    reports 28 deleted lines, not 27. *)
Lemma shrink_exact_floor_counterexample :
  let t := Examples.after (repeat tt 10) Examples.ax90 in
  Trunkater.shrinks (repeat tt 10) Examples.ax90 = Ok t
  /\ Trunkater.line_count t = 90%nat
  /\ PyFloat.exact_floor_scale 90 (Trunkater.shrink_speed t) = Some 63
  /\ Qfloor (inject_Z 90 * (1 - Qmake 3 10)) = 63
  /\ exists t',
       Trunkater.shrink tt t = Ok t'
       /\ Trunkater.lines t'
          = take 62 (Trunkater.lines t) ++ [Trunkater.deleted_note 28]
       /\ Trunkater.lines t'
          <> take 63 (Trunkater.lines t) ++ [Trunkater.deleted_note 27].
Proof.
  cbv zeta. split; [vm_compute; reflexivity|].
  split; [vm_compute; reflexivity|].
  split; [vm_compute; reflexivity|].
  split; [vm_compute; reflexivity|].
  eexists. split; [vm_compute; reflexivity|].
  split; [vm_compute; reflexivity|].
  vm_compute. discriminate.
Qed.

(** C4, the claim as stated fails. [Trunkater(visible=True)] has the empty
    text; its eleventh shrink call deletes no line, yet it changes the text:
    a newline and the note. *)
Lemma shrink_of_empty_text_counterexample :
  let t := Examples.after (repeat tt 10) Examples.bare in
  Trunkater.shrinks (repeat tt 10) Examples.bare = Ok t
  /\ PromptElement._prompt (Trunkater.base t) = ""
  /\ exists t',
       Trunkater.shrink tt t = Ok t'
       /\ Trunkater.deleted_lines t' = Trunkater.deleted_lines t
       /\ PromptElement._prompt (Trunkater.base t')
          = PyStr.LF +:+ "... Deleted 0 lines to reduce prompt size."
       /\ PromptElement._prompt (Trunkater.base t')
          <> PromptElement._prompt (Trunkater.base t).
Proof.
  cbv zeta. split; [vm_compute; reflexivity|].
  split; [vm_compute; reflexivity|].
  eexists. split; [vm_compute; reflexivity|].
  split; [vm_compute; reflexivity|].
  split; [vm_compute; reflexivity|].
  vm_compute. discriminate.
Qed.


(** ** The primitives on concrete values *)

Example splitlines_mixed :
  PyStr.splitlines
    ("ab" +:+ PyStr.LF +:+ PyStr.CR +:+ PyStr.LF +:+ "c" +:+ PyStr.CR +:+ "d" +:+ PyStr.LF)
  = ["ab"; ""; "c"; "d"].
Proof. reflexivity. Qed.

Example splitlines_empty :
  PyStr.splitlines "" = [] /\ PyStr.splitlines PyStr.LF = [""]
  /\ PyStr.splitlines (PyStr.LF +:+ "a") = [""; "a"].
Proof. repeat split. Qed.

Example slices :
  PySeq.slice_to [1; 2; 3; 4] 2 = [1; 2]
  /\ PySeq.slice_to [1; 2; 3; 4] (-1) = [1; 2; 3]
  /\ PySeq.slice_to [1; 2; 3; 4] 9 = [1; 2; 3; 4]
  /\ PySeq.slice_from [1; 2; 3; 4] (-3) = [2; 3; 4]
  /\ PySeq.slice_from [1; 2] (-3) = [1; 2]
  /\ PySeq.index [1; 2; 3] (-1) = Ok 3
  /\ PySeq.index (@nil Z) (-1) = Raise (IndexError "list index out of range").
Proof. repeat split. Qed.

(** [1 - 0.3] is the float nearest to 0.7, below it; its products with 10
    and with 90 round to 7 and to the float just below 63. *)
Example new_line_count_values :
  Trunkater.new_line_count Trunkater.default_shrink_speed 10 = Ok 7
  /\ Trunkater.new_line_count Trunkater.default_shrink_speed 90 = Ok 62
  /\ Trunkater.new_line_count Trunkater.default_shrink_speed 7 = Ok 4
  /\ Trunkater.new_line_count Trunkater.default_shrink_speed 1 = Ok 0
  /\ Trunkater.new_line_count PrimFloat.infinity 1
     = Raise (OverflowError "cannot convert float infinity to integer")
  /\ Trunkater.new_line_count PrimFloat.nan 1
     = Raise (ValueError "cannot convert float NaN to integer").
Proof. repeat split; vm_compute; reflexivity. Qed.

(** ** Dumps have at least two lines *)

Section DumpFacts.
Context {Env : Type}.
Implicit Types (env : Env) (envs : list Env).

Lemma splitlines_nonempty (s : string) :
  PyStr.nonempty s = true -> (1 <= length (PyStr.splitlines s))%nat.
Proof.
  destruct s as [|c s]; [discriminate|]. intros _. simpl.
  destruct (PyStr.is_linebreak c).
  - destruct (PyStr.is_CR c); [destruct s as [|d s]; [|destruct (PyStr.is_LF d)]|];
      simpl; lia.
  - destruct (PyStr.splitlines s); simpl; lia.
Qed.

Lemma splitlines_after_LF (s : string) :
  PyStr.nonempty s = true -> (2 <= length (PyStr.splitlines (PyStr.LF +:+ s)))%nat.
Proof.
  intros H. change (PyStr.splitlines (PyStr.LF +:+ s)) with ("" :: PyStr.splitlines s).
  pose proof (splitlines_nonempty s H). simpl. lia.
Qed.

Lemma nonempty_app_r (a b : string) :
  PyStr.nonempty b = true -> PyStr.nonempty (a +:+ b) = true.
Proof. destruct a; [auto | reflexivity]. Qed.

Lemma HTML_two_lines (html : string) (visible : @PromptElement.visibility Env)
  (prefix : string) :
  (2 <= Trunkater.line_count (HTML.__init__ html visible prefix))%nat.
Proof.
  unfold Trunkater.line_count, Trunkater.lines. cbn.
  apply splitlines_after_LF, nonempty_app_r. reflexivity.
Qed.

Lemma AXTree_two_lines (ax_tree : string) (visible : @PromptElement.visibility Env)
  (coord_type : option string) (prefix : string) :
  (2 <= Trunkater.line_count (AXTree.__init__ ax_tree visible coord_type prefix))%nat.
Proof.
  unfold Trunkater.line_count, Trunkater.lines. cbn.
  apply splitlines_after_LF, nonempty_app_r. reflexivity.
Qed.

Lemma speed_shrinks_le (speed : float) (n0 n1 : nat) :
  (n1 <= n0)%nat -> Trunkater.speed_shrinks speed n0 = true ->
  Trunkater.speed_shrinks speed n1 = true.
Proof.
  unfold Trunkater.speed_shrinks. rewrite !forallb_forall.
  intros Hle H n Hn. apply H. rewrite in_seq in *. lia.
Qed.

(** With the default speed, the count [shrink] keeps of at most 5000 lines
    is between 0 and the number of lines. *)
Lemma default_count_bounds (N : nat) :
  (N <= 5000)%nat ->
  exists n,
    Trunkater.new_line_count Trunkater.default_shrink_speed (Z.of_nat N) = Ok n
    /\ 0 <= n <= Z.of_nat N.
Proof.
  intros HN. destruct N as [|[|N]].
  - exists 0. split; [vm_compute; reflexivity | lia].
  - exists 0. split; [vm_compute; reflexivity | lia].
  - destruct (speed_shrinks_bound _ 5000 (S (S N)) default_speed_shrinks) as (n & Hn & Hb);
      [lia|].
    exists n. split; [exact Hn | lia].
Qed.

(** The invariant of the shrink loop holds of every element with the default
    speed and from 2 to 5000 lines: the calls return, at least two lines
    stay, and no call leaves more lines than it found. *)
Lemma default_speed_never_regrows (t : @Trunkater.t Env) envs env :
  Trunkater.shrink_speed t = Trunkater.default_shrink_speed ->
  (2 <= Trunkater.line_count t <= 5000)%nat ->
  exists t1 t2,
    Trunkater.shrinks envs t = Ok t1 /\ Trunkater.shrink env t1 = Ok t2
    /\ (2 <= Trunkater.line_count t2 <= Trunkater.line_count t1)%nat.
Proof.
  intros Hspeed Hlines.
  assert (Hok : Trunkater.speed_shrinks (Trunkater.shrink_speed t)
                  (Trunkater.line_count t) = true).
  { rewrite Hspeed. apply (speed_shrinks_le _ 5000); [lia | exact default_speed_shrinks]. }
  destruct (shrinks_bounds envs t (Trunkater.line_count t)) as (t1 & H1 & HN1 & Hs1);
    [lia | exact Hok |].
  destruct (shrink_step_bounds env t1 (Trunkater.line_count t)) as (t2 & Ht2 & HN2 & _);
    [lia | now rewrite Hs1 |].
  exists t1, t2. repeat split; [exact H1 | exact Ht2 | lia | lia].
Qed.

(** So it holds of every page-markup and accessibility-tree dump of at most
    5000 lines. *)
Lemma HTML_never_regrows (html : string) (visible : @PromptElement.visibility Env)
  (prefix : string) envs env :
  let t := HTML.__init__ html visible prefix in
  (Trunkater.line_count t <= 5000)%nat ->
  exists t1 t2,
    Trunkater.shrinks envs t = Ok t1 /\ Trunkater.shrink env t1 = Ok t2
    /\ (2 <= Trunkater.line_count t2 <= Trunkater.line_count t1)%nat.
Proof.
  intros t Hle. apply default_speed_never_regrows; [reflexivity|].
  split; [apply HTML_two_lines | exact Hle].
Qed.

Lemma AXTree_never_regrows (ax_tree : string) (visible : @PromptElement.visibility Env)
  (coord_type : option string) (prefix : string) envs env :
  let t := AXTree.__init__ ax_tree visible coord_type prefix in
  (Trunkater.line_count t <= 5000)%nat ->
  exists t1 t2,
    Trunkater.shrinks envs t = Ok t1 /\ Trunkater.shrink env t1 = Ok t2
    /\ (2 <= Trunkater.line_count t2 <= Trunkater.line_count t1)%nat.
Proof.
  intros t Hle. apply default_speed_never_regrows; [reflexivity|].
  split; [apply AXTree_two_lines | exact Hle].
Qed.

End DumpFacts.

(** ** Witnesses of the claims on truncation *)

Lemma invisible_element_renders_empty_witness :
  PromptElement.prompt tt Examples.no_error = ""
  /\ PromptElement.abstract_ex tt Examples.no_error = ""
  /\ PromptElement.concrete_ex tt Examples.no_error = ""
  /\ forall (t : @Trunkater.t unit) envs t',
       Trunkater.base t = Examples.no_error -> Trunkater.shrinks envs t = Ok t' ->
       PromptElement.prompt tt (Trunkater.base t') = "".
Proof.
  apply (invisible_element_renders_empty tt Examples.no_error).
  reflexivity.
Defined.

Lemma shrink_changes_text_only_past_threshold_witness :
  exists t', Trunkater.shrink tt Examples.ax7 = Ok t'
    /\ PromptElement._prompt (Trunkater.base t')
       = PromptElement._prompt (Trunkater.base Examples.ax7).
Proof.
  apply (proj1 (@shrink_changes_text_only_past_threshold unit) tt Examples.ax7).
  right. vm_compute. reflexivity.
Defined.


Lemma shrink_keeps_scaled_prefix_witness :
  let t := Examples.after (repeat tt 10) Examples.ax7 in
  exists t', Trunkater.shrink tt t = Ok t'
    /\ Trunkater.lines t'
       = (if 4 =? 0 then [""] else take (Z.to_nat 4) (Trunkater.lines t))
         ++ [Trunkater.deleted_note (Trunkater.deleted_lines t')]
    /\ length (take (Z.to_nat 4) (Trunkater.lines t)) = Z.to_nat 4
    /\ Trunkater.deleted_lines t'
       = Trunkater.deleted_lines t + (PySeq.len (Trunkater.lines t) - 4)
    /\ (Trunkater.deleted_lines t = 0 ->
        Trunkater.deleted_lines t' = PySeq.len (Trunkater.lines t) - 4).
Proof.
  apply (shrink_keeps_scaled_prefix tt (Examples.after (repeat tt 10) Examples.ax7) 4).
  - reflexivity.
  - vm_compute. discriminate.
  - vm_compute. reflexivity.
  - vm_compute. split; discriminate.
Defined.

Lemma shrink_of_empty_text_witness :
  let t := Examples.after (repeat tt 10) Examples.bare in
  exists t', Trunkater.shrink tt t = Ok t'
    /\ Trunkater.deleted_lines t' = Trunkater.deleted_lines t
    /\ PromptElement._prompt (Trunkater.base t')
       = PyStr.LF +:+ Trunkater.deleted_note (Trunkater.deleted_lines t).
Proof.
  apply (proj2 (shrink_of_empty_text tt
                  (Examples.after (repeat tt 10) Examples.bare) eq_refl)).
  - reflexivity.
  - vm_compute. discriminate.
  - vm_compute. reflexivity.
Defined.


(** ** The main prompt *)

Section MainPromptFacts.
Context {Env : Type}.
Implicit Types (env : Env) (self : @MyMainPrompt.t Env).

Import MyMainPrompt.

Lemma index_nat {A : Type} (l : list A) (k : nat) (x : A) :
  l !! k = Some x -> PySeq.index l (Z.of_nat k) = Ok x.
Proof.
  intros H. unfold PySeq.index.
  assert (E : (Z.of_nat k <? 0) = false) by (apply Z.ltb_ge; lia).
  cbv zeta. rewrite !E, Nat2Z.id, H. reflexivity.
Qed.

(** [l[-1]] is the last element. *)
Lemma index_last {A : Type} (l : list A) (x : A) :
  last l = Some x -> PySeq.index l (-1) = Ok x.
Proof.
  intros H. unfold PySeq.index, PySeq.len.
  destruct l as [|y l]; [discriminate|].
  change (-1 <? 0) with true. cbv zeta iota.
  assert (E : (Z.of_nat (length (y :: l)) + -1 <? 0) = false)
    by (apply Z.ltb_ge; simpl; lia).
  rewrite E, last_lookup in *.
  replace (Z.to_nat (Z.of_nat (length (y :: l)) + -1)) with (pred (length (y :: l)))
    by (simpl; lia).
  rewrite H. reflexivity.
Qed.

Lemma last_is_Some {A : Type} (l : list A) :
  1 <= PySeq.len l -> exists x, last l = Some x.
Proof.
  unfold PySeq.len. intros H. destruct (last l) as [x|] eqn:E; [eauto|].
  apply last_None in E. subst. simpl in H. lia.
Qed.

Lemma get_obs_returns env (o : Obs.t) self :
  exists self',
    get_obs env o self = Ok (observation_text o, self')
    /\ history self' = history self.
Proof.
  unfold get_obs, bindM, modify, ret, bind. cbn [fst snd].
  eexists. split; reflexivity.
Qed.

Lemma get_history_step_returns env (st sg : string) (ac : option string) self :
  exists self',
    get_history_step env None st (Some sg) ac self = Ok (history_step_text st sg ac, self')
    /\ history_steps self' = history_steps self
    /\ obs self' = obs self.
Proof.
  unfold get_history_step, bindM, modify, ret, bind. cbn [fst snd].
  destruct ac; eexists; (split; [reflexivity | split; reflexivity]).
Qed.

Lemma history_loop_body_returns env (states strategies actions : list string)
  (k : nat) (st sg : string) (steps : list string) self :
  states !! k = Some st -> strategies !! k = Some sg ->
  history_steps self = Some steps ->
  exists self',
    history_loop_body env states strategies actions (1 + Z.of_nat k) self = Ok (tt, self')
    /\ history_steps self' = Some (steps ++ [history_step_text st sg (actions !! k)])
    /\ obs self' = obs self.
Proof.
  intros Hst Hsg Hsteps.
  destruct (get_history_step_returns env st sg (actions !! k) self)
    as (self1 & Hstep & Hsteps1 & Hobs1).
  unfold history_loop_body, bindM, lift.
  replace (1 + Z.of_nat k - 1) with (Z.of_nat k) by lia.
  rewrite (index_nat _ _ _ Hst), (index_nat _ _ _ Hsg). cbn [bind fst snd].
  destruct (Z.leb_spec (1 + Z.of_nat k) (PySeq.len actions)) as [Hle|Hgt];
    unfold PySeq.len in *.
  - destruct (actions !! k) as [a|] eqn:Ea.
    2:{ apply lookup_ge_None in Ea. lia. }
    unfold bindM, lift. rewrite (index_nat _ _ _ Ea). cbn [bind fst snd ret].
    rewrite Hstep. cbn [bind fst snd modify].
    eexists. split; [reflexivity|]. cbn. rewrite Hsteps1, Hsteps. split; [reflexivity|exact Hobs1].
  - destruct (actions !! k) as [a|] eqn:Ea.
    { apply lookup_lt_Some in Ea. lia. }
    cbn [bind fst snd ret]. rewrite Hstep. cbn [bind fst snd modify].
    eexists. split; [reflexivity|]. cbn. rewrite Hsteps1, Hsteps. split; [reflexivity|exact Hobs1].
Qed.

Lemma history_loop_returns env (states strategies actions : list string)
  (ks : list nat) (steps : list string) self :
  Forall (fun k => (k < length states)%nat /\ (k < length strategies)%nat) ks ->
  history_steps self = Some steps ->
  exists self',
    for_each (map (fun k => 1 + Z.of_nat k) ks)
      (history_loop_body env states strategies actions) self = Ok (tt, self')
    /\ history_steps self'
       = Some (steps ++ map (fun k =>
                 history_step_text (default "" (states !! k)) (default "" (strategies !! k))
                   (actions !! k)) ks)
    /\ obs self' = obs self.
Proof.
  intros Hks. revert steps self.
  induction Hks as [|k ks [Hk1 Hk2] Hks IH]; intros steps self Hsteps.
  - exists self. cbn. rewrite app_nil_r. auto.
  - destruct (lookup_lt_is_Some_2 states k Hk1) as [st Hst].
    destruct (lookup_lt_is_Some_2 strategies k Hk2) as [sg Hsg].
    destruct (history_loop_body_returns env states strategies actions k st sg steps self
                Hst Hsg Hsteps) as (self1 & Hbody & Hsteps1 & Hobs1).
    destruct (IH _ self1 Hsteps1) as (self2 & Hrest & Hsteps2 & Hobs2).
    exists self2. cbn [map for_each]. unfold bindM at 1. rewrite Hbody.
    cbn [bind fst snd]. split; [exact Hrest|]. split; [|congruence].
    rewrite Hsteps2, Hst, Hsg, <- app_assoc. reflexivity.
Qed.

(** [get_history] raises when its assertion fails. *)
Lemma get_history_asserts env (obs_history : list Obs.t)
  (states strategies actions : list string) self :
  PySeq.len states <> PySeq.len strategies ->
  PySeq.len states <> PySeq.len strategies + 1 ->
  get_history env obs_history states strategies actions self = Raise AssertionError.
Proof.
  intros H1 H2. unfold get_history.
  apply Z.eqb_neq in H1, H2. rewrite H1, H2. reflexivity.
Qed.

(** [get_history] returns the history text when its assertion holds; it
    leaves the current-step text as it is. *)
Lemma get_history_returns env (obs_history : list Obs.t)
  (states strategies actions : list string) self :
  PySeq.len states = PySeq.len strategies
  \/ PySeq.len states = PySeq.len strategies + 1 ->
  exists self',
    get_history env obs_history states strategies actions self
    = Ok (history_text states strategies actions, self')
    /\ obs self' = obs self.
Proof.
  intros Hlen. unfold get_history.
  assert (E : negb ((PySeq.len states =? PySeq.len strategies)
                    || (PySeq.len states =? PySeq.len strategies + 1)) = false).
  { apply negb_false_iff, orb_true_iff. rewrite !Z.eqb_eq. exact Hlen. }
  rewrite E.
  destruct (history_loop_returns env states strategies actions
              (seq 0 (length states - 1)) [] (set_history_steps [] self))
    as (self1 & Hloop & Hsteps1 & Hobs1).
  { apply Forall_forall. intros k Hk. apply elem_of_seq in Hk.
    unfold PySeq.len in Hlen. lia. }
  { reflexivity. }
  unfold bindM at 1. cbn [modify bind fst snd].
  unfold bindM at 1. unfold PySeq.range.
  replace (Z.to_nat (PySeq.len states - 1)) with (length states - 1)%nat
    by (unfold PySeq.len; lia).
  rewrite Hloop. cbn [bind fst snd]. unfold bindM, gets, ret. cbn [bind fst snd].
  rewrite Hsteps1. eexists. split; [reflexivity | exact Hobs1].
Qed.


End MainPromptFacts.

Section MainPromptInit.
Context {Env : Type}.
Implicit Types (env : Env) (self : @MyMainPrompt.t Env)
  (obs_history : list Obs.t) (states strategies actions : list string)
  (active_strategy : option string) (action_space : option ActionSpace.t).

Import MyMainPrompt.

(** [l[-3:]] is what is left of [l] without all but its last three entries. *)
Lemma slice_from_last3 {A : Type} (l : list A) :
  PySeq.slice_from l (-3) = drop (length l - 3) l.
Proof.
  unfold PySeq.slice_from, PySeq.len. change (-3 <? 0) with true. cbv iota.
  f_equal. lia.
Qed.

Lemma len_last3 {A : Type} (l : list A) :
  PySeq.len (drop (length l - 3) l) = Z.min 3 (PySeq.len l).
Proof. unfold PySeq.len. rewrite length_drop. lia. Qed.

(** Decides the conditions of the mode cascade from the hypotheses on the
    lengths. *)
Ltac mode_decide :=
  unfold mode_encoding, mode_strategy, mode_policy, mode_dynamics, mode_rollout;
  repeat match goal with
         | |- context [?a =? ?b] => destruct (Z.eqb_spec a b)
         | |- context [?a <=? ?b] => destruct (Z.leb_spec a b)
         | |- context [?a <? ?b] => destruct (Z.ltb_spec a b)
         end;
  try reflexivity; try lia.

(** Runs the first [get_history] call of [__init__] and stores its text. *)
Ltac init_history Hassert self1 Hobs1 :=
  unfold __init__; cbv zeta;
  match goal with
  | |- context [get_history ?env ?oh ?st ?sg ?ac] =>
      match goal with
      | |- context [bindM (get_history env oh st sg ac) ?k ?s] =>
          let Hh := fresh "Hh" in
          destruct (get_history_returns env oh st sg ac s Hassert)
            as (self1 & Hh & Hobs1);
          unfold bindM at 1; rewrite Hh; cbn [bind fst snd];
          unfold bindM at 1; cbn [modify bind fst snd]
      end
  end.

Lemma init_encoding env obs_history states strategies actions active_strategy action_space :
  PySeq.len obs_history = PySeq.len states + 1 ->
  PySeq.len states = PySeq.len strategies ->
  exists p o,
    __init__ env obs_history states strategies actions active_strategy action_space = Ok p
    /\ last obs_history = Some o
    /\ obs p = Some (observation_text o)
    /\ history p
       = Some (history_text (drop (length states - 3) states)
                 (drop (length strategies - 3) strategies)
                 (drop (length actions - 3) actions)).
Proof.
  intros HO HS.
  destruct (last_is_Some obs_history) as [o Ho]; [unfold PySeq.len in *; lia|].
  init_history (or_introl HS : PySeq.len states = PySeq.len strategies
                               \/ PySeq.len states = PySeq.len strategies + 1) self1 Hobs1.
  replace (mode_encoding _ _ _ _) with true by (symmetry; mode_decide).
  unfold bindM at 1. unfold lift at 1. rewrite (index_last _ _ Ho). cbn [bind fst snd].
  unfold bindM at 1.
  match goal with
  | |- context [get_obs env o ?s] =>
      destruct (get_obs_returns env o s) as (self2 & Hget & _)
  end.
  rewrite Hget. cbn [bind fst snd]. unfold bindM at 1. cbn [modify bind fst snd].
  rewrite !slice_from_last3. unfold bindM at 1.
  match goal with
  | |- context [get_history env ?oh ?st ?sg ?ac ?s] =>
      destruct (get_history_returns env oh st sg ac s) as (self3 & Hh3 & Hobs3)
  end.
  { left. rewrite !len_last3. lia. }
  rewrite Hh3. cbn [bind fst snd modify].
  eexists. exists o. split; [reflexivity|]. split; [exact Ho|].
  split; [|reflexivity]. cbn. exact Hobs3.
Qed.

Lemma init_strategy env obs_history states strategies actions active_strategy action_space :
  PySeq.len obs_history = PySeq.len states ->
  PySeq.len states = PySeq.len strategies + 1 ->
  PySeq.len strategies = PySeq.len actions ->
  exists p o s,
    __init__ env obs_history states strategies actions active_strategy action_space = Ok p
    /\ last obs_history = Some o
    /\ last states = Some s
    /\ obs p = Some (observation_text o +:+ PyStr.LF +:+ "## Current State:" +:+ PyStr.LF
                     +:+ s +:+ PyStr.LF)
    /\ history p = Some (history_text states strategies actions).
Proof.
  intros HO HS HT.
  destruct (last_is_Some obs_history) as [o Ho]; [unfold PySeq.len in *; lia|].
  destruct (last_is_Some states) as [s Hs]; [unfold PySeq.len in *; lia|].
  init_history (or_intror HS : PySeq.len states = PySeq.len strategies
                               \/ PySeq.len states = PySeq.len strategies + 1) self1 Hobs1.
  replace (mode_encoding _ _ _ _) with false by (symmetry; mode_decide).
  replace (mode_strategy _ _ _ _) with true by (symmetry; mode_decide).
  unfold bindM at 1. unfold lift at 1. rewrite (index_last _ _ Ho). cbn [bind fst snd].
  unfold bindM at 1. unfold lift at 1. rewrite (index_last _ _ Hs). cbn [bind fst snd].
  unfold bindM at 1. unfold get_obs_state. unfold bindM at 1.
  match goal with
  | |- context [get_obs env o ?s] =>
      destruct (get_obs_returns env o s) as (self2 & Hget & Hhist2)
  end.
  rewrite Hget. cbn [bind fst snd ret modify].
  eexists. exists o, s. split; [reflexivity|]. split; [exact Ho|]. split; [exact Hs|].
  split; [reflexivity | exact Hhist2].
Qed.

Lemma init_unmatched env obs_history states strategies actions active_strategy action_space :
  let O := PySeq.len obs_history in
  let S := PySeq.len states in
  let T := PySeq.len strategies in
  let A := PySeq.len actions in
  mode_encoding O S T A = false -> mode_strategy O S T A = false ->
  mode_policy O S T A = false -> mode_dynamics O S T A = false ->
  mode_rollout O S T A = false ->
  S = T \/ S = T + 1 ->
  exists p,
    __init__ env obs_history states strategies actions active_strategy action_space = Ok p
    /\ obs p = None
    /\ history p = Some (history_text states strategies actions).
Proof.
  intros O S T A H1 H2 H3 H4 H5 Hassert.
  init_history Hassert self1 Hobs1.
  fold O S T A. rewrite H1, H2, H3, H4, H5. cbn [ret bind fst snd].
  eexists. split; [reflexivity|]. split; [exact Hobs1 | reflexivity].
Qed.

Lemma init_asserts env obs_history states strategies actions active_strategy action_space :
  PySeq.len states <> PySeq.len strategies ->
  PySeq.len states <> PySeq.len strategies + 1 ->
  __init__ env obs_history states strategies actions active_strategy action_space
  = Raise AssertionError.
Proof.
  intros H1 H2. unfold __init__. cbv zeta. unfold bindM at 1.
  rewrite get_history_asserts by assumption. reflexivity.
Qed.

End MainPromptInit.

(** ** Claims on the mode of the main prompt *)

Section ModeClaims.
Context {Env : Type}.
Implicit Types (env : Env)
  (obs_history : list Obs.t) (states strategies actions : list string)
  (active_strategy : option string) (action_space : option ActionSpace.t).

Import MyMainPrompt.

(** C1, as amended. When the lengths satisfy [O = S + 1] and [S = T], the
    constructor returns in encoding mode: the current-step text is the
    rendering of the latest observation alone, that is its accessibility
    tree between the two marks and, when its error text is not empty, its
    error banner; it is the same whatever the states, strategies, actions
    and active strategy are. The history block is rebuilt from the last
    three entries of the states, of the strategies and of the actions. *)
Theorem encoding_mode_renders_latest_observation
  env obs_history states strategies actions active_strategy action_space :
  PySeq.len obs_history = PySeq.len states + 1 ->
  PySeq.len states = PySeq.len strategies ->
  exists p o,
    __init__ env obs_history states strategies actions active_strategy action_space = Ok p
    /\ last obs_history = Some o
    /\ obs p = Some (observation_text o)
    /\ history p
       = Some (history_text (drop (length states - 3) states)
                 (drop (length strategies - 3) strategies)
                 (drop (length actions - 3) actions))
    /\ forall states' strategies' actions' active_strategy' action_space',
         PySeq.len states' = PySeq.len states ->
         PySeq.len strategies' = PySeq.len strategies ->
         exists p',
           __init__ env obs_history states' strategies' actions' active_strategy'
             action_space' = Ok p'
           /\ obs p' = obs p.
Proof.
  intros HO HS.
  destruct (init_encoding env obs_history states strategies actions active_strategy
              action_space HO HS) as (p & o & Hp & Ho & Hobs & Hhist).
  exists p, o. repeat split; try assumption.
  intros states' strategies' actions' active_strategy' action_space' HS' HT'.
  destruct (init_encoding env obs_history states' strategies' actions' active_strategy'
              action_space') as (p' & o' & Hp' & Ho' & Hobs' & _); [lia | lia |].
  exists p'. split; [exact Hp'|]. congruence.
Qed.

(** C6. When the lengths satisfy [O = S], [S = T + 1] and [T = A], the
    constructor returns in strategy mode: the current-step text is the
    rendering of the latest observation followed by the block of the latest
    state, and it is the same whatever the strategies, the actions and the
    active strategy are. *)
Theorem strategy_mode_renders_observation_and_state
  env obs_history states strategies actions active_strategy action_space :
  PySeq.len obs_history = PySeq.len states ->
  PySeq.len states = PySeq.len strategies + 1 ->
  PySeq.len strategies = PySeq.len actions ->
  exists p o s,
    __init__ env obs_history states strategies actions active_strategy action_space = Ok p
    /\ last obs_history = Some o
    /\ last states = Some s
    /\ obs p = Some (observation_text o +:+ PyStr.LF +:+ "## Current State:" +:+ PyStr.LF
                     +:+ s +:+ PyStr.LF)
    /\ forall strategies' actions' active_strategy' action_space',
         PySeq.len strategies' = PySeq.len strategies ->
         PySeq.len actions' = PySeq.len actions ->
         exists p',
           __init__ env obs_history states strategies' actions' active_strategy'
             action_space' = Ok p'
           /\ obs p' = obs p.
Proof.
  intros HO HS HT.
  destruct (init_strategy env obs_history states strategies actions active_strategy
              action_space HO HS HT) as (p & o & s & Hp & Ho & Hs & Hobs & _).
  exists p, o, s. repeat split; try assumption.
  intros strategies' actions' active_strategy' action_space' HT' HA'.
  destruct (init_strategy env obs_history states strategies' actions' active_strategy'
              action_space') as (p' & o' & s' & Hp' & Ho' & Hs' & Hobs' & _);
    [lia | lia | lia |].
  exists p'. split; [exact Hp'|]. congruence.
Qed.

(** C3, as amended. When the lengths satisfy none of the five mode
    conditions, the constructor sets no current-step text; it returns when
    [S = T] or [S = T + 1], and otherwise the assertion of [get_history]
    fails and the constructor raises [AssertionError]. *)
Theorem unmatched_mode_sets_no_current_step
  env obs_history states strategies actions active_strategy action_space :
  let O := PySeq.len obs_history in
  let S := PySeq.len states in
  let T := PySeq.len strategies in
  let A := PySeq.len actions in
  mode_encoding O S T A = false -> mode_strategy O S T A = false ->
  mode_policy O S T A = false -> mode_dynamics O S T A = false ->
  mode_rollout O S T A = false ->
  (S = T \/ S = T + 1 ->
   exists p,
     __init__ env obs_history states strategies actions active_strategy action_space = Ok p
     /\ obs p = None)
  /\ (S <> T -> S <> T + 1 ->
      __init__ env obs_history states strategies actions active_strategy action_space
      = Raise AssertionError).
Proof.
  intros O S T A H1 H2 H3 H4 H5. split.
  - intros Hassert.
    destruct (init_unmatched env obs_history states strategies actions active_strategy
                action_space H1 H2 H3 H4 H5 Hassert) as (p & Hp & Hobs & _).
    exists p. split; assumption.
  - intros HT HT1. now apply init_asserts.
Qed.

End ModeClaims.

(** ** Claim on the action parsers *)

Section ParserClaims.
Context {Env : Type}.

(** The tag parser of the module [utils], any. *)
Variable parse_html_tags_raise :
  string -> option (list string) -> option (list string) -> bool -> result dict.


End ParserClaims.

(** ** Witnesses and counterexamples of the claims on the main prompt *)

Lemma encoding_mode_renders_latest_observation_witness :
  exists p o,
    MyMainPrompt.__init__ tt Examples.history3 ["s1"; "s2"] ["g1"; "g2"] ["a1"] None None
    = Ok p
    /\ last Examples.history3 = Some o
    /\ MyMainPrompt.obs p = Some (MyMainPrompt.observation_text o)
    /\ MyMainPrompt.history p
       = Some (MyMainPrompt.history_text
                 (drop (length ["s1"; "s2"] - 3) ["s1"; "s2"])
                 (drop (length ["g1"; "g2"] - 3) ["g1"; "g2"])
                 (drop (length ["a1"] - 3) ["a1"]))
    /\ forall states' strategies' actions' active_strategy' action_space',
         PySeq.len states' = PySeq.len ["s1"; "s2"] ->
         PySeq.len strategies' = PySeq.len ["g1"; "g2"] ->
         exists p',
           MyMainPrompt.__init__ tt Examples.history3 states' strategies' actions'
             active_strategy' action_space' = Ok p'
           /\ MyMainPrompt.obs p' = MyMainPrompt.obs p.
Proof.
  apply (encoding_mode_renders_latest_observation tt Examples.history3
           ["s1"; "s2"] ["g1"; "g2"] ["a1"] None None); reflexivity.
Defined.

(** C1, the claim as stated fails. Two histories of three observations with
    the same accessibility trees, with two states, two strategies and one
    action, give two different current-step texts: the second carries the
    error banner of its latest observation. *)
Lemma encoding_mode_counterexample :
  map Obs.axtree_txt Examples.history3 = map Obs.axtree_txt Examples.history3_error
  /\ exists p1 p2,
       MyMainPrompt.__init__ tt Examples.history3 ["s1"; "s2"] ["g1"; "g2"] ["a1"]
         None None = Ok p1
       /\ MyMainPrompt.__init__ tt Examples.history3_error ["s1"; "s2"] ["g1"; "g2"] ["a1"]
            None None = Ok p2
       /\ MyMainPrompt.obs p1 <> MyMainPrompt.obs p2
       /\ MyMainPrompt.obs p2
          = Some (PyStr.LF +:+ "# Observation of current step:" +:+ PyStr.LF
                  +:+ "AXSTART" +:+ PyStr.LF
                  +:+ "## AXTree (you may only interact with elements in this tree):"
                  +:+ PyStr.LF +:+ "t3" +:+ PyStr.LF +:+ "AXEND" +:+ PyStr.LF
                  +:+ "## Error from previous action:" +:+ PyStr.LF +:+ "boom"
                  +:+ PyStr.LF +:+ PyStr.LF +:+ PyStr.LF).
Proof.
  split; [reflexivity|].
  do 2 eexists. split; [vm_compute; reflexivity|].
  split; [vm_compute; reflexivity|].
  split; [vm_compute; discriminate | vm_compute; reflexivity].
Qed.

Lemma strategy_mode_renders_observation_and_state_witness :
  exists p o s,
    MyMainPrompt.__init__ tt [Examples.ob "t1" ""; Examples.ob "t2" ""] ["s1"; "s2"] ["g1"]
      ["a1"] None None = Ok p
    /\ last [Examples.ob "t1" ""; Examples.ob "t2" ""] = Some o
    /\ last ["s1"; "s2"] = Some s
    /\ MyMainPrompt.obs p
       = Some (MyMainPrompt.observation_text o +:+ PyStr.LF +:+ "## Current State:"
               +:+ PyStr.LF +:+ s +:+ PyStr.LF)
    /\ forall strategies' actions' active_strategy' action_space',
         PySeq.len strategies' = PySeq.len ["g1"] ->
         PySeq.len actions' = PySeq.len ["a1"] ->
         exists p',
           MyMainPrompt.__init__ tt [Examples.ob "t1" ""; Examples.ob "t2" ""] ["s1"; "s2"]
             strategies' actions' active_strategy' action_space' = Ok p'
           /\ MyMainPrompt.obs p' = MyMainPrompt.obs p.
Proof.
  apply (strategy_mode_renders_observation_and_state tt
           [Examples.ob "t1" ""; Examples.ob "t2" ""] ["s1"; "s2"] ["g1"] ["a1"]
           None None); reflexivity.
Defined.

Lemma unmatched_mode_sets_no_current_step_witness :
  exists p,
    MyMainPrompt.__init__ tt [Examples.ob "t1" ""] ["s1"] ["g1"] ["a1"] None None = Ok p
    /\ MyMainPrompt.obs p = None.
Proof.
  apply (proj1 (unmatched_mode_sets_no_current_step tt [Examples.ob "t1" ""] ["s1"] ["g1"]
                  ["a1"] None None eq_refl eq_refl eq_refl eq_refl eq_refl)).
  left. reflexivity.
Defined.

(** C3, the claim as stated fails. No observation, no state, one strategy and
    no action satisfy none of the five mode conditions, and the constructor
    raises [AssertionError]. *)
Lemma unmatched_mode_counterexample :
  let O := PySeq.len (@nil Obs.t) in
  let S := PySeq.len (@nil string) in
  let T := PySeq.len ["g1"] in
  let A := PySeq.len (@nil string) in
  MyMainPrompt.mode_encoding O S T A = false
  /\ MyMainPrompt.mode_strategy O S T A = false
  /\ MyMainPrompt.mode_policy O S T A = false
  /\ MyMainPrompt.mode_dynamics O S T A = false
  /\ MyMainPrompt.mode_rollout O S T A = false
  /\ MyMainPrompt.__init__ tt [] [] ["g1"] [] None None = Raise AssertionError.
Proof. repeat split; reflexivity. Qed.


(** * Further properties of the code *)

(** ** Truncation *)

Section TruncationMore.
Context {Env : Type}.
Implicit Types (env : Env) (t : @Trunkater.t Env) (envs : list Env).

Import Trunkater.

Lemma slice_to_is_take {A : Type} (l : list A) (n : Z) :
  exists k, PySeq.slice_to l n = take k l.
Proof. unfold PySeq.slice_to. destruct (n <? 0); eauto. Qed.

(** The lines after a truncating call, whatever the count kept. *)
Lemma cut_lines_any (ls : list string) (n d : Z) :
  Forall (fun x => PyStr.no_linebreak x = true) ls ->
  PyStr.splitlines
    (PyStr.join PyStr.LF (PySeq.slice_to ls n) +:+ PyStr.LF +:+ deleted_note d)
  = match PySeq.slice_to ls n with [] => [""] | _ => PySeq.slice_to ls n end
    ++ [deleted_note d].
Proof.
  intros Hls. destruct (deleted_note_line d) as [Hnl Hne].
  rewrite PyStrFacts.join_snoc.
  apply PyStrFacts.splitlines_join; auto.
  destruct (slice_to_is_take ls n) as [k ->].
  destruct (take k ls) eqn:E; [repeat constructor|].
  rewrite <- E. now apply Forall_take.
Qed.


Lemma visible_by_flag env t t0 :
  PromptElement._visible (base t) = PromptElement._visible (base t0) ->
  PromptElement.is_visible env (base t) = PromptElement.is_visible env (base t0).
Proof. unfold PromptElement.is_visible. now intros ->. Qed.

Lemma first_cut env t :
  PromptElement.truthy (PromptElement.is_visible env (base t)) = true ->
  start_trunkate_iteration t <= shrink_calls t ->
  (2 <= line_count t)%nat ->
  speed_shrinks (shrink_speed t) (line_count t) = true ->
  exists t', shrink env t = Ok t' /\ cut_state t t' 0.
Proof.
  intros Hvis Hth HN Hok.
  assert (Htr : truncates env t = true) by (apply truncates_spec; auto).
  destruct (speed_shrinks_bound _ _ (line_count t) Hok) as (n & Hn & Hb); [lia|].
  pose proof (shrink_cut env t n Htr) as Hcut. unfold PySeq.len in Hcut.
  fold (line_count t) in Hcut. specialize (Hcut Hn). cbv zeta in Hcut.
  eexists. split; [exact Hcut|].
  exists (Z.to_nat n). split; [lia|].
  split.
  { rewrite lines_after_cut by (unfold PySeq.len; fold (line_count t); lia).
    destruct (Z.eqb_spec n 0); [lia | reflexivity]. }
  split; [simpl; lia|]. repeat split; simpl; lia.
Qed.

Lemma next_cut env t0 t (j : Z) :
  PromptElement.truthy (PromptElement.is_visible env (base t0)) = true ->
  start_trunkate_iteration t0 <= shrink_calls t0 ->
  speed_shrinks (shrink_speed t0) (line_count t0) = true ->
  cut_state t0 t j ->
  exists t', shrink env t = Ok t' /\ cut_state t0 t' (j + 1).
Proof.
  intros Hvis Hth Hok (m & Hm & Hl & Hd & Hs & Hst & Hv & Hc).
  assert (HN : line_count t = S m).
  { unfold line_count. rewrite Hl, length_app, length_take.
    unfold line_count in Hm. simpl. lia. }
  assert (Htr : truncates env t = true).
  { apply truncates_spec. rewrite (visible_by_flag env t t0 Hv), Hst. split; [auto | lia]. }
  destruct (speed_shrinks_bound _ _ (S m) Hok) as (n & Hn & Hb); [lia|].
  rewrite <- Hs in Hn.
  pose proof (shrink_cut env t n Htr) as Hcut. unfold PySeq.len in Hcut.
  fold (line_count t) in Hcut. rewrite HN in Hcut. specialize (Hcut Hn).
  cbv zeta in Hcut.
  eexists. split; [exact Hcut|].
  exists (Z.to_nat n). split; [lia|].
  split.
  { rewrite lines_after_cut by (unfold PySeq.len; fold (line_count t); lia).
    destruct (Z.eqb_spec n 0); [lia|].
    cbn [deleted_lines set_shrink_calls set_prompt set_deleted_lines].
    f_equal. rewrite Hl, take_app_le by (rewrite length_take; unfold line_count in Hm; lia).
    rewrite take_take. f_equal. lia. }
  split; [simpl; lia|]. repeat split; simpl; try assumption; lia.
Qed.

Lemma more_cuts envs t0 t (j : Z) :
  Forall (fun env =>
            PromptElement.truthy (PromptElement.is_visible env (base t0)) = true) envs ->
  start_trunkate_iteration t0 <= shrink_calls t0 ->
  speed_shrinks (shrink_speed t0) (line_count t0) = true ->
  cut_state t0 t j ->
  exists t', shrinks envs t = Ok t' /\ cut_state t0 t' (j + PySeq.len envs).
Proof.
  intros Hvis Hth Hok. revert t j.
  induction Hvis as [|env envs Hv Hvis IH]; intros t j Hst.
  - exists t. split; [reflexivity|]. unfold PySeq.len. simpl.
    now rewrite Z.add_0_r.
  - destruct (next_cut env t0 t j Hv Hth Hok Hst) as (t1 & H1 & Hst1).
    destruct (IH t1 (j + 1) Hst1) as (t2 & H2 & Hst2).
    exists t2. simpl. rewrite H1. simpl. split; [exact H2|].
    unfold PySeq.len in *. cbn [length].
    replace (j + Z.of_nat (S (length envs))) with (j + 1 + Z.of_nat (length envs)) by lia.
    exact Hst2.
Qed.

(** X2. Repeated truncating calls keep a prefix of the first text, and
    their counter counts the earlier notes too. On a visible element at or
    past its threshold, with at least two lines and a speed that shrinks,
    [k >= 1] calls return and leave [m] lines of the first text (at least
    one, fewer than before) followed by the note; the note reports the
    lines dropped from the first text plus [k - 1], one for each earlier
    note dropped on the way. *)
Theorem repeated_cuts_keep_prefix env envs t :
  PromptElement.truthy (PromptElement.is_visible env (base t)) = true ->
  Forall (fun env' =>
            PromptElement.truthy (PromptElement.is_visible env' (base t)) = true) envs ->
  start_trunkate_iteration t <= shrink_calls t ->
  (2 <= line_count t)%nat ->
  speed_shrinks (shrink_speed t) (line_count t) = true ->
  exists t' (m : nat),
    shrinks (env :: envs) t = Ok t'
    /\ (1 <= m < line_count t)%nat
    /\ lines t' = take m (lines t) ++ [deleted_note (deleted_lines t')]
    /\ deleted_lines t'
       = deleted_lines t + (Z.of_nat (line_count t) - Z.of_nat m) + PySeq.len envs.
Proof.
  intros Hv Hvis Hth HN Hok.
  destruct (first_cut env t Hv Hth HN Hok) as (t1 & H1 & Hst1).
  destruct (more_cuts envs t t1 0 Hvis Hth Hok Hst1) as (t2 & H2 & (m & Hm & Hl & Hd & _)).
  exists t2, m. simpl. rewrite H1. simpl. split; [exact H2|].
  split; [exact Hm|]. split; [exact Hl|]. rewrite Hd. lia.
Qed.

(** X3. Shrink calls that return count themselves and change nothing of
    the configuration: after any calls the counter has grown by their
    number, and the visibility flag, the speed, the threshold and the two
    examples are as before. *)
Theorem shrinks_count_and_keep_configuration envs t t' :
  shrinks envs t = Ok t' ->
  shrink_calls t' = shrink_calls t + PySeq.len envs
  /\ PromptElement._visible (base t') = PromptElement._visible (base t)
  /\ shrink_speed t' = shrink_speed t
  /\ start_trunkate_iteration t' = start_trunkate_iteration t
  /\ PromptElement._abstract_ex (base t') = PromptElement._abstract_ex (base t)
  /\ PromptElement._concrete_ex (base t') = PromptElement._concrete_ex (base t).
Proof.
  revert t. induction envs as [|env envs IH]; intros t; simpl.
  - intros [= <-]. unfold PySeq.len. simpl. repeat split; lia.
  - destruct (shrink env t) as [t1|] eqn:E; simpl; [|discriminate].
    intros H. destruct (IH _ H) as (Hc & Hv & Hs & Hst & Ha & Hx).
    assert (H1 : shrink_calls t1 = shrink_calls t + 1
                 /\ PromptElement._visible (base t1) = PromptElement._visible (base t)
                 /\ shrink_speed t1 = shrink_speed t
                 /\ start_trunkate_iteration t1 = start_trunkate_iteration t
                 /\ PromptElement._abstract_ex (base t1) = PromptElement._abstract_ex (base t)
                 /\ PromptElement._concrete_ex (base t1) = PromptElement._concrete_ex (base t)).
    { unfold shrink in E. destruct (truncates env t).
      - destruct (new_line_count _ _); simpl in E; [|discriminate].
        injection E as <-. repeat split.
      - simpl in E. injection E as <-. repeat split. }
    destruct H1 as (Hc1 & Hv1 & Hs1 & Hst1 & Ha1 & Hx1).
    unfold PySeq.len in *. cbn [length].
    repeat split; try congruence. lia.
Qed.

End TruncationMore.

(** ** The default speed *)

Section DefaultSpeed.
Context {Env : Type}.
Implicit Types (env : Env) (t : @Trunkater.t Env) (envs : list Env).

Import Trunkater.

(** With the default speed and at most 5000 lines, the count kept is the
    floor of seven tenths of the line count, or one less; it is the floor
    when the line count is no multiple of 10. *)
Lemma default_count_values (N : nat) :
  (N <= 5000)%nat ->
  exists n,
    new_line_count default_shrink_speed (Z.of_nat N) = Ok n
    /\ 7 * Z.of_nat N / 10 - 1 <= n <= 7 * Z.of_nat N / 10
    /\ (Z.of_nat N mod 10 <> 0 -> n = 7 * Z.of_nat N / 10).
Proof.
  intros HN.
  assert (H : forallb
                (fun N =>
                   match new_line_count default_shrink_speed (Z.of_nat N) with
                   | Ok n =>
                       (7 * Z.of_nat N / 10 - 1 <=? n) && (n <=? 7 * Z.of_nat N / 10)
                       && ((Z.of_nat N mod 10 =? 0) || (n =? 7 * Z.of_nat N / 10))
                   | Raise _ => false
                   end)
                (seq 0 (S 5000)) = true) by (vm_compute; reflexivity).
  rewrite forallb_forall in H. specialize (H N).
  rewrite in_seq in H. assert (HN' : (0 <= N < 0 + S 5000)%nat) by lia.
  specialize (H HN').
  destruct (new_line_count default_shrink_speed (Z.of_nat N)) as [n|]; [|discriminate].
  exists n. apply andb_prop in H as [H H3]. apply andb_prop in H as [H1 H2].
  apply Z.leb_le in H1, H2. split; [reflexivity|]. split; [lia|].
  intros Hmod. apply orb_prop in H3 as [H3|H3].
  - apply Z.eqb_eq in H3. contradiction.
  - now apply Z.eqb_eq in H3.
Qed.

(** X4. One truncating call on an element with the default speed 0.3 and
    at most 5000 lines always returns. It keeps the first [n] lines, where
    [n] is the floor of seven tenths of the line count or, only when the
    line count is a multiple of 10, possibly one less; it appends the note,
    and the counter grows by the number of lines dropped. *)
Theorem default_speed_cut env t :
  shrink_speed t = default_shrink_speed ->
  (line_count t <= 5000)%nat ->
  PromptElement.truthy (PromptElement.is_visible env (base t)) = true ->
  start_trunkate_iteration t <= shrink_calls t ->
  exists t' n,
    shrink env t = Ok t'
    /\ 7 * Z.of_nat (line_count t) / 10 - 1 <= n <= 7 * Z.of_nat (line_count t) / 10
    /\ (Z.of_nat (line_count t) mod 10 <> 0 -> n = 7 * Z.of_nat (line_count t) / 10)
    /\ lines t'
       = (if n =? 0 then [""] else take (Z.to_nat n) (lines t))
         ++ [deleted_note (deleted_lines t')]
    /\ deleted_lines t' = deleted_lines t + (Z.of_nat (line_count t) - n).
Proof.
  intros Hspeed HN Hvis Hth.
  assert (Htr : truncates env t = true) by (apply truncates_spec; auto).
  destruct (default_count_values (line_count t) HN) as (n & Hn & Hb & Hmod).
  destruct (default_count_bounds (line_count t) HN) as (n' & Hn' & Hb').
  assert (n' = n) by congruence. subst n'.
  rewrite <- Hspeed in Hn.
  pose proof (shrink_cut env t n Htr Hn) as Hcut. cbv zeta in Hcut.
  eexists. exists n. split; [exact Hcut|]. split; [exact Hb|]. split; [exact Hmod|].
  split; [apply lines_after_cut; exact Hb' | reflexivity].
Qed.

(** X5. A page-markup dump and an accessibility-tree dump have at least two
    lines whatever they dump; when they have at most 5000, every shrink call
    on them returns, and after any calls one more call leaves at least two
    lines and no more lines than it found. *)
Theorem dumps_never_regrow :
  (forall html visible prefix envs env,
      let t := @HTML.__init__ Env html visible prefix in
      (2 <= line_count t)%nat
      /\ ((line_count t <= 5000)%nat ->
          exists t1 t2,
            shrinks envs t = Ok t1 /\ shrink env t1 = Ok t2
            /\ (2 <= line_count t2 <= line_count t1)%nat))
  /\ (forall ax_tree visible coord_type prefix envs env,
        let t := @AXTree.__init__ Env ax_tree visible coord_type prefix in
        (2 <= line_count t)%nat
        /\ ((line_count t <= 5000)%nat ->
            exists t1 t2,
              shrinks envs t = Ok t1 /\ shrink env t1 = Ok t2
              /\ (2 <= line_count t2 <= line_count t1)%nat)).
Proof.
  split.
  - intros html visible prefix envs env t. split; [apply HTML_two_lines|].
    apply HTML_never_regrows.
  - intros ax_tree visible coord_type prefix envs env t. split; [apply AXTree_two_lines|].
    apply AXTree_never_regrows.
Qed.

End DefaultSpeed.

(** ** The constructor of the main prompt, mode by mode *)

Section InitOutcome.
Context {Env : Type}.
Implicit Types (env : Env) (self : @MyMainPrompt.t Env)
  (obs_history : list Obs.t) (states strategies actions : list string)
  (active_strategy : option string) (action_space : option ActionSpace.t).

Import MyMainPrompt.

Lemma mode_encoding_spec (O S T A : Z) :
  mode_encoding O S T A = true <-> O = S + 1 /\ S = T.
Proof. unfold mode_encoding. rewrite andb_true_iff, !Z.eqb_eq. reflexivity. Qed.

Lemma mode_strategy_spec (O S T A : Z) :
  mode_strategy O S T A = true <-> O = S /\ S = T + 1 /\ T = A.
Proof. unfold mode_strategy. rewrite !andb_true_iff, !Z.eqb_eq. tauto. Qed.

Lemma mode_policy_spec (O S T A : Z) :
  mode_policy O S T A = true <-> O = S /\ S = T /\ T = A + 1.
Proof. unfold mode_policy. rewrite !andb_true_iff, !Z.eqb_eq. tauto. Qed.

Lemma mode_dynamics_spec (O S T A : Z) :
  mode_dynamics O S T A = true <-> O <= S /\ S = T /\ A + 1 <= T.
Proof.
  unfold mode_dynamics. rewrite !andb_true_iff, !Z.eqb_eq, !Z.leb_le. tauto.
Qed.

Lemma mode_rollout_spec (O S T A : Z) :
  mode_rollout O S T A = true <-> O < S /\ S = T + 1.
Proof. unfold mode_rollout. rewrite andb_true_iff, Z.eqb_eq, Z.ltb_lt. reflexivity. Qed.

(** [get_history_step] without observation, with what it leaves of the
    object. *)
Lemma get_history_step_frame env (st sg : string) (ac : option string) self :
  exists self',
    get_history_step env None st (Some sg) ac self = Ok (history_step_text st sg ac, self')
    /\ history_steps self' = history_steps self
    /\ obs self' = obs self /\ history self' = history self.
Proof.
  unfold get_history_step, bindM, modify, ret, bind. cbn [fst snd].
  destruct ac; eexists; (split; [reflexivity | repeat split]).
Qed.

Lemma history_loop_body_frame env states strategies actions
  (k : nat) (st sg : string) (steps : list string) self :
  states !! k = Some st -> strategies !! k = Some sg ->
  history_steps self = Some steps ->
  exists self',
    history_loop_body env states strategies actions (1 + Z.of_nat k) self = Ok (tt, self')
    /\ history_steps self' = Some (steps ++ [history_step_text st sg (actions !! k)])
    /\ obs self' = obs self /\ history self' = history self.
Proof.
  intros Hst Hsg Hsteps.
  destruct (get_history_step_frame env st sg (actions !! k) self)
    as (self1 & Hstep & Hsteps1 & Hobs1 & Hhist1).
  unfold history_loop_body, bindM, lift.
  replace (1 + Z.of_nat k - 1) with (Z.of_nat k) by lia.
  rewrite (index_nat _ _ _ Hst), (index_nat _ _ _ Hsg). cbn [bind fst snd].
  destruct (Z.leb_spec (1 + Z.of_nat k) (PySeq.len actions)) as [Hle|Hgt];
    unfold PySeq.len in *.
  - destruct (actions !! k) as [a|] eqn:Ea.
    2:{ apply lookup_ge_None in Ea. lia. }
    unfold bindM, lift. rewrite (index_nat _ _ _ Ea). cbn [bind fst snd ret].
    rewrite Hstep. cbn [bind fst snd modify].
    eexists. split; [reflexivity|]. cbn. rewrite Hsteps1, Hsteps. auto.
  - destruct (actions !! k) as [a|] eqn:Ea.
    { apply lookup_lt_Some in Ea. lia. }
    cbn [bind fst snd ret]. rewrite Hstep. cbn [bind fst snd modify].
    eexists. split; [reflexivity|]. cbn. rewrite Hsteps1, Hsteps. auto.
Qed.

Lemma history_loop_frame env states strategies actions
  (ks : list nat) (steps : list string) self :
  Forall (fun k => (k < length states)%nat /\ (k < length strategies)%nat) ks ->
  history_steps self = Some steps ->
  exists self',
    for_each (map (fun k => 1 + Z.of_nat k) ks)
      (history_loop_body env states strategies actions) self = Ok (tt, self')
    /\ history_steps self'
       = Some (steps ++ map (fun k =>
                 history_step_text (default "" (states !! k)) (default "" (strategies !! k))
                   (actions !! k)) ks)
    /\ obs self' = obs self /\ history self' = history self.
Proof.
  intros Hks. revert steps self.
  induction Hks as [|k ks [Hk1 Hk2] Hks IH]; intros steps self Hsteps.
  - exists self. cbn. rewrite app_nil_r. auto.
  - destruct (lookup_lt_is_Some_2 states k Hk1) as [st Hst].
    destruct (lookup_lt_is_Some_2 strategies k Hk2) as [sg Hsg].
    destruct (history_loop_body_frame env states strategies actions k st sg steps self
                Hst Hsg Hsteps) as (self1 & Hbody & Hsteps1 & Hobs1 & Hhist1).
    destruct (IH _ self1 Hsteps1) as (self2 & Hrest & Hsteps2 & Hobs2 & Hhist2).
    exists self2. cbn [map for_each]. unfold bindM at 1. rewrite Hbody.
    cbn [bind fst snd]. split; [exact Hrest|].
    split; [|split; congruence].
    rewrite Hsteps2, Hst, Hsg, <- app_assoc. reflexivity.
Qed.

(** [get_history] in full: the text returned, the steps stored, and the
    current-step text and history text left as they were. *)
Lemma get_history_frame env obs_history states strategies actions self :
  PySeq.len states = PySeq.len strategies
  \/ PySeq.len states = PySeq.len strategies + 1 ->
  exists self',
    get_history env obs_history states strategies actions self
    = Ok (history_text states strategies actions, self')
    /\ history_steps self' = Some (history_steps_text states strategies actions)
    /\ obs self' = obs self /\ history self' = history self.
Proof.
  intros Hlen. unfold get_history.
  assert (E : negb ((PySeq.len states =? PySeq.len strategies)
                    || (PySeq.len states =? PySeq.len strategies + 1)) = false).
  { apply negb_false_iff, orb_true_iff. rewrite !Z.eqb_eq. exact Hlen. }
  rewrite E.
  destruct (history_loop_frame env states strategies actions
              (seq 0 (length states - 1)) [] (set_history_steps [] self))
    as (self1 & Hloop & Hsteps1 & Hobs1 & Hhist1).
  { apply Forall_forall. intros k Hk. apply elem_of_seq in Hk.
    unfold PySeq.len in Hlen. lia. }
  { reflexivity. }
  unfold bindM at 1. cbn [modify bind fst snd].
  unfold bindM at 1. unfold PySeq.range.
  replace (Z.to_nat (PySeq.len states - 1)) with (length states - 1)%nat
    by (unfold PySeq.len; lia).
  rewrite Hloop. cbn [bind fst snd]. unfold bindM, gets, ret. cbn [bind fst snd].
  rewrite Hsteps1. eexists. split; [reflexivity|]. split; [exact Hsteps1|].
  split; [exact Hobs1 | exact Hhist1].
Qed.

(** The outcome of the constructor when the assertion holds, for each
    branch of the cascade. *)
Lemma init_outcome env obs_history states strategies actions active_strategy action_space :
  let O := PySeq.len obs_history in
  let S := PySeq.len states in
  let T := PySeq.len strategies in
  let A := PySeq.len actions in
  S = T \/ S = T + 1 ->
  exists p,
    __init__ env obs_history states strategies actions active_strategy action_space = Ok p
    /\ (mode_encoding O S T A = true ->
        exists o, last obs_history = Some o
          /\ obs p = Some (observation_text o)
          /\ history_steps p
             = Some (history_steps_text (drop (length states - 3) states)
                       (drop (length strategies - 3) strategies)
                       (drop (length actions - 3) actions)))
    /\ (mode_encoding O S T A = false ->
        history p = Some (history_text states strategies actions)
        /\ history_steps p = Some (history_steps_text states strategies actions))
    /\ (mode_encoding O S T A = false -> mode_strategy O S T A = true ->
        exists o s, last obs_history = Some o /\ last states = Some s
          /\ obs p = Some (observation_text o +:+ state_block s))
    /\ (mode_encoding O S T A = false -> mode_strategy O S T A = false ->
        mode_policy O S T A = true ->
        exists o s, last obs_history = Some o /\ last states = Some s
          /\ obs p = Some ((observation_text o +:+ state_block s)
                           +:+ strategy_block (PyStr.of_option active_strategy)))
    /\ (mode_encoding O S T A = false -> mode_strategy O S T A = false ->
        mode_policy O S T A = false -> mode_dynamics O S T A = true ->
        exists s g, last states = Some s /\ last strategies = Some g
          /\ obs p = Some (lone_state_block s +:+ strategy_block g))
    /\ (mode_encoding O S T A = false -> mode_strategy O S T A = false ->
        mode_policy O S T A = false -> mode_dynamics O S T A = false ->
        mode_rollout O S T A = true ->
        exists s, last states = Some s /\ obs p = Some (lone_state_block s))
    /\ (mode_encoding O S T A = false -> mode_strategy O S T A = false ->
        mode_policy O S T A = false -> mode_dynamics O S T A = false ->
        mode_rollout O S T A = false -> obs p = None).
Proof.
  intros O S T A Hassert.
  unfold __init__. cbv zeta.
  match goal with
  | |- context [bindM (get_history env obs_history states strategies actions) ?k ?s] =>
      destruct (get_history_frame env obs_history states strategies actions s Hassert)
        as (self1 & Hh & Hsteps1 & Hobs1 & Hhist1)
  end.
  unfold bindM at 1. rewrite Hh. cbn [bind fst snd].
  unfold bindM at 1. cbn [modify bind fst snd].
  fold O S T A.
  destruct (mode_encoding O S T A) eqn:Eenc.
  { apply mode_encoding_spec in Eenc as [HO HS].
    destruct (last_is_Some obs_history) as [o Ho];
      [unfold O, S, T, A, PySeq.len in *; lia|].
    unfold bindM at 1. unfold lift at 1. rewrite (index_last _ _ Ho). cbn [bind fst snd].
    unfold bindM at 1. unfold get_obs at 1. unfold bindM at 1 2. cbn [modify ret bind fst snd].
    unfold bindM at 1. cbn [modify bind fst snd].
    rewrite !slice_from_last3. unfold bindM at 1.
    match goal with
    | |- context [get_history env ?oh ?st ?sg ?ac ?s] =>
        destruct (get_history_frame env oh st sg ac s) as (self3 & Hh3 & Hsteps3 & Hobs3 & _)
    end.
    { left. rewrite !len_last3. unfold O, S, T, A, PySeq.len in *. lia. }
    rewrite Hh3. cbn [bind fst snd modify].
    eexists. split; [reflexivity|].
    split. { intros _. exists o. split; [exact Ho|]. split; [|exact Hsteps3]. cbn. exact Hobs3. }
    repeat split; intros; discriminate. }
  destruct (mode_strategy O S T A) eqn:Estr.
  { apply mode_strategy_spec in Estr as (HO & HS & HT).
    destruct (last_is_Some obs_history) as [o Ho];
      [unfold O, S, T, A, PySeq.len in *; lia|].
    destruct (last_is_Some states) as [s Hs];
      [unfold O, S, T, A, PySeq.len in *; lia|].
    unfold bindM at 1. unfold lift at 1. rewrite (index_last _ _ Ho). cbn [bind fst snd].
    unfold bindM at 1. unfold lift at 1. rewrite (index_last _ _ Hs). cbn [bind fst snd].
    unfold bindM at 1. unfold get_obs_state, get_obs, bindM, modify, ret.
    cbn [bind fst snd].
    eexists. split; [reflexivity|].
    split; [intros; discriminate|].
    split. { intros _. cbn. split; [reflexivity | exact Hsteps1]. }
    split. { intros _ _. exists o, s. repeat split; assumption. }
    repeat split; intros; discriminate. }
  destruct (mode_policy O S T A) eqn:Epol.
  { apply mode_policy_spec in Epol as (HO & HS & HT).
    destruct (last_is_Some obs_history) as [o Ho];
      [unfold O, S, T, A, PySeq.len in *; lia|].
    destruct (last_is_Some states) as [s Hs];
      [unfold O, S, T, A, PySeq.len in *; lia|].
    unfold bindM at 1. unfold lift at 1. rewrite (index_last _ _ Ho). cbn [bind fst snd].
    unfold bindM at 1. unfold lift at 1. rewrite (index_last _ _ Hs). cbn [bind fst snd].
    unfold bindM at 1. unfold get_obs_state_strat, get_obs_state, get_obs, bindM, modify, ret.
    cbn [bind fst snd].
    eexists. split; [reflexivity|].
    split; [intros; discriminate|].
    split. { intros _. cbn. split; [reflexivity | exact Hsteps1]. }
    split; [intros; discriminate|].
    split. { intros _ _ _. exists o, s. repeat split; assumption. }
    repeat split; intros; discriminate. }
  destruct (mode_dynamics O S T A) eqn:Edyn.
  { apply mode_dynamics_spec in Edyn as (HO & HS & HT).
    destruct (last_is_Some states) as [s Hs];
      [unfold O, S, T, A, PySeq.len in *; lia|].
    destruct (last_is_Some strategies) as [g Hg];
      [unfold O, S, T, A, PySeq.len in *; lia|].
    unfold bindM at 1. unfold lift at 1. rewrite (index_last _ _ Hs). cbn [bind fst snd].
    unfold bindM at 1. unfold lift at 1. rewrite (index_last _ _ Hg). cbn [bind fst snd].
    unfold bindM at 1. unfold get_state_strat, get_state, bindM, modify, ret.
    cbn [bind fst snd].
    eexists. split; [reflexivity|].
    split; [intros; discriminate|].
    split. { intros _. cbn. split; [reflexivity | exact Hsteps1]. }
    split; [intros; discriminate|]. split; [intros; discriminate|].
    split. { intros _ _ _ _. exists s, g. repeat split; assumption. }
    repeat split; intros; discriminate. }
  destruct (mode_rollout O S T A) eqn:Erol.
  { apply mode_rollout_spec in Erol as (HO & HS).
    destruct (last_is_Some states) as [s Hs];
      [unfold O, S, T, A, PySeq.len in *; lia|].
    unfold bindM at 1. unfold lift at 1. rewrite (index_last _ _ Hs). cbn [bind fst snd].
    unfold bindM at 1. unfold get_state, bindM, modify, ret.
    cbn [bind fst snd].
    eexists. split; [reflexivity|].
    split; [intros; discriminate|].
    split. { intros _. cbn. split; [reflexivity | exact Hsteps1]. }
    split; [intros; discriminate|]. split; [intros; discriminate|].
    split; [intros; discriminate|].
    split. { intros _ _ _ _ _. exists s. split; [assumption | reflexivity]. }
    intros; discriminate. }
  cbn [ret bind fst snd].
  eexists. split; [reflexivity|].
  split; [intros; discriminate|].
  split. { intros _. cbn. split; [reflexivity | exact Hsteps1]. }
  repeat (split; [intros; discriminate|]).
  intros _ _ _ _ _. exact Hobs1.
Qed.

End InitOutcome.

(** ** The modes of the main prompt *)

Section ModesMore.
Context {Env : Type}.
Implicit Types (env : Env) (self : @MyMainPrompt.t Env)
  (obs_history : list Obs.t) (states strategies actions : list string)
  (active_strategy : option string) (action_space : option ActionSpace.t).

Import MyMainPrompt.

(** Settles a goal [mode ... = true] or [mode ... = false] from the
    hypotheses on the lengths. *)
Ltac mode_goal :=
  match goal with
  | |- mode_encoding _ _ _ _ = true => apply mode_encoding_spec; lia
  | |- mode_strategy _ _ _ _ = true => apply mode_strategy_spec; lia
  | |- mode_policy _ _ _ _ = true => apply mode_policy_spec; lia
  | |- mode_dynamics _ _ _ _ = true => apply mode_dynamics_spec; lia
  | |- mode_rollout _ _ _ _ = true => apply mode_rollout_spec; lia
  | |- mode_encoding _ _ _ _ = false =>
      apply not_true_iff_false; rewrite mode_encoding_spec; lia
  | |- mode_strategy _ _ _ _ = false =>
      apply not_true_iff_false; rewrite mode_strategy_spec; lia
  | |- mode_policy _ _ _ _ = false =>
      apply not_true_iff_false; rewrite mode_policy_spec; lia
  | |- mode_dynamics _ _ _ _ = false =>
      apply not_true_iff_false; rewrite mode_dynamics_spec; lia
  | |- mode_rollout _ _ _ _ = false =>
      apply not_true_iff_false; rewrite mode_rollout_spec; lia
  end.

Lemma init_policy env obs_history states strategies actions active_strategy action_space :
  PySeq.len obs_history = PySeq.len states ->
  PySeq.len states = PySeq.len strategies ->
  PySeq.len strategies = PySeq.len actions + 1 ->
  exists p o s,
    __init__ env obs_history states strategies actions active_strategy action_space = Ok p
    /\ last obs_history = Some o /\ last states = Some s
    /\ obs p = Some ((observation_text o +:+ state_block s)
                     +:+ strategy_block (PyStr.of_option active_strategy))
    /\ history p = Some (history_text states strategies actions).
Proof.
  intros HO HS HT.
  destruct (init_outcome env obs_history states strategies actions active_strategy
              action_space (or_introl HS))
    as (p & Hp & _ & Hhist & _ & Hpol & _).
  destruct Hpol as (o & s & Ho & Hs & Hobs); try mode_goal.
  destruct Hhist as [Hhist _]; [mode_goal|].
  exists p, o, s. auto.
Qed.

Lemma init_dynamics env obs_history states strategies actions active_strategy action_space :
  PySeq.len obs_history <= PySeq.len states ->
  PySeq.len states = PySeq.len strategies ->
  PySeq.len actions + 1 <= PySeq.len strategies ->
  ~ (PySeq.len obs_history = PySeq.len states
     /\ PySeq.len strategies = PySeq.len actions + 1) ->
  exists p s g,
    __init__ env obs_history states strategies actions active_strategy action_space = Ok p
    /\ last states = Some s /\ last strategies = Some g
    /\ obs p = Some (lone_state_block s +:+ strategy_block g)
    /\ history p = Some (history_text states strategies actions).
Proof.
  intros HO HS HT Hnot.
  destruct (init_outcome env obs_history states strategies actions active_strategy
              action_space (or_introl HS))
    as (p & Hp & _ & Hhist & _ & _ & Hdyn & _).
  destruct Hdyn as (s & g & Hs & Hg & Hobs); try mode_goal.
  destruct Hhist as [Hhist _]; [mode_goal|].
  exists p, s, g. auto.
Qed.

Lemma init_rollout env obs_history states strategies actions active_strategy action_space :
  PySeq.len obs_history < PySeq.len states ->
  PySeq.len states = PySeq.len strategies + 1 ->
  exists p s,
    __init__ env obs_history states strategies actions active_strategy action_space = Ok p
    /\ last states = Some s
    /\ obs p = Some (lone_state_block s)
    /\ history p = Some (history_text states strategies actions).
Proof.
  intros HO HS.
  destruct (init_outcome env obs_history states strategies actions active_strategy
              action_space (or_intror HS))
    as (p & Hp & _ & Hhist & _ & _ & _ & Hrol & _).
  destruct Hrol as (s & Hs & Hobs); try mode_goal.
  destruct Hhist as [Hhist _]; [mode_goal|].
  exists p, s. auto.
Qed.

(** X6. When the lengths satisfy [O = S], [S = T] and [T = A + 1], the
    constructor returns in policy mode: the current-step text is the
    rendering of the latest observation, the block of the latest state and
    a strategy block that shows the [active_strategy] argument, the text
    [None] when it is left out; no entry of [strategies] is shown, the text
    is the same whatever the strategies and the actions are. *)
Theorem policy_mode_renders_active_strategy
  env obs_history states strategies actions active_strategy action_space :
  PySeq.len obs_history = PySeq.len states ->
  PySeq.len states = PySeq.len strategies ->
  PySeq.len strategies = PySeq.len actions + 1 ->
  exists p o s,
    __init__ env obs_history states strategies actions active_strategy action_space = Ok p
    /\ last obs_history = Some o /\ last states = Some s
    /\ obs p = Some ((observation_text o +:+ state_block s)
                     +:+ strategy_block (PyStr.of_option active_strategy))
    /\ forall strategies' actions' action_space',
         PySeq.len strategies' = PySeq.len strategies ->
         PySeq.len actions' = PySeq.len actions ->
         exists p',
           __init__ env obs_history states strategies' actions' active_strategy
             action_space' = Ok p'
           /\ obs p' = obs p.
Proof.
  intros HO HS HT.
  destruct (init_policy env obs_history states strategies actions active_strategy
              action_space HO HS HT) as (p & o & s & Hp & Ho & Hs & Hobs & _).
  exists p, o, s. repeat split; try assumption.
  intros strategies' actions' action_space' HT' HA'.
  destruct (init_policy env obs_history states strategies' actions' active_strategy
              action_space') as (p' & o' & s' & Hp' & Ho' & Hs' & Hobs' & _);
    [lia | lia | lia |].
  exists p'. split; [exact Hp'|]. congruence.
Qed.

(** X7. When the lengths satisfy [O <= S], [S = T] and [T >= A + 1] and are
    not those of policy mode, the constructor returns in forward-dynamics
    mode: the current-step text is the block of the latest state followed
    by the block of the latest entry of [strategies]. It reads no
    observation: the text is the same whatever the observations, the
    actions and the active strategy are, also without any observation. *)
Theorem dynamics_mode_renders_state_and_strategy
  env obs_history states strategies actions active_strategy action_space :
  PySeq.len obs_history <= PySeq.len states ->
  PySeq.len states = PySeq.len strategies ->
  PySeq.len actions + 1 <= PySeq.len strategies ->
  ~ (PySeq.len obs_history = PySeq.len states
     /\ PySeq.len strategies = PySeq.len actions + 1) ->
  exists p s g,
    __init__ env obs_history states strategies actions active_strategy action_space = Ok p
    /\ last states = Some s /\ last strategies = Some g
    /\ obs p = Some (lone_state_block s +:+ strategy_block g)
    /\ (exists p0,
          __init__ env [] states strategies [] active_strategy action_space = Ok p0
          /\ obs p0 = obs p)
    /\ forall obs_history' actions' active_strategy' action_space',
         PySeq.len obs_history' <= PySeq.len states ->
         PySeq.len actions' + 1 <= PySeq.len strategies ->
         ~ (PySeq.len obs_history' = PySeq.len states
            /\ PySeq.len strategies = PySeq.len actions' + 1) ->
         exists p',
           __init__ env obs_history' states strategies actions' active_strategy'
             action_space' = Ok p'
           /\ obs p' = obs p.
Proof.
  intros HO HS HT Hnot.
  destruct (init_dynamics env obs_history states strategies actions active_strategy
              action_space HO HS HT Hnot) as (p & s & g & Hp & Hs & Hg & Hobs & _).
  assert (Hall : forall obs_history' actions' active_strategy' action_space',
             PySeq.len obs_history' <= PySeq.len states ->
             PySeq.len actions' + 1 <= PySeq.len strategies ->
             ~ (PySeq.len obs_history' = PySeq.len states
                /\ PySeq.len strategies = PySeq.len actions' + 1) ->
             exists p',
               __init__ env obs_history' states strategies actions' active_strategy'
                 action_space' = Ok p'
               /\ obs p' = obs p).
  { intros obs_history' actions' active_strategy' action_space' HO' HA' Hnot'.
    destruct (init_dynamics env obs_history' states strategies actions' active_strategy'
                action_space' HO' HS HA' Hnot') as (p' & s' & g' & Hp' & Hs' & Hg' & Hobs' & _).
    exists p'. split; [exact Hp'|]. congruence. }
  exists p, s, g. repeat split; try assumption.
  apply Hall; unfold PySeq.len in *; simpl in *; lia.
Qed.

(** X8. When the lengths satisfy [O < S] and [S = T + 1], the constructor
    returns in rollout mode: the current-step text is the block of the
    latest state and nothing else, the same whatever the observations, the
    strategies, the actions and the active strategy are. *)
Theorem rollout_mode_renders_state
  env obs_history states strategies actions active_strategy action_space :
  PySeq.len obs_history < PySeq.len states ->
  PySeq.len states = PySeq.len strategies + 1 ->
  exists p s,
    __init__ env obs_history states strategies actions active_strategy action_space = Ok p
    /\ last states = Some s
    /\ obs p = Some (lone_state_block s)
    /\ forall obs_history' strategies' actions' active_strategy' action_space',
         PySeq.len obs_history' < PySeq.len states ->
         PySeq.len strategies' = PySeq.len strategies ->
         exists p',
           __init__ env obs_history' states strategies' actions' active_strategy'
             action_space' = Ok p'
           /\ obs p' = obs p.
Proof.
  intros HO HS.
  destruct (init_rollout env obs_history states strategies actions active_strategy
              action_space HO HS) as (p & s & Hp & Hs & Hobs & _).
  exists p, s. repeat split; try assumption.
  intros obs_history' strategies' actions' active_strategy' action_space' HO' HT'.
  destruct (init_rollout env obs_history' states strategies' actions' active_strategy'
              action_space') as (p' & s' & Hp' & Hs' & Hobs' & _); [lia | lia |].
  exists p'. split; [exact Hp'|]. congruence.
Qed.

(** X9. The five mode conditions overlap in one place only: the lengths of
    policy mode also satisfy the condition of forward-dynamics mode, so the
    order of the cascade decides there. Every other pair of conditions is
    disjoint, and each condition implies the assertion of [get_history]. *)
Theorem modes_overlap_only_policy_dynamics (O S T A : Z) :
  (mode_policy O S T A = true -> mode_dynamics O S T A = true)
  /\ (mode_encoding O S T A = true ->
      mode_strategy O S T A = false /\ mode_policy O S T A = false
      /\ mode_dynamics O S T A = false /\ mode_rollout O S T A = false)
  /\ (mode_strategy O S T A = true ->
      mode_policy O S T A = false /\ mode_dynamics O S T A = false
      /\ mode_rollout O S T A = false)
  /\ (mode_rollout O S T A = true ->
      mode_policy O S T A = false /\ mode_dynamics O S T A = false)
  /\ (mode_encoding O S T A || mode_strategy O S T A || mode_policy O S T A
      || mode_dynamics O S T A || mode_rollout O S T A = true ->
      S = T \/ S = T + 1).
Proof.
  split; [|split; [|split; [|split]]].
  - rewrite mode_policy_spec. intros H. mode_goal.
  - rewrite mode_encoding_spec. intros H. repeat split; mode_goal.
  - rewrite mode_strategy_spec. intros H. repeat split; mode_goal.
  - rewrite mode_rollout_spec. intros H. repeat split; mode_goal.
  - rewrite !orb_true_iff, mode_encoding_spec, mode_strategy_spec, mode_policy_spec,
      mode_dynamics_spec, mode_rollout_spec. lia.
Qed.

(** X10. The constructor returns exactly when [S = T] or [S = T + 1], in
    every mode and in none; it raises nothing but the [AssertionError] of
    [get_history]: no index it reads is out of range. *)
Theorem constructor_raises_only_assertion
  env obs_history states strategies actions active_strategy action_space :
  (PySeq.len states = PySeq.len strategies
   \/ PySeq.len states = PySeq.len strategies + 1 ->
   exists p,
     __init__ env obs_history states strategies actions active_strategy action_space = Ok p)
  /\ (forall e,
         __init__ env obs_history states strategies actions active_strategy action_space
         = Raise e ->
         e = AssertionError
         /\ PySeq.len states <> PySeq.len strategies
         /\ PySeq.len states <> PySeq.len strategies + 1).
Proof.
  split.
  - intros Hassert.
    destruct (init_outcome env obs_history states strategies actions active_strategy
                action_space Hassert) as (p & Hp & _).
    exists p. exact Hp.
  - intros e He.
    destruct (Z.eq_dec (PySeq.len states) (PySeq.len strategies)) as [H1|H1].
    { destruct (init_outcome env obs_history states strategies actions active_strategy
                  action_space (or_introl H1)) as (p & Hp & _). congruence. }
    destruct (Z.eq_dec (PySeq.len states) (PySeq.len strategies + 1)) as [H2|H2].
    { destruct (init_outcome env obs_history states strategies actions active_strategy
                  action_space (or_intror H2)) as (p & Hp & _). congruence. }
    rewrite init_asserts in He by assumption. injection He as <-. auto.
Qed.

(** The attributes of a constructed prompt: the history text is always set,
    and the current-step text is set when a mode condition holds and only
    then. *)
Lemma init_attributes env obs_history states strategies actions active_strategy
  action_space p :
  let O := PySeq.len obs_history in
  let S := PySeq.len states in
  let T := PySeq.len strategies in
  let A := PySeq.len actions in
  __init__ env obs_history states strategies actions active_strategy action_space = Ok p ->
  (exists h, history p = Some h)
  /\ (mode_encoding O S T A || mode_strategy O S T A || mode_policy O S T A
      || mode_dynamics O S T A || mode_rollout O S T A = true ->
      exists o, obs p = Some o)
  /\ (mode_encoding O S T A || mode_strategy O S T A || mode_policy O S T A
      || mode_dynamics O S T A || mode_rollout O S T A = false ->
      obs p = None).
Proof.
  intros O S T A Hp.
  assert (Hassert : S = T \/ S = T + 1).
  { destruct (Z.eq_dec S T) as [H1|H1]; [auto|].
    destruct (Z.eq_dec S (T + 1)) as [H2|H2]; [auto|].
    unfold S, T in H1, H2. rewrite init_asserts in Hp by assumption. discriminate. }
  destruct (init_outcome env obs_history states strategies actions active_strategy
              action_space Hassert)
    as (p' & Hp' & Henc & Hhist & Hstr & Hpol & Hdyn & Hrol & Hnone).
  assert (p' = p) by congruence. subst p'. fold O S T A in Henc, Hhist, Hstr, Hpol, Hdyn, Hrol, Hnone.
  destruct (mode_encoding O S T A) eqn:E1.
  { apply mode_encoding_spec in E1 as [HO HS].
    destruct (init_encoding env obs_history states strategies actions active_strategy
                action_space HO HS) as (p' & o & Hp2 & _ & Hobs & Hh).
    assert (p' = p) by congruence. subst p'.
    split; [eauto|]. split; [eauto | discriminate]. }
  destruct (Hhist eq_refl) as [Hh _]. split; [eauto|].
  destruct (mode_strategy O S T A) eqn:E2.
  { destruct (Hstr eq_refl eq_refl) as (o & s & _ & _ & Hobs).
    split; [eauto | discriminate]. }
  destruct (mode_policy O S T A) eqn:E3.
  { destruct (Hpol eq_refl eq_refl eq_refl) as (o & s & _ & _ & Hobs).
    split; [eauto | discriminate]. }
  destruct (mode_dynamics O S T A) eqn:E4.
  { destruct (Hdyn eq_refl eq_refl eq_refl eq_refl) as (s & g & _ & _ & Hobs).
    split; [eauto | discriminate]. }
  destruct (mode_rollout O S T A) eqn:E5.
  { destruct (Hrol eq_refl eq_refl eq_refl eq_refl eq_refl) as (s & _ & Hobs).
    split; [eauto | discriminate]. }
  split; [discriminate|]. intros _. now apply Hnone.
Qed.

(** X11. A constructed prompt has its current-step text set exactly when the
    lengths satisfy one of the five mode conditions; its history text is
    always set. *)
Theorem current_step_set_iff_mode
  env obs_history states strategies actions active_strategy action_space p :
  let O := PySeq.len obs_history in
  let S := PySeq.len states in
  let T := PySeq.len strategies in
  let A := PySeq.len actions in
  __init__ env obs_history states strategies actions active_strategy action_space = Ok p ->
  (obs p = None <->
   mode_encoding O S T A || mode_strategy O S T A || mode_policy O S T A
   || mode_dynamics O S T A || mode_rollout O S T A = false)
  /\ history p <> None.
Proof.
  intros O S T A Hp.
  destruct (init_attributes env obs_history states strategies actions active_strategy
              action_space p Hp) as ((h & Hh) & Hset & Hunset).
  fold O S T A in Hset, Hunset.
  split; [|congruence]. split.
  - intros Hnone.
    destruct (mode_encoding O S T A || mode_strategy O S T A || mode_policy O S T A
              || mode_dynamics O S T A || mode_rollout O S T A); [|reflexivity].
    destruct (Hset eq_refl) as [o Ho]. congruence.
  - exact Hunset.
Qed.

End ModesMore.

(** ** The history block *)

Section HistoryMore.
Context {Env : Type}.
Implicit Types (env : Env) (self : @MyMainPrompt.t Env)
  (obs_history : list Obs.t) (states strategies actions : list string)
  (active_strategy : option string) (action_space : option ActionSpace.t).

Import MyMainPrompt.

Lemma map_seq_from {B : Type} (f : nat -> B) (a n : nat) :
  map f (seq a n) = map (fun k => f (a + k)%nat) (seq 0 n).
Proof.
  revert f a. induction n as [|n IH]; intros f a; [reflexivity|].
  cbn [seq map]. rewrite Nat.add_0_r. f_equal.
  rewrite (IH f (S a)), (IH (fun k => f (a + k)%nat) 1%nat).
  apply map_ext. intros k. f_equal. lia.
Qed.

Lemma lookup_map_seq {B : Type} (f : nat -> B) (n k : nat) :
  (k < n)%nat -> map f (seq 0 n) !! k = Some (f k).
Proof.
  revert f k. induction n as [|n IH]; intros f k Hk; [lia|].
  cbn [seq map]. destruct k as [|k]; [reflexivity|].
  rewrite map_seq_from. cbn [lookup list_lookup].
  apply (IH (fun j => f (1 + j)%nat) k). lia.
Qed.

(** The steps of windows of the three lists, read on the lists themselves. *)
Lemma history_steps_of_drops states strategies actions (a b c : nat) :
  history_steps_text (drop a states) (drop b strategies) (drop c actions)
  = map (fun k =>
           history_step_text (default "" (states !! (a + k)%nat))
             (default "" (strategies !! (b + k)%nat)) (actions !! (c + k)%nat))
        (seq 0 (length states - a - 1)).
Proof.
  unfold history_steps_text. rewrite length_drop.
  apply map_ext. intros k. now rewrite !lookup_drop.
Qed.

(** X12. Outside encoding mode the constructor keeps the history of all the
    steps: one step for each state but the last, none when there is at most
    one state; step [k] is made of state [k], strategy [k] and action [k],
    without action block when there is no action [k]; and the history text
    is the title, then the header [## Step k] and the text of each step. *)
Theorem history_has_one_step_per_earlier_state
  env obs_history states strategies actions active_strategy action_space p :
  __init__ env obs_history states strategies actions active_strategy action_space = Ok p ->
  mode_encoding (PySeq.len obs_history) (PySeq.len states) (PySeq.len strategies)
    (PySeq.len actions) = false ->
  exists steps,
    history_steps p = Some steps
    /\ length steps = (length states - 1)%nat
    /\ (forall (k : nat) st sg,
           (k < length states - 1)%nat ->
           states !! k = Some st -> strategies !! k = Some sg ->
           steps !! k = Some (history_step_text st sg (actions !! k)))
    /\ history p = Some (PyStr.join PyStr.LF (history_prompts steps) +:+ PyStr.LF)
    /\ ((length states <= 1)%nat ->
        history p
        = Some (PyStr.LF +:+ "# History of interaction with the task:" +:+ PyStr.LF
                +:+ PyStr.LF)).
Proof.
  intros Hp Henc.
  assert (Hassert : PySeq.len states = PySeq.len strategies
                    \/ PySeq.len states = PySeq.len strategies + 1).
  { destruct (Z.eq_dec (PySeq.len states) (PySeq.len strategies)) as [H1|H1]; [auto|].
    destruct (Z.eq_dec (PySeq.len states) (PySeq.len strategies + 1)) as [H2|H2]; [auto|].
    rewrite init_asserts in Hp by assumption. discriminate. }
  destruct (init_outcome env obs_history states strategies actions active_strategy
              action_space Hassert) as (p' & Hp' & _ & Hhist & _).
  assert (p' = p) by congruence. subst p'.
  destruct (Hhist Henc) as [Hh Hs].
  exists (history_steps_text states strategies actions).
  split; [exact Hs|].
  split. { unfold history_steps_text. now rewrite length_map, length_seq. }
  split.
  { intros k st sg Hk Hst Hsg. unfold history_steps_text.
    rewrite lookup_map_seq by exact Hk. now rewrite Hst, Hsg. }
  split; [exact Hh|].
  intros Hle. rewrite Hh. unfold history_text, history_steps_text.
  replace (length states - 1)%nat with 0%nat by lia. reflexivity.
Qed.

(** X13. In encoding mode the constructor keeps the steps of the windows: at
    most two steps, step [k] made of the state and the strategy at the
    position [S - 3 + k] and of the action at the position [A - 3 + k]
    (positions counted from 0 when a list has fewer than three entries).
    When there are as many actions as states these are the last steps of
    the whole history; otherwise the actions are shifted against the
    states. *)
Theorem encoding_mode_keeps_window_steps
  env obs_history states strategies actions active_strategy action_space :
  PySeq.len obs_history = PySeq.len states + 1 ->
  PySeq.len states = PySeq.len strategies ->
  exists p steps,
    __init__ env obs_history states strategies actions active_strategy action_space = Ok p
    /\ history_steps p = Some steps
    /\ length steps = (Nat.min (length states) 3 - 1)%nat
    /\ steps
       = map (fun k =>
                history_step_text (default "" (states !! (length states - 3 + k)%nat))
                  (default "" (strategies !! (length strategies - 3 + k)%nat))
                  (actions !! (length actions - 3 + k)%nat))
             (seq 0 (Nat.min (length states) 3 - 1))
    /\ (length actions = length states ->
        steps = drop (length states - 3) (history_steps_text states strategies actions)).
Proof.
  intros HO HS.
  destruct (init_outcome env obs_history states strategies actions active_strategy
              action_space (or_introl HS)) as (p & Hp & Henc & _).
  destruct Henc as (o & _ & _ & Hsteps); [apply mode_encoding_spec; auto|].
  rewrite history_steps_of_drops in Hsteps.
  replace (length states - (length states - 3) - 1)%nat
    with (Nat.min (length states) 3 - 1)%nat in Hsteps by lia.
  eexists p, _. split; [exact Hp|]. split; [exact Hsteps|].
  split; [now rewrite length_map, length_seq|]. split; [reflexivity|].
  intros HA. assert (HT : length strategies = length states)
    by (unfold PySeq.len in HS; lia).
  rewrite HT, HA. unfold history_steps_text.
  rewrite skipn_map, skipn_seq.
  rewrite (map_seq_from _ (0 + (length states - 3))).
  replace (length states - 1 - (length states - 3))%nat
    with (Nat.min (length states) 3 - 1)%nat by lia.
  apply map_ext. intros k. reflexivity.
Qed.

End HistoryMore.

(** ** The constructor arguments are kept *)

Section ArgumentsKept.
Context {Env : Type}.
Implicit Types (env : Env) (self : @MyMainPrompt.t Env)
  (obs_history : list Obs.t) (states strategies actions : list string)
  (active_strategy : option string) (action_space : option ActionSpace.t).

Import MyMainPrompt.

Lemma same_arguments_refl self : same_arguments self self.
Proof. repeat split. Qed.

Lemma same_arguments_trans self1 self2 self3 :
  same_arguments self1 self2 -> same_arguments self2 self3 -> same_arguments self1 self3.
Proof.
  intros (? & ? & ? & ? & ? & ? & ?) (? & ? & ? & ? & ? & ? & ?).
  repeat split; congruence.
Qed.

Lemma keeps_ret {A : Type} (a : A) : keeps_arguments (Env := Env) (ret a).
Proof. intros self b self' [= <- <-]. apply same_arguments_refl. Qed.

Lemma keeps_lift {A : Type} (r : result A) : keeps_arguments (Env := Env) (lift r).
Proof.
  intros self b self'. unfold lift. destruct r; simpl; [|discriminate].
  intros [= <- <-]. apply same_arguments_refl.
Qed.

Lemma keeps_gets {A : Type} (f : t -> A) : keeps_arguments (Env := Env) (gets f).
Proof. intros self b self' [= <- <-]. apply same_arguments_refl. Qed.

Lemma keeps_modify (f : @t Env -> t) :
  (forall self, same_arguments self (f self)) -> keeps_arguments (modify f).
Proof. intros Hf self b self' [= <- <-]. apply Hf. Qed.

Lemma keeps_bind {A B : Type} (m : M A) (k : A -> M B) :
  keeps_arguments m -> (forall a, keeps_arguments (k a)) ->
  keeps_arguments (Env := Env) (bindM m k).
Proof.
  intros Hm Hk self b self'. unfold bindM.
  destruct (m self) as [[a self1]|] eqn:E; simpl; [|discriminate].
  intros H. eapply same_arguments_trans; [eapply Hm, E | eapply Hk, H].
Qed.

Lemma keeps_for_each {A : Type} (xs : list A) (body : A -> M unit) :
  (forall x, keeps_arguments (body x)) ->
  keeps_arguments (Env := Env) (for_each xs body).
Proof.
  intros Hbody. induction xs as [|x xs IH]; simpl.
  - apply keeps_ret.
  - apply keeps_bind; [apply Hbody | intros _; exact IH].
Qed.

(** Goes through a method made of the monad's operations and of
    assignments to attributes. *)
Ltac keeps :=
  repeat first
    [ apply keeps_ret | apply keeps_lift | apply keeps_gets
    | apply keeps_modify; intros ?; repeat split
    | apply keeps_bind; [|intros ?]
    | apply keeps_for_each; intros ?
    | match goal with
      | |- keeps_arguments (match ?x with _ => _ end) => destruct x
      | |- keeps_arguments (if ?b then _ else _) => destruct b
      end ].

Lemma get_history_step_keeps env (current_obs : option Obs.t) (st : string)
  (sg ac : option string) :
  keeps_arguments (get_history_step env current_obs st sg ac).
Proof. unfold get_history_step. keeps. Qed.

Lemma get_history_keeps env obs_history states strategies actions :
  keeps_arguments (get_history env obs_history states strategies actions).
Proof.
  unfold get_history, history_loop_body. keeps; try apply get_history_step_keeps.
Qed.

Lemma get_obs_keeps env (o : Obs.t) : keeps_arguments (get_obs env o).
Proof. unfold get_obs. keeps. Qed.

(** The constructor keeps its arguments. *)
Lemma init_same_arguments
  env obs_history states strategies actions active_strategy action_space p :
  __init__ env obs_history states strategies actions active_strategy action_space = Ok p ->
  base p = PromptElement.__init__ (PromptElement.Static (PromptElement.FBool true))
  /\ MyMainPrompt.obs_history p = obs_history
  /\ MyMainPrompt.states p = states
  /\ MyMainPrompt.strategies p = strategies
  /\ MyMainPrompt.actions p = actions
  /\ MyMainPrompt.active_strategy p = active_strategy
  /\ MyMainPrompt.action_space p = action_space.
Proof.
  unfold __init__. cbv zeta.
  match goal with
  | |- bind (?body ?self0) _ = _ -> _ =>
      assert (Hkeeps : keeps_arguments body);
      [| destruct (body self0) as [[u self1]|] eqn:E; simpl; [|discriminate];
         intros [= <-]; exact (Hkeeps _ _ _ E) ]
  end.
  unfold get_obs_state_strat, get_obs_state, get_state_strat, get_state.
  keeps; try apply get_history_keeps; try apply get_obs_keeps.
Qed.

(** X14. A constructed prompt holds the six arguments of the constructor
    unchanged, in every mode. Its own text stays the empty class attribute:
    the [prompt] property of a main prompt renders the empty string, the
    prompts come from the three [get_..._prompt] methods only. *)
Theorem constructor_keeps_arguments
  env obs_history states strategies actions active_strategy action_space p :
  __init__ env obs_history states strategies actions active_strategy action_space = Ok p ->
  MyMainPrompt.obs_history p = obs_history
  /\ MyMainPrompt.states p = states
  /\ MyMainPrompt.strategies p = strategies
  /\ MyMainPrompt.actions p = actions
  /\ MyMainPrompt.active_strategy p = active_strategy
  /\ MyMainPrompt.action_space p = action_space
  /\ forall env', PromptElement.prompt env' (base p) = "".
Proof.
  intros Hp.
  destruct (init_same_arguments _ _ _ _ _ _ _ _ Hp) as (Hb & H1 & H2 & H3 & H4 & H5 & H6).
  repeat split; try assumption. intros env'. rewrite Hb. reflexivity.
Qed.


End ArgumentsKept.

(** ** The three prompts *)

Section PromptGetters.
Context {Env : Type}.
Implicit Types (env : Env)
  (obs_history : list Obs.t) (states strategies actions : list string)
  (active_strategy : option string) (action_space : option ActionSpace.t).

(** The directory of the templates and the reading of a file, any. *)
Variable PROMPTS_DIR : string.
Variable read_file : string -> result string.

Import MyMainPrompt.

(** X16. A prompt constructed with lengths that satisfy no mode condition
    has no current-step text, and each of its three [get_..._prompt]
    methods raises [AttributeError] for the attribute [obs], before any
    template file is read. *)
Theorem prompts_fail_without_current_step
  env obs_history states strategies actions active_strategy action_space p :
  let O := PySeq.len obs_history in
  let S := PySeq.len states in
  let T := PySeq.len strategies in
  let A := PySeq.len actions in
  __init__ env obs_history states strategies actions active_strategy action_space = Ok p ->
  mode_encoding O S T A || mode_strategy O S T A || mode_policy O S T A
  || mode_dynamics O S T A || mode_rollout O S T A = false ->
  let missing := AttributeError "'MyMainPrompt' object has no attribute 'obs'" in
  get_effectuator_prompt PROMPTS_DIR read_file p = Raise missing
  /\ get_encoder_prompt PROMPTS_DIR read_file p = Raise missing
  /\ get_policy_prompt PROMPTS_DIR read_file p = Raise missing.
Proof.
  intros O S T A Hp Hnone missing.
  destruct (init_attributes env obs_history states strategies actions active_strategy
              action_space p Hp) as ((h & Hh) & _ & Hunset).
  specialize (Hunset Hnone).
  unfold get_effectuator_prompt, get_encoder_prompt, get_policy_prompt.
  rewrite Hh, Hunset. repeat split.
Qed.

(** X17. A prompt constructed in one of the five modes never lacks an
    attribute: each [get_..._prompt] method reads its abstract template and
    then its concrete template, raises what the first failing read raises,
    and otherwise returns the history text, the current-step text, for the
    encoder the block of the active strategy given to the constructor, and
    the two templates, in this order. *)
Theorem prompts_are_text_then_templates
  env obs_history states strategies actions active_strategy action_space p :
  let O := PySeq.len obs_history in
  let S := PySeq.len states in
  let T := PySeq.len strategies in
  let A := PySeq.len actions in
  __init__ env obs_history states strategies actions active_strategy action_space = Ok p ->
  mode_encoding O S T A || mode_strategy O S T A || mode_policy O S T A
  || mode_dynamics O S T A || mode_rollout O S T A = true ->
  exists h o,
    history p = Some h /\ obs p = Some o
    /\ get_effectuator_prompt PROMPTS_DIR read_file p
       = (let* abs := read_file (PROMPTS_DIR +:+ "/effectuator-abs.txt") in
          let* con := read_file (PROMPTS_DIR +:+ "/effectuator-con.txt") in
          Ok (((h +:+ o) +:+ abs) +:+ con))
    /\ get_encoder_prompt PROMPTS_DIR read_file p
       = (let* abs := read_file (PROMPTS_DIR +:+ "/encoder-abs.txt") in
          let* con := read_file (PROMPTS_DIR +:+ "/encoder-con.txt") in
          Ok (((h +:+ o +:+ "## Active Strategy:" +:+ PyStr.LF
                +:+ PyStr.of_option active_strategy +:+ PyStr.LF) +:+ abs) +:+ con))
    /\ get_policy_prompt PROMPTS_DIR read_file p
       = (let* abs := read_file (PROMPTS_DIR +:+ "/policy-abs.txt") in
          let* con := read_file (PROMPTS_DIR +:+ "/policy-con.txt") in
          Ok (((h +:+ o) +:+ abs) +:+ con)).
Proof.
  intros O S T A Hp Hmode.
  destruct (init_attributes env obs_history states strategies actions active_strategy
              action_space p Hp) as ((h & Hh) & Hset & _).
  destruct (Hset Hmode) as [o Ho].
  destruct (init_same_arguments _ _ _ _ _ _ _ _ Hp) as (_ & _ & _ & _ & _ & Hact & _).
  exists h, o. split; [exact Hh|]. split; [exact Ho|].
  unfold get_effectuator_prompt, get_encoder_prompt, get_policy_prompt.
  rewrite Hh, Ho, Hact. cbn [attribute bind]. repeat split.
Qed.

End PromptGetters.

(** ** The answer parsers *)

Section ParsersMore.
Context {Env : Type}.

(** The tag parser of the module [utils], any. *)
Variable parse_html_tags_raise :
  string -> option (list string) -> option (list string) -> bool -> result dict.

(** X18. The encoder parser asks the tag parser twice, for the optional
    [think] and then for the required [state] and [progress], and raises
    what the first failing call raises. Otherwise it returns, for every
    key, the value of the second answer when it has one and the value of
    the first answer when not: a key of the [think] answer never replaces
    one of the required answer. The policy parser returns what the tag
    parser returns for the required [strategy]. *)
Theorem encoder_answer_prefers_required_keys (self : @MyMainPrompt.t Env) (text : string) :
  (forall e,
      parse_html_tags_raise text None (Some ["think"]) true = Raise e ->
      MyMainPrompt._parse_encoder_answer parse_html_tags_raise self text = Raise e)
  /\ (forall think e,
         parse_html_tags_raise text None (Some ["think"]) true = Ok think ->
         parse_html_tags_raise text (Some ["state"; "progress"]) None true = Raise e ->
         MyMainPrompt._parse_encoder_answer parse_html_tags_raise self text = Raise e)
  /\ (forall think required : dict,
         parse_html_tags_raise text None (Some ["think"]) true = Ok think ->
         parse_html_tags_raise text (Some ["state"; "progress"]) None true = Ok required ->
         exists ans : dict,
           MyMainPrompt._parse_encoder_answer parse_html_tags_raise self text = Ok ans
           /\ forall k : string,
                ans !! k = match required !! k with
                           | Some v => Some v
                           | None => think !! k
                           end)
  /\ MyMainPrompt._parse_policy_answer parse_html_tags_raise self text
     = parse_html_tags_raise text (Some ["strategy"]) None true.
Proof.
  split; [|split; [|split]].
  - intros e He. unfold MyMainPrompt._parse_encoder_answer. now rewrite He.
  - intros think e Hth He. unfold MyMainPrompt._parse_encoder_answer.
    rewrite Hth. cbn [bind]. now rewrite He.
  - intros think required Hth Hreq. unfold MyMainPrompt._parse_encoder_answer.
    rewrite Hth. cbn [bind]. rewrite Hreq. cbn [bind].
    eexists. split; [reflexivity|]. intros k.
    rewrite (right_id_L ∅ (∪) think), lookup_union.
    destruct (required !! k), (think !! k); reflexivity.
  - unfold MyMainPrompt._parse_policy_answer.
    destruct (parse_html_tags_raise text (Some ["strategy"]) None true) as [d|e];
      cbn [bind]; [|reflexivity].
    now rewrite (right_id_L ∅ (∪) d).
Qed.

(** X19. The two action parsers let an error of the tag parser through as
    it is, and turn every failure of the check of the action into a
    [ParseError]: an answer without the key [action] gives the message of
    the [KeyError], and a main prompt whose action space is [None], the
    default of the constructor, gives the message of the [AttributeError]
    for every answer. *)
Theorem action_parsers_wrap_check_failures :
  (forall (self : @MyActionSpace.t Env) (text : string),
      (forall e,
          parse_html_tags_raise text (Some ["action"]) None true = Raise e ->
          MyActionSpace._parse_answer parse_html_tags_raise self text = Raise e)
      /\ (forall ans : dict,
             parse_html_tags_raise text (Some ["action"]) None true = Ok ans ->
             ans !! "action" = None ->
             MyActionSpace._parse_answer parse_html_tags_raise self text
             = Raise (ParseError
                        ("Error while parsing action" +:+ PyStr.LF +:+ ": "
                         +:+ "'action'" +:+ PyStr.LF
                         +:+ "Make sure your answer is restricted to the allowed actions."))))
  /\ (forall (self : @MyMainPrompt.t Env) (text : string),
        (forall e,
            parse_html_tags_raise text (Some ["action"; "explanation"]) None true = Raise e ->
            MyMainPrompt._parse_effectuator_answer parse_html_tags_raise self text = Raise e)
        /\ (forall (ans : dict) space,
               parse_html_tags_raise text (Some ["action"; "explanation"]) None true = Ok ans ->
               MyMainPrompt.action_space self = Some space ->
               ans !! "action" = None ->
               MyMainPrompt._parse_effectuator_answer parse_html_tags_raise self text
               = Raise (ParseError
                          ("Error while parsing action" +:+ PyStr.LF +:+ ": "
                           +:+ "'action'" +:+ PyStr.LF
                           +:+ "Make sure your answer is restricted to the allowed actions.")))
        /\ (forall ans : dict,
               parse_html_tags_raise text (Some ["action"; "explanation"]) None true = Ok ans ->
               MyMainPrompt.action_space self = None ->
               MyMainPrompt._parse_effectuator_answer parse_html_tags_raise self text
               = Raise (ParseError
                          ("Error while parsing action" +:+ PyStr.LF +:+ ": "
                           +:+ "'NoneType' object has no attribute 'to_python_code'"
                           +:+ PyStr.LF
                           +:+ "Make sure your answer is restricted to the allowed actions.")))).
Proof.
  split.
  - intros self text. split.
    + intros e He. unfold MyActionSpace._parse_answer. now rewrite He.
    + intros ans Hans Hnone. unfold MyActionSpace._parse_answer.
      rewrite Hans. cbn [bind]. unfold dict_get. rewrite Hnone. reflexivity.
  - intros self text. split; [|split].
    + intros e He. unfold MyMainPrompt._parse_effectuator_answer. now rewrite He.
    + intros ans space Hans Hspace Hnone.
      unfold MyMainPrompt._parse_effectuator_answer.
      rewrite Hans. cbn [bind]. rewrite (right_id_L ∅ (∪) ans), Hspace. cbn [bind].
      unfold dict_get. rewrite Hnone. reflexivity.
    + intros ans Hans Hspace. unfold MyMainPrompt._parse_effectuator_answer.
      rewrite Hans. cbn [bind]. rewrite Hspace. reflexivity.
Qed.

End ParsersMore.

(** ** The chat instructions *)

Section ChatFacts.
Context {Env : Type}.

Import ChatInstructions.

Lemma message_lines_ok (msgs : list dict) :
  Forall (fun msg => is_Some (msg !! "role") /\ is_Some (msg !! "message")) msgs ->
  message_lines msgs = Ok (map bullet msgs).
Proof.
  induction 1 as [|msg msgs [[r Hr] [m Hm]] _ IH]; [reflexivity|].
  cbn [message_lines map]. unfold message_line, dict_get, bullet.
  rewrite Hr, Hm. cbn [bind]. rewrite IH. reflexivity.
Qed.

Lemma message_lines_raises (good : list dict) (bad : dict) (rest : list dict) (e : exn) :
  Forall (fun msg => is_Some (msg !! "role") /\ is_Some (msg !! "message")) good ->
  message_line bad = Raise e ->
  message_lines (good ++ bad :: rest) = Raise e.
Proof.
  intros Hgood Hbad. induction Hgood as [|msg msgs [[r Hr] [m Hm]] _ IH].
  - cbn [app message_lines]. now rewrite Hbad.
  - cbn [app message_lines]. unfold message_line at 1. unfold dict_get.
    rewrite Hr, Hm. cbn [bind]. now rewrite IH.
Qed.

(** X20. The chat instructions are built when every message has the keys
    [role] and [message]: the text is the fixed header followed by one line
    [ - [role] message] for each message, joined by newlines, and the
    header alone without messages. The first message that lacks a key stops
    the construction with the [KeyError] of that key, [role] first. *)
Theorem chat_instructions_need_role_and_message
  (visible : @PromptElement.visibility Env) :
  (forall msgs : list dict,
      Forall (fun msg => is_Some (msg !! "role") /\ is_Some (msg !! "message")) msgs ->
      exists e,
        __init__ msgs visible = Ok e
        /\ PromptElement._prompt e = header +:+ PyStr.join PyStr.LF (map bullet msgs)
        /\ PromptElement._visible e = visible)
  /\ (exists e, __init__ [] visible = Ok e /\ PromptElement._prompt e = header +:+ "")
  /\ (forall (good : list dict) (bad : dict) (rest : list dict),
         Forall (fun msg => is_Some (msg !! "role") /\ is_Some (msg !! "message")) good ->
         (bad !! "role" = None ->
          __init__ (good ++ bad :: rest) visible = Raise (KeyError "role"))
         /\ (is_Some (bad !! "role") -> bad !! "message" = None ->
             __init__ (good ++ bad :: rest) visible = Raise (KeyError "message"))).
Proof.
  split; [|split].
  - intros msgs Hmsgs. unfold __init__. rewrite (message_lines_ok msgs Hmsgs).
    eexists. split; [reflexivity|]. split; reflexivity.
  - eexists. split; reflexivity.
  - intros good bad rest Hgood. split.
    + intros Hrole. unfold __init__.
      rewrite (message_lines_raises good bad rest (KeyError "role") Hgood); [reflexivity|].
      unfold message_line, dict_get. now rewrite Hrole.
    + intros [r Hr] Hmsg. unfold __init__.
      rewrite (message_lines_raises good bad rest (KeyError "message") Hgood); [reflexivity|].
      unfold message_line, dict_get. now rewrite Hr, Hmsg.
Qed.

End ChatFacts.

(** ** Witnesses of the further properties *)


Lemma repeated_cuts_keep_prefix_witness :
  let t := Examples.after (repeat tt 10) Examples.ax7 in
  exists t' (m : nat),
    Trunkater.shrinks [tt; tt; tt] t = Ok t'
    /\ (1 <= m < Trunkater.line_count t)%nat
    /\ Trunkater.lines t'
       = take m (Trunkater.lines t)
         ++ [Trunkater.deleted_note (Trunkater.deleted_lines t')]
    /\ Trunkater.deleted_lines t'
       = Trunkater.deleted_lines t
         + (Z.of_nat (Trunkater.line_count t) - Z.of_nat m) + PySeq.len [tt; tt].
Proof.
  apply (repeated_cuts_keep_prefix tt [tt; tt]
           (Examples.after (repeat tt 10) Examples.ax7)).
  - reflexivity.
  - repeat constructor.
  - vm_compute. discriminate.
  - vm_compute. repeat constructor.
  - vm_compute. reflexivity.
Defined.

Lemma default_speed_cut_witness :
  let t := Examples.after (repeat tt 10) Examples.ax90 in
  exists t' n,
    Trunkater.shrink tt t = Ok t'
    /\ 7 * Z.of_nat (Trunkater.line_count t) / 10 - 1 <= n
       <= 7 * Z.of_nat (Trunkater.line_count t) / 10
    /\ (Z.of_nat (Trunkater.line_count t) mod 10 <> 0 ->
        n = 7 * Z.of_nat (Trunkater.line_count t) / 10)
    /\ Trunkater.lines t'
       = (if n =? 0 then [""] else take (Z.to_nat n) (Trunkater.lines t))
         ++ [Trunkater.deleted_note (Trunkater.deleted_lines t')]
    /\ Trunkater.deleted_lines t'
       = Trunkater.deleted_lines t + (Z.of_nat (Trunkater.line_count t) - n).
Proof.
  apply (default_speed_cut tt (Examples.after (repeat tt 10) Examples.ax90)).
  - reflexivity.
  - vm_compute. repeat constructor.
  - reflexivity.
  - vm_compute. discriminate.
Defined.

Lemma shrinks_count_and_keep_configuration_witness :
  let t := Examples.ax7 in
  let t' := Examples.after (repeat tt 12) Examples.ax7 in
  Trunkater.shrink_calls t' = Trunkater.shrink_calls t + PySeq.len (repeat tt 12)
  /\ PromptElement._visible (Trunkater.base t') = PromptElement._visible (Trunkater.base t)
  /\ Trunkater.shrink_speed t' = Trunkater.shrink_speed t
  /\ Trunkater.start_trunkate_iteration t' = Trunkater.start_trunkate_iteration t
  /\ PromptElement._abstract_ex (Trunkater.base t')
     = PromptElement._abstract_ex (Trunkater.base t)
  /\ PromptElement._concrete_ex (Trunkater.base t')
     = PromptElement._concrete_ex (Trunkater.base t).
Proof.
  apply (shrinks_count_and_keep_configuration (repeat tt 12) Examples.ax7
           (Examples.after (repeat tt 12) Examples.ax7)).
  vm_compute. reflexivity.
Defined.

Lemma policy_mode_renders_active_strategy_witness :
  exists p o s,
    MyMainPrompt.__init__ tt [Examples.ob "t1" ""; Examples.ob "t2" ""] ["s1"; "s2"]
      ["g1"; "g2"] ["a1"] None None = Ok p
    /\ last [Examples.ob "t1" ""; Examples.ob "t2" ""] = Some o
    /\ last ["s1"; "s2"] = Some s
    /\ MyMainPrompt.obs p
       = Some ((MyMainPrompt.observation_text o +:+ MyMainPrompt.state_block s)
               +:+ MyMainPrompt.strategy_block (PyStr.of_option None))
    /\ forall strategies' actions' action_space',
         PySeq.len strategies' = PySeq.len ["g1"; "g2"] ->
         PySeq.len actions' = PySeq.len ["a1"] ->
         exists p',
           MyMainPrompt.__init__ tt [Examples.ob "t1" ""; Examples.ob "t2" ""] ["s1"; "s2"]
             strategies' actions' None action_space' = Ok p'
           /\ MyMainPrompt.obs p' = MyMainPrompt.obs p.
Proof.
  apply (policy_mode_renders_active_strategy tt
           [Examples.ob "t1" ""; Examples.ob "t2" ""] ["s1"; "s2"] ["g1"; "g2"] ["a1"]
           None None); reflexivity.
Defined.

Lemma dynamics_mode_renders_state_and_strategy_witness :
  exists p s g,
    MyMainPrompt.__init__ tt [Examples.ob "t1" ""] ["s1"; "s2"] ["g1"; "g2"] [] None None
    = Ok p
    /\ last ["s1"; "s2"] = Some s /\ last ["g1"; "g2"] = Some g
    /\ MyMainPrompt.obs p
       = Some (MyMainPrompt.lone_state_block s +:+ MyMainPrompt.strategy_block g)
    /\ (exists p0,
          MyMainPrompt.__init__ tt [] ["s1"; "s2"] ["g1"; "g2"] [] None None = Ok p0
          /\ MyMainPrompt.obs p0 = MyMainPrompt.obs p)
    /\ forall obs_history' actions' active_strategy' action_space',
         PySeq.len obs_history' <= PySeq.len ["s1"; "s2"] ->
         PySeq.len actions' + 1 <= PySeq.len ["g1"; "g2"] ->
         ~ (PySeq.len obs_history' = PySeq.len ["s1"; "s2"]
            /\ PySeq.len ["g1"; "g2"] = PySeq.len actions' + 1) ->
         exists p',
           MyMainPrompt.__init__ tt obs_history' ["s1"; "s2"] ["g1"; "g2"] actions'
             active_strategy' action_space' = Ok p'
           /\ MyMainPrompt.obs p' = MyMainPrompt.obs p.
Proof.
  apply (dynamics_mode_renders_state_and_strategy tt [Examples.ob "t1" ""]
           ["s1"; "s2"] ["g1"; "g2"] [] None None).
  - vm_compute. discriminate.
  - reflexivity.
  - vm_compute. discriminate.
  - vm_compute. intros [H _]. discriminate.
Defined.

Lemma rollout_mode_renders_state_witness :
  exists p s,
    MyMainPrompt.__init__ tt [Examples.ob "t1" ""] ["s1"; "s2"] ["g1"] [] None None = Ok p
    /\ last ["s1"; "s2"] = Some s
    /\ MyMainPrompt.obs p = Some (MyMainPrompt.lone_state_block s)
    /\ forall obs_history' strategies' actions' active_strategy' action_space',
         PySeq.len obs_history' < PySeq.len ["s1"; "s2"] ->
         PySeq.len strategies' = PySeq.len ["g1"] ->
         exists p',
           MyMainPrompt.__init__ tt obs_history' ["s1"; "s2"] strategies' actions'
             active_strategy' action_space' = Ok p'
           /\ MyMainPrompt.obs p' = MyMainPrompt.obs p.
Proof.
  apply (rollout_mode_renders_state tt [Examples.ob "t1" ""] ["s1"; "s2"] ["g1"] []
           None None); reflexivity.
Defined.

Lemma current_step_set_iff_mode_witness :
  (MyMainPrompt.obs Examples.unmatched_prompt = None <->
   MyMainPrompt.mode_encoding 1 1 1 1 || MyMainPrompt.mode_strategy 1 1 1 1
   || MyMainPrompt.mode_policy 1 1 1 1 || MyMainPrompt.mode_dynamics 1 1 1 1
   || MyMainPrompt.mode_rollout 1 1 1 1 = false)
  /\ MyMainPrompt.history Examples.unmatched_prompt <> None.
Proof.
  apply (current_step_set_iff_mode tt [Examples.ob "t1" ""] ["s1"] ["g1"] ["a1"] None None
           Examples.unmatched_prompt).
  vm_compute. reflexivity.
Defined.

Lemma history_has_one_step_per_earlier_state_witness :
  let states := ["s1"; "s2"; "s3"; "s4"] in
  let strategies := ["g1"; "g2"; "g3"; "g4"] in
  let actions := ["a1"; "a2"; "a3"] in
  exists steps,
    MyMainPrompt.history_steps Examples.policy_prompt = Some steps
    /\ length steps = (length states - 1)%nat
    /\ (forall (k : nat) st sg,
           (k < length states - 1)%nat ->
           states !! k = Some st -> strategies !! k = Some sg ->
           steps !! k = Some (MyMainPrompt.history_step_text st sg (actions !! k)))
    /\ MyMainPrompt.history Examples.policy_prompt
       = Some (PyStr.join PyStr.LF (MyMainPrompt.history_prompts steps) +:+ PyStr.LF)
    /\ ((length states <= 1)%nat ->
        MyMainPrompt.history Examples.policy_prompt
        = Some (PyStr.LF +:+ "# History of interaction with the task:" +:+ PyStr.LF
                +:+ PyStr.LF)).
Proof.
  apply (history_has_one_step_per_earlier_state tt
           [Examples.ob "t1" ""; Examples.ob "t2" ""; Examples.ob "t3" ""; Examples.ob "t4" ""]
           ["s1"; "s2"; "s3"; "s4"] ["g1"; "g2"; "g3"; "g4"] ["a1"; "a2"; "a3"]
           (Some "go on") (Some Examples.click_space) Examples.policy_prompt).
  - vm_compute. reflexivity.
  - reflexivity.
Defined.

Lemma encoding_mode_keeps_window_steps_witness :
  let obs_history :=
    [Examples.ob "t1" ""; Examples.ob "t2" ""; Examples.ob "t3" ""; Examples.ob "t4" "";
     Examples.ob "t5" ""] in
  let states := ["s1"; "s2"; "s3"; "s4"] in
  let strategies := ["g1"; "g2"; "g3"; "g4"] in
  let actions := ["a1"; "a2"; "a3"] in
  exists p steps,
    MyMainPrompt.__init__ tt obs_history states strategies actions None None = Ok p
    /\ MyMainPrompt.history_steps p = Some steps
    /\ length steps = (Nat.min (length states) 3 - 1)%nat
    /\ steps
       = map (fun k =>
                MyMainPrompt.history_step_text
                  (default "" (states !! (length states - 3 + k)%nat))
                  (default "" (strategies !! (length strategies - 3 + k)%nat))
                  (actions !! (length actions - 3 + k)%nat))
             (seq 0 (Nat.min (length states) 3 - 1))
    /\ (length actions = length states ->
        steps = drop (length states - 3)
                  (MyMainPrompt.history_steps_text states strategies actions)).
Proof.
  apply (encoding_mode_keeps_window_steps tt
           [Examples.ob "t1" ""; Examples.ob "t2" ""; Examples.ob "t3" ""; Examples.ob "t4" "";
            Examples.ob "t5" ""]
           ["s1"; "s2"; "s3"; "s4"] ["g1"; "g2"; "g3"; "g4"] ["a1"; "a2"; "a3"] None None);
    reflexivity.
Defined.

(** With three actions for four states, the steps of the window pair the
    state [s2] with the action [a1] and [s3] with [a2], where the whole
    history pairs [s2] with [a2] and [s3] with [a3]. *)
Example window_shifts_actions :
  exists p,
    MyMainPrompt.__init__ tt
      [Examples.ob "t1" ""; Examples.ob "t2" ""; Examples.ob "t3" ""; Examples.ob "t4" "";
       Examples.ob "t5" ""]
      ["s1"; "s2"; "s3"; "s4"] ["g1"; "g2"; "g3"; "g4"] ["a1"; "a2"; "a3"] None None = Ok p
    /\ MyMainPrompt.history_steps p
       = Some [MyMainPrompt.history_step_text "s2" "g2" (Some "a1");
               MyMainPrompt.history_step_text "s3" "g3" (Some "a2")].
Proof. eexists. split; vm_compute; reflexivity. Qed.

Lemma prompts_fail_without_current_step_witness :
  let missing := AttributeError "'MyMainPrompt' object has no attribute 'obs'" in
  MyMainPrompt.get_effectuator_prompt "/app/prompts" Examples.read_template
    Examples.unmatched_prompt = Raise missing
  /\ MyMainPrompt.get_encoder_prompt "/app/prompts" Examples.read_template
       Examples.unmatched_prompt = Raise missing
  /\ MyMainPrompt.get_policy_prompt "/app/prompts" Examples.read_template
       Examples.unmatched_prompt = Raise missing.
Proof.
  apply (prompts_fail_without_current_step "/app/prompts" Examples.read_template tt
           [Examples.ob "t1" ""] ["s1"] ["g1"] ["a1"] None None Examples.unmatched_prompt).
  - vm_compute. reflexivity.
  - reflexivity.
Defined.

Lemma prompts_are_text_then_templates_witness :
  exists h o,
    MyMainPrompt.history Examples.policy_prompt = Some h
    /\ MyMainPrompt.obs Examples.policy_prompt = Some o
    /\ MyMainPrompt.get_effectuator_prompt "/app/prompts" Examples.read_template
         Examples.policy_prompt
       = (let* abs := Examples.read_template ("/app/prompts" +:+ "/effectuator-abs.txt") in
          let* con := Examples.read_template ("/app/prompts" +:+ "/effectuator-con.txt") in
          Ok (((h +:+ o) +:+ abs) +:+ con))
    /\ MyMainPrompt.get_encoder_prompt "/app/prompts" Examples.read_template
         Examples.policy_prompt
       = (let* abs := Examples.read_template ("/app/prompts" +:+ "/encoder-abs.txt") in
          let* con := Examples.read_template ("/app/prompts" +:+ "/encoder-con.txt") in
          Ok (((h +:+ o +:+ "## Active Strategy:" +:+ PyStr.LF
                +:+ PyStr.of_option (Some "go on") +:+ PyStr.LF) +:+ abs) +:+ con))
    /\ MyMainPrompt.get_policy_prompt "/app/prompts" Examples.read_template
         Examples.policy_prompt
       = (let* abs := Examples.read_template ("/app/prompts" +:+ "/policy-abs.txt") in
          let* con := Examples.read_template ("/app/prompts" +:+ "/policy-con.txt") in
          Ok (((h +:+ o) +:+ abs) +:+ con)).
Proof.
  apply (prompts_are_text_then_templates "/app/prompts" Examples.read_template tt
           [Examples.ob "t1" ""; Examples.ob "t2" ""; Examples.ob "t3" ""; Examples.ob "t4" ""]
           ["s1"; "s2"; "s3"; "s4"] ["g1"; "g2"; "g3"; "g4"] ["a1"; "a2"; "a3"]
           (Some "go on") (Some Examples.click_space) Examples.policy_prompt).
  - vm_compute. reflexivity.
  - reflexivity.
Defined.

Lemma constructor_keeps_arguments_witness :
  MyMainPrompt.obs_history Examples.policy_prompt
  = [Examples.ob "t1" ""; Examples.ob "t2" ""; Examples.ob "t3" ""; Examples.ob "t4" ""]
  /\ MyMainPrompt.states Examples.policy_prompt = ["s1"; "s2"; "s3"; "s4"]
  /\ MyMainPrompt.strategies Examples.policy_prompt = ["g1"; "g2"; "g3"; "g4"]
  /\ MyMainPrompt.actions Examples.policy_prompt = ["a1"; "a2"; "a3"]
  /\ MyMainPrompt.active_strategy Examples.policy_prompt = Some "go on"
  /\ MyMainPrompt.action_space Examples.policy_prompt = Some Examples.click_space
  /\ forall env',
       PromptElement.prompt env' (MyMainPrompt.base Examples.policy_prompt) = "".
Proof.
  apply (constructor_keeps_arguments tt
           [Examples.ob "t1" ""; Examples.ob "t2" ""; Examples.ob "t3" ""; Examples.ob "t4" ""]
           ["s1"; "s2"; "s3"; "s4"] ["g1"; "g2"; "g3"; "g4"] ["a1"; "a2"; "a3"]
           (Some "go on") (Some Examples.click_space) Examples.policy_prompt).
  vm_compute. reflexivity.
Defined.

Lemma dumps_never_regrow_witness :
  let t := @HTML.__init__ unit "<p>a</p>" Examples.shown "## " in
  (2 <= Trunkater.line_count t)%nat
  /\ exists t1 t2,
       Trunkater.shrinks (repeat tt 12) t = Ok t1 /\ Trunkater.shrink tt t1 = Ok t2
       /\ (2 <= Trunkater.line_count t2 <= Trunkater.line_count t1)%nat.
Proof.
  destruct (proj1 (@dumps_never_regrow unit) "<p>a</p>" Examples.shown "## "
              (repeat tt 12) tt) as [two more].
  split; [exact two | apply more].
  vm_compute. repeat constructor.
Defined.

Lemma constructor_raises_only_assertion_witness :
  exists p,
    MyMainPrompt.__init__ tt [Examples.ob "t1" ""] ["s1"] ["g1"] ["a1"] None None = Ok p.
Proof.
  apply (proj1 (constructor_raises_only_assertion tt [Examples.ob "t1" ""] ["s1"] ["g1"]
                  ["a1"] None None)).
  left. reflexivity.
Defined.

Lemma encoder_answer_prefers_required_keys_witness :
  let text := "<think>t</think><state>s</state><progress>p</progress>" in
  exists ans : dict,
    MyMainPrompt._parse_encoder_answer Utils.parse_html_tags_raise Examples.policy_prompt text
    = Ok ans
    /\ forall k : string,
         ans !! k = match ({[ "state" := "s"; "progress" := "p" ]} : dict) !! k with
                    | Some v => Some v
                    | None => ({[ "think" := "t" ]} : dict) !! k
                    end.
Proof.
  apply (proj1 (proj2 (proj2
           (encoder_answer_prefers_required_keys Utils.parse_html_tags_raise
              Examples.policy_prompt
              "<think>t</think><state>s</state><progress>p</progress>"))));
    vm_compute; reflexivity.
Defined.

Lemma action_parsers_wrap_check_failures_witness :
  MyMainPrompt._parse_effectuator_answer Utils.parse_html_tags_raise
    Examples.unmatched_prompt "<action>click('41')</action><explanation>x</explanation>"
  = Raise (ParseError
             ("Error while parsing action" +:+ PyStr.LF +:+ ": "
              +:+ "'NoneType' object has no attribute 'to_python_code'" +:+ PyStr.LF
              +:+ "Make sure your answer is restricted to the allowed actions.")).
Proof.
  eapply (proj2 (proj2 (proj2 (action_parsers_wrap_check_failures
                                 Utils.parse_html_tags_raise)
                          Examples.unmatched_prompt
                          "<action>click('41')</action><explanation>x</explanation>")));
    vm_compute; reflexivity.
Defined.

Lemma chat_instructions_need_role_and_message_witness :
  let hello : dict := {[ "role" := "user"; "message" := "hi" ]} in
  let nameless : dict := {[ "message" := "hi" ]} in
  (exists e,
      ChatInstructions.__init__ [hello] Examples.shown = Ok e
      /\ PromptElement._prompt e
         = ChatInstructions.header
           +:+ PyStr.join PyStr.LF (map ChatInstructions.bullet [hello])
      /\ PromptElement._visible e = Examples.shown)
  /\ ChatInstructions.__init__ ([hello] ++ nameless :: [hello]) Examples.shown
     = Raise (KeyError "role").
Proof.
  destruct (chat_instructions_need_role_and_message Examples.shown)
    as (built & _ & stopped).
  split.
  - apply built. repeat constructor; vm_compute; eauto.
  - apply stopped.
    + repeat constructor; vm_compute; eauto.
    + vm_compute. reflexivity.
Defined.

(** ** Failures and counts out of range of the truncation *)

Section ShrinkFailures.
Context {Env : Type}.
Implicit Types (env : Env) (t : @Trunkater.t Env).

Import Trunkater.

(** [int] of a float raises one of two errors. *)
Lemma to_int_raises x e :
  PyFloat.to_int x = Raise e ->
  (exists msg, e = ValueError msg) \/ (exists msg, e = OverflowError msg).
Proof.
  unfold PyFloat.to_int. destruct (Prim2SF x); intros [= <-]; eauto.
Qed.

Lemma new_line_count_raises speed n e :
  new_line_count speed n = Raise e ->
  (exists msg, e = ValueError msg) \/ (exists msg, e = OverflowError msg).
Proof.
  unfold new_line_count, PyFloat.int_mul, PyFloat.of_int, bind.
  destruct (PrimFloat.is_infinity _).
  - intros [= <-]. eauto.
  - apply to_int_raises.
Qed.

(** The product with [1 - speed] is no number when [speed] is none. *)
Lemma new_line_count_not_finite speed n :
  PyFloat.is_finite speed = false -> is_ok (new_line_count speed n) = false.
Proof.
  unfold PyFloat.is_finite, new_line_count, PyFloat.int_mul, PyFloat.of_int, bind.
  intros Hs. destruct (PrimFloat.is_infinity _); [reflexivity|].
  unfold PyFloat.to_int, PyFloat.one_minus. rewrite mul_spec, sub_spec.
  replace (Prim2SF 1) with (S754_finite false 4503599627370496 (-52))
    by (vm_compute; reflexivity).
  destruct (Prim2SF speed) as [| s | |]; try discriminate.
  - destruct (Prim2SF _) as [ [] | [] | | [] ? ?]; destruct s; reflexivity.
  - destruct (Prim2SF _) as [ [] | [] | | [] ? ?]; reflexivity.
Qed.

(** X21. A shrink call fails only while it truncates, and only in the
    conversions of [int(len(lines) * (1 - shrink_speed))]: it raises a
    [ValueError] or an [OverflowError] and nothing else, before anything of
    the element is assigned. With a speed that is a NaN or an infinity every
    truncating call fails; a call that does not truncate returns with any
    speed. *)
Theorem shrink_fails_only_in_conversion env t :
  (forall e,
      shrink env t = Raise e ->
      truncates env t = true
      /\ new_line_count (shrink_speed t) (PySeq.len (lines t)) = Raise e
      /\ ((exists msg, e = ValueError msg) \/ (exists msg, e = OverflowError msg)))
  /\ (truncates env t = true -> PyFloat.is_finite (shrink_speed t) = false ->
      is_ok (shrink env t) = false)
  /\ (truncates env t = false -> is_ok (shrink env t) = true).
Proof.
  split; [|split].
  - intros e He. destruct (shrink_raises env t e He) as [Htr Hn].
    split; [exact Htr|]. split; [exact Hn|].
    exact (new_line_count_raises _ _ _ Hn).
  - intros Htr Hs.
    pose proof (new_line_count_not_finite (shrink_speed t) (PySeq.len (lines t)) Hs) as Hn.
    unfold shrink. rewrite Htr. unfold lines in Hn.
    destruct (new_line_count _ _); [discriminate|reflexivity].
  - intros Htr. rewrite (shrink_skip env t Htr). reflexivity.
Qed.

(** X22. The note counts the lines dropped only when the count kept is in
    range. After a truncating call that kept the count [n] of [N] lines, the
    deleted-line counter has grown by [N - n]; the lines dropped are so many
    exactly when [0 <= n <= N]. A negative count (a speed above 1) slices
    from the end, keeps [N + n] lines and has the counter grow by more than
    [N]; a count above [N] (a negative speed) keeps every line and has the
    counter decrease. *)
Theorem note_counts_dropped_lines_in_range env t t' n :
  PromptElement.truthy (PromptElement.is_visible env (base t)) = true ->
  start_trunkate_iteration t <= shrink_calls t ->
  new_line_count (shrink_speed t) (PySeq.len (lines t)) = Ok n ->
  shrink env t = Ok t' ->
  let N := PySeq.len (lines t) in
  let kept := PySeq.slice_to (lines t) n in
  lines t' = match kept with [] => [""] | _ => kept end
             ++ [deleted_note (deleted_lines t')]
  /\ (deleted_lines t' - deleted_lines t = N - PySeq.len kept <-> 0 <= n <= N)
  /\ (n < 0 ->
      kept = take (Z.to_nat (N + n)) (lines t)
      /\ PySeq.len kept = Z.max 0 (N + n)
      /\ N < deleted_lines t' - deleted_lines t)
  /\ (N < n -> kept = lines t /\ deleted_lines t' < deleted_lines t).
Proof.
  intros Hvis Hth Hn Hs N kept.
  assert (Htr : truncates env t = true) by (apply truncates_spec; auto).
  rewrite (shrink_cut env t n Htr Hn) in Hs. injection Hs as <-.
  assert (Hd : deleted_lines
                 (set_shrink_calls
                    (set_prompt
                       (set_deleted_lines t (deleted_lines t + (PySeq.len (lines t) - n)))
                       (PyStr.join PyStr.LF (PySeq.slice_to (lines t) n) +:+ PyStr.LF
                        +:+ deleted_note (deleted_lines t + (PySeq.len (lines t) - n))))
                    (shrink_calls t + 1))
               = deleted_lines t + (N - n)) by reflexivity.
  rewrite Hd.
  assert (Hk : PySeq.len kept
               = if n <? 0 then Z.max 0 (N + n) else Z.min n N).
  { unfold kept, PySeq.slice_to, N, PySeq.len.
    destruct (n <? 0) eqn:E; rewrite length_take; lia. }
  split.
  { unfold lines at 1.
    cbn [base set_shrink_calls set_prompt PromptElement.set_prompt PromptElement._prompt].
    apply cut_lines_any, lines_no_linebreak. }
  split.
  { rewrite Hk. destruct (n <? 0) eqn:E.
    - apply Z.ltb_lt in E. split; intros; lia.
    - apply Z.ltb_ge in E. split; intros; lia. }
  split.
  - intros Hneg. assert (E : (n <? 0) = true) by (apply Z.ltb_lt; lia).
    rewrite Hk, E. unfold kept, PySeq.slice_to. rewrite E.
    split; [reflexivity|]. split; [reflexivity|]. lia.
  - intros Hbig. assert (E : (n <? 0) = false) by (apply Z.ltb_ge; unfold N, PySeq.len in *; lia).
    unfold kept, PySeq.slice_to. rewrite E. split; [|lia].
    apply take_ge. unfold N, PySeq.len in Hbig. lia.
Qed.

End ShrinkFailures.

(** ** The parser of the base class *)

Section BaseParser.
Context {Env : Type}.
Implicit Types (env : Env) (self : @PromptElement.t Env).

Import PromptElement.




End BaseParser.

Lemma shrink_fails_only_in_conversion_witness :
  is_ok (Trunkater.shrink tt Examples.nan_speed) = false.
Proof.
  apply (proj1 (proj2 (shrink_fails_only_in_conversion tt Examples.nan_speed)));
    vm_compute; reflexivity.
Defined.

Lemma note_counts_dropped_lines_in_range_witness :
  let t := Examples.overspeed in
  let t' := Examples.after [tt] Examples.overspeed in
  let N := PySeq.len (Trunkater.lines t) in
  let kept := PySeq.slice_to (Trunkater.lines t) (-3) in
  Trunkater.lines t' = match kept with [] => [""] | _ => kept end
                       ++ [Trunkater.deleted_note (Trunkater.deleted_lines t')]
  /\ (Trunkater.deleted_lines t' - Trunkater.deleted_lines t = N - PySeq.len kept
      <-> 0 <= -3 <= N)
  /\ (-3 < 0 ->
      kept = take (Z.to_nat (N + -3)) (Trunkater.lines t)
      /\ PySeq.len kept = Z.max 0 (N + -3)
      /\ N < Trunkater.deleted_lines t' - Trunkater.deleted_lines t)
  /\ (N < -3 -> kept = Trunkater.lines t
      /\ Trunkater.deleted_lines t' < Trunkater.deleted_lines t).
Proof.
  apply (note_counts_dropped_lines_in_range tt Examples.overspeed
           (Examples.after [tt] Examples.overspeed) (-3)).
  - reflexivity.
  - vm_compute. discriminate.
  - vm_compute. reflexivity.
  - vm_compute. reflexivity.
Defined.

(** With the speed 1.5 the seven lines are cut to four and the note reports
    ten deleted lines; with the speed -0.5 they all stay and the note
    reports minus three. *)
Example counts_out_of_range :
  Trunkater.lines (Examples.after [tt] Examples.overspeed)
  = ["[1] item"; "[2] item"; "[3] item"; "[4] item";
     "... Deleted 10 lines to reduce prompt size."]
  /\ Trunkater.lines (Examples.after [tt] Examples.underspeed)
     = ["[1] item"; "[2] item"; "[3] item"; "[4] item"; "[5] item"; "[6] item"; "[7] item";
        "... Deleted -3 lines to reduce prompt size."].
Proof. split; vm_compute; reflexivity. Qed.

